(** * blackroad-dev-journal: the persistence and query core of [dev_journal.py]

    A shallow embedding of [src/dev_journal.py].  The program is a thin
    wrapper around Python's [json], [datetime] and [sqlite3] modules, so the
    embedding models what it uses of them and then the program itself:

    - [PyStr]   Python [str] values as sequences of Unicode code points;
    - [Json]    [json.dumps] / [json.loads] on the values the program
                serializes, lists of strings;
    - [Date]    [datetime.date] as a proleptic Gregorian ordinal;
    - [Sqlite]  the database file: the [entries] table, its AUTOINCREMENT
                counter, the [entries_fts] index and the three triggers,
                and a connection with an implicit transaction;
    - [Journal] the functions of [dev_journal.py] themselves, with the
                console and the export file as far as the exceptions of
                [print] and [open] go.

    Definitions come first, the lemmas about them follow. *)

From Stdlib Require Import ZArith List String Ascii Bool Lia.
From Stdlib Require Import Sorting.Sorted Sorting.Permutation.
Import ListNotations.
Open Scope Z_scope.

(* ===================================================================== *)
(** ** Python exceptions and results *)
(* ===================================================================== *)

(** The exceptions that the modelled code paths can raise.  None of them is
    caught anywhere in [dev_journal.py]: the file has no [try] statement. *)
Inductive PyExc : Type :=
| OperationalError      (* sqlite3: missing table, FTS5 query syntax *)
| IntegrityError        (* sqlite3: constraint failed *)
| UnicodeEncodeError    (* sqlite3: a str parameter that is not UTF-8 encodable;
                           print and file.write: text that cannot be encoded *)
| JSONDecodeError       (* json.loads *)
| ValueError            (* tuple.index, date.fromisoformat *)
| OverflowError         (* timedelta / date arithmetic out of range *)
| SystemExit (code : Z) (* sys.exit *)
| OSError               (* open: FileNotFoundError, PermissionError, ... *).

Inductive Result (A : Type) : Type :=
| Ok (a : A)
| Raise (e : PyExc).
Arguments Ok {A} a.
Arguments Raise {A} e.

Definition bind {A B} (m : Result A) (k : A -> Result B) : Result B :=
  match m with
  | Ok a => k a
  | Raise e => Raise e
  end.

Declare Scope py_scope.
Delimit Scope py_scope with py.
Notation "x <- m ;; k" := (bind m (fun x => k))
  (at level 61, m at next level, right associativity) : py_scope.
Notation "' pat <- m ;; k" := (bind m (fun x => match x with pat => k end))
  (at level 61, pat pattern, m at next level, right associativity) : py_scope.

(** [[f(x) for x in l]] with an [f] that can raise: the first failure wins. *)
Fixpoint mapM {A B} (f : A -> Result B) (l : list A) : Result (list B) :=
  match l with
  | [] => Ok []
  | x :: l' =>
      match f x with
      | Raise e => Raise e
      | Ok y => match mapM f l' with
                | Raise e => Raise e
                | Ok ys => Ok (y :: ys)
                end
      end
  end.

(* ===================================================================== *)
(** ** Python strings *)
(* ===================================================================== *)

Module PyStr.

(** A [str] is a sequence of code points.  Python allows every value in
    [0, 0x10FFFF], the surrogates [0xD800 .. 0xDFFF] included. *)
Definition str : Type := list Z.

Definition lit (s : string) : str :=
  map (fun a => Z.of_N (N_of_ascii a)) (list_ascii_of_string s).

Definition is_codepoint (c : Z) : bool := (0 <=? c) && (c <=? 0x10FFFF).
Definition is_high_surrogate (c : Z) : bool := (0xD800 <=? c) && (c <=? 0xDBFF).
Definition is_low_surrogate (c : Z) : bool := (0xDC00 <=? c) && (c <=? 0xDFFF).
Definition is_surrogate (c : Z) : bool := (0xD800 <=? c) && (c <=? 0xDFFF).

(** Unicode scalar values: what UTF-8 can encode. *)
Definition is_scalar (c : Z) : bool := is_codepoint c && negb (is_surrogate c).

(** [s.encode("utf-8")] succeeds exactly on strings of scalar values. *)
Definition utf8_encodable (s : str) : bool := forallb is_scalar s.

Fixpoint eqb (a b : str) : bool :=
  match a, b with
  | [], [] => true
  | x :: a', y :: b' => (x =? y) && eqb a' b'
  | _, _ => false
  end.

(** Lexicographic order on code points.  On encodable strings it is the
    order of SQLite's BINARY collation ([memcmp] on the UTF-8 bytes, then
    the shorter string first), because UTF-8 preserves code point order. *)
Fixpoint compare (a b : str) : comparison :=
  match a, b with
  | [], [] => Eq
  | [], _ :: _ => Lt
  | _ :: _, [] => Gt
  | x :: a', y :: b' =>
      match x ?= y with
      | Eq => compare a' b'
      | c => c
      end
  end.

Definition ltb (a b : str) : bool :=
  match compare a b with Lt => true | _ => false end.
Definition leb (a b : str) : bool :=
  match compare a b with Gt => false | _ => true end.

(** [x in t] for a tuple of strings. *)
Definition mem (x : str) (t : list str) : bool := existsb (eqb x) t.

(** [t.index(x)]: the first position of [x], [ValueError] when absent. *)
Fixpoint index (t : list str) (x : str) : Result Z :=
  match t with
  | [] => Raise ValueError
  | y :: t' =>
      if eqb y x then Ok 0
      else match index t' x with
           | Ok i => Ok (i + 1)
           | Raise e => Raise e
           end
  end.

End PyStr.

Abbreviation str := PyStr.str.

(* ===================================================================== *)
(** ** json.dumps and json.loads on lists of strings *)
(* ===================================================================== *)

Module Json.
Import PyStr.

(** *** Encoder: [json.dumps(l)] with the default [ensure_ascii=True] *)

Definition hexdigit (d : Z) : Z :=
  if d <? 10 then 48 + d else 87 + d.      (* '0'..'9', 'a'..'f' *)

(** ['{0:04x}'.format(n)] for [0 <= n < 0x10000]. *)
Definition hex4 (n : Z) : str :=
  [ hexdigit (Z.land (Z.shiftr n 12) 15);
    hexdigit (Z.land (Z.shiftr n 8) 15);
    hexdigit (Z.land (Z.shiftr n 4) 15);
    hexdigit (Z.land n 15) ].

Definition u_escape (n : Z) : str := 92 :: 117 :: hex4 n.   (* \uXXXX *)

(** The replacement of one character by [encode_basestring_ascii]:
    [ESCAPE_DCT] first, printable ASCII unchanged, the rest as [\uXXXX],
    code points above the BMP as a surrogate pair. *)
Definition escape_char (c : Z) : str :=
  if c =? 34 then [92; 34]                 (* backslash quote *)
  else if c =? 92 then [92; 92]            (* backslash backslash *)
  else if c =? 10 then [92; 110]           (* \n *)
  else if c =? 13 then [92; 114]           (* \r *)
  else if c =? 9 then [92; 116]            (* \t *)
  else if c =? 8 then [92; 98]             (* \b *)
  else if c =? 12 then [92; 102]           (* \f *)
  else if (32 <=? c) && (c <=? 126) then [c]
  else if c <? 0x10000 then u_escape c
  else
    let n := c - 0x10000 in
    let s1 := Z.lor 0xD800 (Z.land (Z.shiftr n 10) 0x3FF) in
    let s2 := Z.lor 0xDC00 (Z.land n 0x3FF) in
    u_escape s1 ++ u_escape s2.

Definition encode_basestring_ascii (s : str) : str :=
  34 :: flat_map escape_char s ++ [34].

(** The items joined by the default item separator [", "]. *)
Fixpoint join_items (items : list str) : str :=
  match items with
  | [] => []
  | [x] => x
  | x :: rest => x ++ 44 :: 32 :: join_items rest
  end.

Definition json_dumps (l : list str) : str :=
  91 :: join_items (map encode_basestring_ascii l) ++ [93].

(** A string that [json.loads] reads back as written: code points only,
    and no high surrogate directly before a low surrogate. *)
Fixpoint json_safe (s : str) : bool :=
  match s with
  | [] => true
  | c :: s' =>
      is_codepoint c
      && match s' with
         | c' :: _ => negb (is_high_surrogate c && is_low_surrogate c')
         | [] => true
         end
      && json_safe s'
  end.

(** The encoder's alphabet. *)
Definition ascii_printable (s : str) : Prop :=
  Forall (fun c => 32 <= c <= 126) s.

(** *** Decoder: [json.loads(s)], restricted to arrays of strings *)

Definition is_ws (c : Z) : bool :=
  (c =? 32) || (c =? 9) || (c =? 10) || (c =? 13).

Fixpoint skip_ws (s : str) : str :=
  match s with
  | c :: s' => if is_ws c then skip_ws s' else s
  | [] => []
  end.

Definition hexval (c : Z) : option Z :=
  if (48 <=? c) && (c <=? 57) then Some (c - 48)
  else if (97 <=? c) && (c <=? 102) then Some (c - 87)
  else if (65 <=? c) && (c <=? 70) then Some (c - 55)
  else None.

Definition decode_uXXXX (h1 h2 h3 h4 : Z) : option Z :=
  match hexval h1, hexval h2, hexval h3, hexval h4 with
  | Some a, Some b, Some c, Some d => Some (((a * 16 + b) * 16 + c) * 16 + d)
  | _, _, _, _ => None
  end.

(** The [BACKSLASH] table of the decoder. *)
Definition backslash (e : Z) : option Z :=
  if e =? 34 then Some 34
  else if e =? 92 then Some 92
  else if e =? 47 then Some 47
  else if e =? 98 then Some 8
  else if e =? 102 then Some 12
  else if e =? 110 then Some 10
  else if e =? 114 then Some 13
  else if e =? 116 then Some 9
  else None.

Definition join_surrogates (hi lo : Z) : Z :=
  0x10000 + Z.lor (Z.shiftl (hi - 0xD800) 10) (lo - 0xDC00).

Definition push (c : Z) (r : option (str * str)) : option (str * str) :=
  match r with
  | Some (v, rest) => Some (c :: v, rest)
  | None => None
  end.

(** [scanstring], strict mode, entered just after the opening quote:
    the decoded string and the input after the closing quote.  A [\uXXXX]
    that is a high surrogate and is directly followed by a [\uXXXX] that
    is a low surrogate is decoded as one code point. *)
Fixpoint scanstring (s : str) : option (str * str) :=
  match s with
  | [] => None
  | c :: s1 =>
      if c =? 34 then Some ([], s1)
      else if c =? 92 then
        match s1 with
        | [] => None
        | e :: s2 =>
            if e =? 117 then
              match s2 with
              | h1 :: h2 :: h3 :: h4 :: s3 =>
                  match decode_uXXXX h1 h2 h3 h4 with
                  | None => None
                  | Some uni =>
                      if is_high_surrogate uni then
                        match s3 with
                        | b :: u :: g1 :: g2 :: g3 :: g4 :: s4 =>
                            if (b =? 92) && (u =? 117) then
                              match decode_uXXXX g1 g2 g3 g4 with
                              | None => None
                              | Some uni2 =>
                                  if is_low_surrogate uni2
                                  then push (join_surrogates uni uni2) (scanstring s4)
                                  else push uni (scanstring s3)
                              end
                            else push uni (scanstring s3)
                        | _ => push uni (scanstring s3)
                        end
                      else push uni (scanstring s3)
                  end
              | _ => None
              end
            else
              match backslash e with
              | Some ch => push ch (scanstring s2)
              | None => None
              end
        end
      else if c <? 32 then None
      else push c (scanstring s1)
  end.

(** What follows a [\uXXXX] escape does not complete a surrogate pair:
    it is not itself a [\uXXXX] escape of a low surrogate. *)
Definition plain_ahead (s : str) : bool :=
  match s with
  | b :: u :: g1 :: g2 :: g3 :: g4 :: _ =>
      if (b =? 92) && (u =? 117) then
        match decode_uXXXX g1 g2 g3 g4 with
        | Some v => negb (is_low_surrogate v)
        | None => false
        end
      else true
  | _ => true
  end.

(** The loop of [JSONArray] once the array is known to be non-empty: a
    value, then a comma or the closing bracket.  Only string values are in the model.  Each
    round consumes input, so the length of the input is enough fuel. *)
Fixpoint array_items (fuel : nat) (s : str) : option (list str * str) :=
  match fuel with
  | O => None
  | S fuel' =>
      match s with
      | c :: s1 =>
          if c =? 34 then
            match scanstring s1 with
            | None => None
            | Some (v, s2) =>
                match skip_ws s2 with
                | d :: s3 =>
                    if d =? 93 then Some ([v], s3)
                    else if d =? 44 then
                      match array_items fuel' (skip_ws s3) with
                      | Some (vs, r) => Some (v :: vs, r)
                      | None => None
                      end
                    else None
                | [] => None
                end
            end
          else None
      | [] => None
      end
  end.

Definition JSONArray (s : str) : option (list str * str) :=
  match skip_ws s with
  | c :: s1 =>
      if c =? 93 then Some ([], s1)
      else array_items (List.length s) (skip_ws s)
  | [] => None
  end.

(** [json.loads(s)] where the document is an array of strings.  Any other
    text is reported as [JSONDecodeError]: either Python raises it, or the
    document holds a value that is not a [List[str]] and so lies outside
    the data model of [JournalEntry]. *)
Definition json_loads (s : str) : Result (list str) :=
  match skip_ws s with
  | c :: s1 =>
      if c =? 91 then
        match JSONArray s1 with
        | Some (l, rest) =>
            match skip_ws rest with
            | [] => Ok l
            | _ :: _ => Raise JSONDecodeError
            end
        | None => Raise JSONDecodeError
        end
      else Raise JSONDecodeError
  | [] => Raise JSONDecodeError
  end.

End Json.

(* ===================================================================== *)
(** ** datetime.date *)
(* ===================================================================== *)

Module Date.
Import PyStr.

(** A [date] is kept as its proleptic Gregorian ordinal ([toordinal()]):
    day 1 is 0001-01-01, a Monday.  Year, month and day are recomputed by
    [_ord2ymd], as [date.fromordinal] does. *)
Definition date : Type := Z.

Definition MINYEAR : Z := 1.
Definition MAXYEAR : Z := 9999.
Definition _MAXORDINAL : Z := 3652059.      (* date(9999, 12, 31).toordinal() *)

Definition valid (d : date) : bool := (1 <=? d) && (d <=? _MAXORDINAL).

Definition _is_leap (year : Z) : bool :=
  (year mod 4 =? 0) && (negb (year mod 100 =? 0) || (year mod 400 =? 0)).

Definition _days_before_year (year : Z) : Z :=
  let y := year - 1 in
  y * 365 + y / 4 - y / 100 + y / 400.

Definition _DAYS_IN_MONTH : list Z :=
  [-1; 31; 28; 31; 30; 31; 30; 31; 31; 30; 31; 30; 31].
Definition _DAYS_BEFORE_MONTH : list Z :=
  [-1; 0; 31; 59; 90; 120; 151; 181; 212; 243; 273; 304; 334].

Definition _days_in_month (year month : Z) : Z :=
  if (month =? 2) && _is_leap year then 29
  else nth (Z.to_nat month) _DAYS_IN_MONTH 0.

Definition _days_before_month (year month : Z) : Z :=
  nth (Z.to_nat month) _DAYS_BEFORE_MONTH 0
  + (if (2 <? month) && _is_leap year then 1 else 0).

Definition _ymd2ord (year month day : Z) : Z :=
  _days_before_year year + _days_before_month year month + day.

Definition _DI400Y : Z := 146097.
Definition _DI100Y : Z := 36524.
Definition _DI4Y : Z := 1461.

Definition _ord2ymd (n0 : Z) : Z * Z * Z :=
  let n := n0 - 1 in
  let n400 := n / _DI400Y in
  let n := n mod _DI400Y in
  let year := n400 * 400 + 1 in
  let n100 := n / _DI100Y in
  let n := n mod _DI100Y in
  let n4 := n / _DI4Y in
  let n := n mod _DI4Y in
  let n1 := n / 365 in
  let n := n mod 365 in
  let year := year + n100 * 100 + n4 * 4 + n1 in
  if (n1 =? 4) || (n100 =? 4) then (year - 1, 12, 31)
  else
    let leapyear := (n1 =? 3) && (negb (n4 =? 24) || (n100 =? 3)) in
    let month := Z.shiftr (n + 50) 5 in
    let preceding :=
      nth (Z.to_nat month) _DAYS_BEFORE_MONTH 0
      + (if (2 <? month) && leapyear then 1 else 0) in
    if n <? preceding then
      let month := month - 1 in
      let preceding :=
        preceding - (nth (Z.to_nat month) _DAYS_IN_MONTH 0
                     + (if (month =? 2) && leapyear then 1 else 0)) in
      (year, month, n - preceding + 1)
    else (year, month, n - preceding + 1).

(** [d.weekday()]: Monday is 0. *)
Definition weekday (d : date) : Z := (d + 6) mod 7.

(** [d - timedelta(days=n)].  [timedelta] itself refuses more than
    999999999 days, and the result must be a date of the years 1..9999. *)
Definition sub_days (d : date) (n : Z) : Result date :=
  if 999999999 <? Z.abs n then Raise OverflowError
  else
    let o := d - n in
    if (0 <? o) && (o <=? _MAXORDINAL) then Ok o else Raise OverflowError.

(** [(a - b).days] *)
Definition days_between (a b : date) : Z := a - b.

Definition digit (n : Z) : Z := 48 + n mod 10.

(** ["%04d-%02d-%02d" % (year, month, day)] *)
Definition isoformat (d : date) : str :=
  let '(y, m, dd) := _ord2ymd d in
  [ digit (y / 1000); digit (y / 100); digit (y / 10); digit y; 45;
    digit (m / 10); digit m; 45;
    digit (dd / 10); digit dd ].

Definition digit_val (c : Z) : option Z :=
  if (48 <=? c) && (c <=? 57) then Some (c - 48) else None.

Definition number (cs : list Z) : option Z :=
  fold_left (fun acc c =>
               match acc, digit_val c with
               | Some a, Some v => Some (a * 10 + v)
               | _, _ => None
               end) cs (Some 0).

(** [date.fromisoformat(s)] on the form [YYYY-MM-DD], the one that
    [isoformat] writes and every Python version reads.  (Python 3.11 and
    later read a few more ISO 8601 spellings; they are [ValueError] here.) *)
Definition fromisoformat (s : str) : Result date :=
  match s with
  | [y1; y2; y3; y4; s1; m1; m2; s2; d1; d2] =>
      match number [y1; y2; y3; y4], number [m1; m2], number [d1; d2] with
      | Some y, Some m, Some d =>
          if (s1 =? 45) && (s2 =? 45)
             && (MINYEAR <=? y) && (y <=? MAXYEAR)
             && (1 <=? m) && (m <=? 12)
             && (1 <=? d) && (d <=? _days_in_month y m)
          then Ok (_ymd2ord y m d)
          else Raise ValueError
      | _, _, _ => Raise ValueError
      end
  | _ => Raise ValueError
  end.

(** *** Auxiliary definitions for the lemmas on dates

    The month tables by leapness, the month and day part of [_ord2ymd],
    checkers that are run over all months and all days of a year, and the
    pieces of the ISO string. *)

(** [_days_in_month] and [_days_before_month] by the leapness of the year. *)
Definition dim (leap : bool) (m : Z) : Z :=
  if (m =? 2) && leap then 29 else nth (Z.to_nat m) _DAYS_IN_MONTH 0.

Definition dbm (leap : bool) (m : Z) : Z :=
  nth (Z.to_nat m) _DAYS_BEFORE_MONTH 0 + (if (2 <? m) && leap then 1 else 0).

(** The end of [_ord2ymd]: month and day from the day of the year. *)
Definition month_day (n : Z) (leapyear : bool) : Z * Z :=
  let month := Z.shiftr (n + 50) 5 in
  let preceding :=
    nth (Z.to_nat month) _DAYS_BEFORE_MONTH 0
    + (if (2 <? month) && leapyear then 1 else 0) in
  if n <? preceding then
    let month := month - 1 in
    let preceding :=
      preceding - (nth (Z.to_nat month) _DAYS_IN_MONTH 0
                   + (if (month =? 2) && leapyear then 1 else 0)) in
    (month, n - preceding + 1)
  else (month, n - preceding + 1).

(** What is checked of [month_day] for every day of a year. *)
Definition month_day_ok (leap : bool) (n : Z) : bool :=
  let '(m, d) := month_day n leap in
  (1 <=? m) && (m <=? 12) && (1 <=? d) && (d <=? dim leap m)
  && (dbm leap m + d =? n + 1).

Definition months : list Z := [1; 2; 3; 4; 5; 6; 7; 8; 9; 10; 11; 12].

(** A day of a month is a day of the year; a later month starts after the
    end of an earlier one. *)
Definition month_table_ok (leap : bool) (m : Z) : bool :=
  (0 <=? dbm leap m) && (28 <=? dim leap m)
  && (dbm leap m + dim leap m <=? 365 + (if leap then 1 else 0))
  && forallb (fun m' => negb (m <? m') || (dbm leap m + dim leap m <=? dbm leap m'))
             months.

(** The order of year, month, day triples. *)
Definition lex3 (y m d y' m' d' : Z) : comparison :=
  match y ?= y' with
  | Eq => match m ?= m' with
          | Eq => d ?= d'
          | c => c
          end
  | c => c
  end.

Definition ymd_valid (y m d : Z) : Prop :=
  1 <= y <= 9999 /\ 1 <= m <= 12 /\ 1 <= d <= _days_in_month y m.

(** The three fields of [isoformat] and the whole string. *)
Definition digits4 (y : Z) : str :=
  [digit (y / 1000); digit (y / 100); digit (y / 10); digit y].
Definition digits2 (m : Z) : str := [digit (m / 10); digit m].

Definition fmt (y m d : Z) : str :=
  digits4 y ++ [45] ++ digits2 m ++ [45] ++ digits2 d.

End Date.

(* ===================================================================== *)
(** ** The platform: floats, the FTS5 query language, the console, files *)
(* ===================================================================== *)

(** Two things the program uses are taken as parameters.  [float] is the
    type of [focus_hours] (a Python float, a REAL column), with the addition
    that [sum] folds from its start value [0] and the test for NaN, which
    SQLite stores as NULL.  [fts5_match] is the query
    language of SQLite's FTS5 extension: [None] when FTS5 rejects the syntax
    of the query, otherwise the predicate that the query denotes on the
    three indexed columns of a document.

    Two more describe where the program writes.  [sys.stdout] is a UTF-8
    text stream: [stdout_accepts s] says whether it can encode the string
    [s], which it can for every string of scalar values; what becomes of
    a lone surrogate depends on the error handler of the stream (refused by
    [strict]; [surrogateescape] lets U+DC80 .. U+DCFF through).
    [open_w fname] is [open(fname, "w")] in the current directory: [Ok], or
    the exception that it raises ([OSError] for a directory that does not
    exist or a name that is too long, [ValueError] for a NUL). *)
Class Platform : Type := {
  float : Type;
  float_zero : float;
  float_add : float -> float -> float;
  float_isnan : float -> bool;
  fts5_match : str -> option (str -> str -> str -> bool);
  stdout_accepts : str -> bool;
  stdout_accepts_utf8 :
    forall s, PyStr.utf8_encodable s = true -> stdout_accepts s = true;
  open_w : str -> Result unit
}.

(* ===================================================================== *)
(** ** Lists: ORDER BY, DISTINCT *)
(* ===================================================================== *)

Section ListOps.
Context {A : Type}.

(** Insertion before the first element that is not smaller: rows with
    equal keys keep the order in which they were scanned. *)
Fixpoint insert_by (le : A -> A -> bool) (x : A) (l : list A) : list A :=
  match l with
  | [] => [x]
  | y :: l' => if le x y then x :: y :: l' else y :: insert_by le x l'
  end.

Definition sort_by (le : A -> A -> bool) (l : list A) : list A :=
  fold_right (insert_by le) [] l.

Fixpoint distinct (eqb : A -> A -> bool) (l : list A) : list A :=
  match l with
  | [] => []
  | x :: l' => x :: filter (fun y => negb (eqb x y)) (distinct eqb l')
  end.

Definition count (p : A -> bool) (l : list A) : Z :=
  Z.of_nat (List.length (filter p l)).

Definition is_empty (l : list A) : bool :=
  match l with [] => true | _ :: _ => false end.

(** The elements before the first one that fails [p]. *)
Fixpoint take_while (p : A -> bool) (l : list A) : list A :=
  match l with
  | [] => []
  | x :: l' => if p x then x :: take_while p l' else []
  end.
End ListOps.

(* ===================================================================== *)
(** ** The SQLite database behind [journal.db] *)
(* ===================================================================== *)

Module Sqlite.
Section WithPlatform.
Context {P : Platform}.

(** A row of [entries].  TEXT values are kept as the strings they decode
    to; every column is NOT NULL and the model has no [None]. *)
Record Row : Type := mkRow {
  col_id : Z;
  col_date : str;
  col_title : str;
  col_body : str;
  col_tags_json : str;
  col_mood : str;
  col_focus_hours : float;
  col_accomplishments : str;
  col_blockers : str;
  col_tomorrow : str;
  col_created_at : str
}.

(** What [entries_fts] has indexed for one rowid. *)
Record FtsDoc : Type := mkDoc {
  rowid : Z;
  fts_title : str;
  fts_body : str;
  fts_tags_json : str
}.

(** The schema objects that [get_db] creates, each present or absent, and
    their content.  [entries] is kept in rowid order. *)
Record Db : Type := mkDb {
  entries : option (list Row);
  sqlite_sequence : Z;            (* AUTOINCREMENT: largest rowid ever used *)
  entries_fts : option (list FtsDoc);
  entries_ai : bool;
  entries_ad : bool;
  entries_au : bool
}.

(** A database file that does not exist yet, or is empty. *)
Definition empty_db : Db := mkDb None 0 None false false false.

(** *** The statements of the schema script *)

Definition create_table_entries (d : Db) : Db :=
  match entries d with
  | Some _ => d
  | None => mkDb (Some []) (sqlite_sequence d) (entries_fts d)
                 (entries_ai d) (entries_ad d) (entries_au d)
  end.

(** A new FTS5 table starts with an empty index, whatever [entries] holds. *)
Definition create_virtual_table_entries_fts (d : Db) : Db :=
  match entries_fts d with
  | Some _ => d
  | None => mkDb (entries d) (sqlite_sequence d) (Some [])
                 (entries_ai d) (entries_ad d) (entries_au d)
  end.

Definition create_trigger_entries_ai (d : Db) : Db :=
  mkDb (entries d) (sqlite_sequence d) (entries_fts d)
       true (entries_ad d) (entries_au d).

Definition create_trigger_entries_ad (d : Db) : Db :=
  mkDb (entries d) (sqlite_sequence d) (entries_fts d)
       (entries_ai d) true (entries_au d).

Definition create_trigger_entries_au (d : Db) : Db :=
  mkDb (entries d) (sqlite_sequence d) (entries_fts d)
       (entries_ai d) (entries_ad d) true.

(** *** INSERT INTO entries, with the AFTER INSERT trigger *)

Definition MAX_ROWID : Z := 9223372036854775807.

Definition max_rowid (rows : list Row) : Z :=
  fold_right (fun r m => Z.max (col_id r) m) 0 rows.

Definition fts_doc (r : Row) : FtsDoc :=
  mkDoc (col_id r) (col_title r) (col_body r) (col_tags_json r).

(** [INSERT INTO entries_fts(rowid, title, body, tags_json) VALUES ...] *)
Definition insert_into_entries_fts (d : Db) (doc : FtsDoc) : Result Db :=
  match entries_fts d with
  | None => Raise OperationalError
  | Some docs =>
      Ok (mkDb (entries d) (sqlite_sequence d) (Some (docs ++ [doc]))
               (entries_ai d) (entries_ad d) (entries_au d))
  end.

(** One INSERT statement.  The rowid is one more than the largest rowid
    the table ever had; a NaN bound to [focus_hours] is NULL and fails the
    NOT NULL constraint; the row is appended; then the trigger [entries_ai],
    when it exists, runs inside the same statement.  A failure anywhere
    leaves the database as it was: the result carries no database. *)
Definition insert_into_entries (d : Db)
    (date title body tags_json mood : str) (focus_hours : float)
    (accomplishments blockers tomorrow created_at : str) : Result (Db * Z) :=
  match entries d with
  | None => Raise OperationalError
  | Some rows =>
      let last := Z.max (sqlite_sequence d) (max_rowid rows) in
      if MAX_ROWID <=? last then Raise OperationalError
      else if float_isnan focus_hours then Raise IntegrityError
      else
        let new := mkRow (last + 1) date title body tags_json mood focus_hours
                         accomplishments blockers tomorrow created_at in
        let d1 := mkDb (Some (rows ++ [new])) (last + 1) (entries_fts d)
                       (entries_ai d) (entries_ad d) (entries_au d) in
        match (if entries_ai d1
               then insert_into_entries_fts d1 (fts_doc new)
               else Ok d1) with
        | Ok d2 => Ok (d2, last + 1)
        | Raise e => Raise e
        end
  end.

(** *** Connections *)

(** A connection sees the committed file and, while a transaction is
    open, its own uncommitted copy.  What is pending when the process
    ends is lost. *)
Record Connection : Type := mkConn {
  committed : Db;
  pending : option Db
}.

Definition connect (file : Db) : Connection := mkConn file None.

Definition view (c : Connection) : Db :=
  match pending c with
  | Some d => d
  | None => committed c
  end.

Definition commit (c : Connection) : Connection := mkConn (view c) None.

(** [executescript] commits what is pending, then runs the script,
    every statement committed as it completes. *)
Definition executescript (script : Db -> Db) (c : Connection) : Connection :=
  mkConn (script (view c)) None.

(** A [str] parameter is bound as UTF-8. *)
Definition bind_text (s : str) : Result str :=
  if PyStr.utf8_encodable s then Ok s else Raise UnicodeEncodeError.

(** An [int] parameter must fit SQLite's 64-bit INTEGER. *)
Definition bind_int (n : Z) : Result Z :=
  if (- MAX_ROWID - 1 <=? n) && (n <=? MAX_ROWID) then Ok n
  else Raise OverflowError.

(** [db.execute("INSERT INTO entries (...) VALUES (?,?,?,?,?,?,?,?,?,?)", ...)]:
    a transaction is opened if none is, and the statement runs in it.
    The result is the connection and [cur.lastrowid]. *)
Definition execute_insert (c : Connection)
    (date title body tags_json mood : str) (focus_hours : float)
    (accomplishments blockers tomorrow created_at : str)
    : Result (Connection * Z) :=
  match bind_text date, bind_text title, bind_text body, bind_text tags_json,
        bind_text mood with
  | Ok date, Ok title, Ok body, Ok tags_json, Ok mood =>
      match bind_text accomplishments, bind_text blockers,
            bind_text tomorrow, bind_text created_at with
      | Ok accomplishments, Ok blockers, Ok tomorrow, Ok created_at =>
          match insert_into_entries (view c) date title body tags_json mood
                  focus_hours accomplishments blockers tomorrow created_at with
          | Ok (d, lastrowid) => Ok (mkConn (committed c) (Some d), lastrowid)
          | Raise e => Raise e
          end
      | _, _, _, _ => Raise UnicodeEncodeError
      end
  | _, _, _, _, _ => Raise UnicodeEncodeError
  end.

(** *** The SELECT statements of the program *)

Definition table_entries (d : Db) : Result (list Row) :=
  match entries d with
  | Some rows => Ok rows
  | None => Raise OperationalError
  end.

Definition table_entries_fts (d : Db) : Result (list FtsDoc) :=
  match entries_fts d with
  | Some docs => Ok docs
  | None => Raise OperationalError
  end.

Definition date_asc (a b : Row) : bool := PyStr.leb (col_date a) (col_date b).
Definition date_desc (a b : Row) : bool := PyStr.leb (col_date b) (col_date a).

(** [SELECT * FROM entries WHERE id=?], [fetchone()] *)
Definition select_by_id (c : Connection) (id : Z) : Result (option Row) :=
  (id <- bind_int id ;;
   rows <- table_entries (view c) ;;
   Ok (find (fun r => col_id r =? id) rows))%py.

(** [SELECT e.* FROM entries e JOIN entries_fts f ON e.id = f.rowid
     WHERE entries_fts MATCH ? ORDER BY e.date DESC LIMIT 20] *)
Definition select_search (c : Connection) (query : str) : Result (list Row) :=
  (query <- bind_text query ;;
   rows <- table_entries (view c) ;;
   docs <- table_entries_fts (view c) ;;
   match fts5_match query with
   | None => Raise OperationalError
   | Some p =>
       let hits :=
         filter (fun f => p (fts_title f) (fts_body f) (fts_tags_json f)) docs in
       let joined :=
         flat_map (fun f => filter (fun e => col_id e =? rowid f) rows) hits in
       Ok (firstn 20 (sort_by date_desc joined))
   end)%py.

(** [SELECT DISTINCT date FROM entries ORDER BY date DESC] *)
Definition select_distinct_dates (c : Connection) : Result (list str) :=
  (rows <- table_entries (view c) ;;
   Ok (sort_by (fun a b => PyStr.leb b a)
               (distinct PyStr.eqb (map col_date rows))))%py.

(** [SELECT mood, COUNT( * ) as cnt FROM entries WHERE date>=? GROUP BY mood] *)
Definition select_mood_counts (c : Connection) (since : str)
    : Result (list (str * Z)) :=
  (since <- bind_text since ;;
   rows <- table_entries (view c) ;;
   let sel := filter (fun r => PyStr.leb since (col_date r)) rows in
   let moods := sort_by PyStr.leb (distinct PyStr.eqb (map col_mood sel)) in
   Ok (map (fun m => (m, count (fun r => PyStr.eqb (col_mood r) m) sel)) moods))%py.

(** [SELECT * FROM entries WHERE date>=? ORDER BY date] *)
Definition select_since (c : Connection) (start : str) : Result (list Row) :=
  (start <- bind_text start ;;
   rows <- table_entries (view c) ;;
   Ok (sort_by date_asc (filter (fun r => PyStr.leb start (col_date r)) rows)))%py.

(** [SELECT * FROM entries WHERE date BETWEEN ? AND ? ORDER BY date] *)
Definition select_between (c : Connection) (start stop : str)
    : Result (list Row) :=
  (start <- bind_text start ;;
   stop <- bind_text stop ;;
   rows <- table_entries (view c) ;;
   Ok (sort_by date_asc
         (filter (fun r => PyStr.leb start (col_date r)
                           && PyStr.leb (col_date r) stop) rows)))%py.

End WithPlatform.
End Sqlite.

(* ===================================================================== *)
(** ** dev_journal.py *)
(* ===================================================================== *)

Module Journal.
Import PyStr.
Export Sqlite.

Section WithPlatform.
Context {P : Platform}.

Definition MOODS : list str := [lit "great"; lit "good"; lit "ok"; lit "rough"].

Record JournalEntry : Type := mkEntry {
  id : Z;
  date : str;
  title : str;
  body : str;
  tags : list str;
  mood : str;
  focus_hours : float;
  accomplishments : list str;
  blockers : list str;
  tomorrow : list str;
  created_at : str
}.

(** *** Console output

    What a command prints, without colours and layout: which helper was
    called, with which data. *)
Inductive Message : Type :=
| MoodMustBeOneOf (moods : list str)
| EntryAdded (eid : Z) (today : str)
| EntryNotFound (id : Z)
| NoResultsFor (query : str)
| ResultsFor (n : Z) (query : str)
| NoEntriesYet
| CurrentStreak (streak : Z)
| TotalDays (n : Z)
| NoData
| MoodDistribution (days : Z)
| MoodLine (mood : str) (cnt total : Z)
| WeeklySummary (start today : Date.date)
| WeeklyEntries (n : Z)
| WeeklyFocus (total_hours : float)
| AccomplishmentsThisWeek
| Accomplishment (a : str)
| NoEntriesInRange
| Exported (n : Z) (fname : str)
| EntryHead (id : Z) (date mood : str) (focus_hours : float)
| EntryTitle (title : str)
| EntryTags (tags : list str)
| EntryBody (body : str)
| AccomplishmentsHeading
| BlockersHeading
| Blocker (b : str)
| TomorrowHeading
| TomorrowItem (t : str)
| NoEntriesForDay (today : str)
| NoEntries
| NoTagsYet
| TagCloudHeading
| TagLine (tag : str) (cnt : Z).

(** One event for each call of [ok], [err], [info], [warn] or [print], and
    one for the export file when it has been written. *)
Inductive Event : Type :=
| ok (m : Message)
| err (m : Message)
| info (m : Message)
| warn (m : Message)
| print (m : Message)
| write_file (fname : str) (start stop : str) (exported : list JournalEntry).

(** The strings of the data that a message is formatted from; the rest of
    its text is literal, or numbers and dates. *)
Definition strings_of (m : Message) : list str :=
  match m with
  | MoodMustBeOneOf moods => moods
  | EntryAdded _ today => [today]
  | NoResultsFor query => [query]
  | ResultsFor _ query => [query]
  | MoodLine mood _ _ => [mood]
  | Accomplishment a => [a]
  | Exported _ fname => [fname]
  | EntryHead _ date mood _ => [date; mood]
  | EntryTitle title => [title]
  | EntryTags tags => tags
  | EntryBody body => [body]
  | Blocker b => [b]
  | TomorrowItem t => [t]
  | NoEntriesForDay today => [today]
  | TagLine tag _ => [tag]
  | EntryNotFound _ | NoEntriesYet | CurrentStreak _ | TotalDays _ | NoData
  | MoodDistribution _ | WeeklySummary _ _ | WeeklyEntries _ | WeeklyFocus _
  | AccomplishmentsThisWeek | NoEntriesInRange | AccomplishmentsHeading
  | BlockersHeading | TomorrowHeading | NoEntries | NoTagsYet
  | TagCloudHeading => []
  end.

(** What a call hands to [sys.stdout].  [err] prints to [sys.stderr],
    which replaces what it cannot encode. *)
Definition stdout_strings (e : Event) : list str :=
  match e with
  | ok m | info m | warn m | print m => strings_of m
  | err _ => []
  | write_file _ _ _ _ => []
  end.

(** Whether the call goes through: the text is encoded as a whole before
    any of it is written. *)
Definition accepted (e : Event) : bool :=
  forallb stdout_accepts (stdout_strings e).

(** A command body: what it has printed, and how it ended. *)
Record Cmd (A : Type) : Type := mkCmd {
  printed : list Event;
  returned : Result A
}.
Arguments mkCmd {A} printed returned.
Arguments printed {A} c.
Arguments returned {A} c.

Definition ret {A} (a : A) : Cmd A := mkCmd [] (Ok a).

(** One call of [print] or of a helper around it: it prints its line, or
    raises [UnicodeEncodeError] and prints nothing. *)
Definition emit (e : Event) : Cmd unit :=
  if accepted e then mkCmd [e] (Ok tt) else mkCmd [] (Raise UnicodeEncodeError).
Definition lift {A} (r : Result A) : Cmd A := mkCmd [] r.
Definition raise {A} (e : PyExc) : Cmd A := mkCmd [] (Raise e).

Definition cmd_bind {A B} (m : Cmd A) (k : A -> Cmd B) : Cmd B :=
  match returned m with
  | Ok a => mkCmd (printed m ++ printed (k a)) (returned (k a))
  | Raise e => mkCmd (printed m) (Raise e)
  end.

Declare Scope cmd_scope.
Delimit Scope cmd_scope with cmd.
Notation "x <- m ;; k" := (cmd_bind m (fun x => k))
  (at level 61, m at next level, right associativity) : cmd_scope.
Notation "m ;; k" := (cmd_bind m (fun _ => k))
  (at level 61, right associativity) : cmd_scope.

(** [for x in l: body(x)] *)
Fixpoint for_each {A} (l : list A) (body : A -> Cmd unit) : Cmd unit :=
  match l with
  | [] => ret tt
  | x :: l' => (body x ;; for_each l' body)%cmd
  end.

(** The calls of [print] that [print_entry] makes for an entry, when all
    of them go through. *)
Definition entry_lines (e : JournalEntry) (short : bool) : list Event :=
  [print (EntryHead (id e) (date e) (mood e) (focus_hours e));
   print (EntryTitle (title e))]
  ++ (if is_empty (tags e) then [] else [print (EntryTags (tags e))])
  ++ (if short then []
      else
        (if is_empty (body e) then [] else [print (EntryBody (body e))])
        ++ (if is_empty (accomplishments e) then []
            else print AccomplishmentsHeading
                 :: map (fun a => print (Accomplishment a)) (accomplishments e))
        ++ (if is_empty (blockers e) then []
            else print BlockersHeading
                 :: map (fun b => print (Blocker b)) (blockers e))
        ++ (if is_empty (tomorrow e) then []
            else print TomorrowHeading
                 :: map (fun t => print (TomorrowItem t)) (tomorrow e))).

Definition print_entry (e : JournalEntry) (short : bool) : Cmd unit :=
  (emit (print (EntryHead (id e) (date e) (mood e) (focus_hours e))) ;;
   emit (print (EntryTitle (title e))) ;;
   (if is_empty (tags e) then ret tt else emit (print (EntryTags (tags e)))) ;;
   if short then ret tt
   else
     (if is_empty (body e) then ret tt else emit (print (EntryBody (body e)))) ;;
     (if is_empty (accomplishments e) then ret tt
      else emit (print AccomplishmentsHeading) ;;
           for_each (accomplishments e)
                    (fun a => emit (print (Accomplishment a)))) ;;
     (if is_empty (blockers e) then ret tt
      else emit (print BlockersHeading) ;;
           for_each (blockers e) (fun b => emit (print (Blocker b)))) ;;
     (if is_empty (tomorrow e) then ret tt
      else emit (print TomorrowHeading) ;;
           for_each (tomorrow e) (fun t => emit (print (TomorrowItem t)))))%cmd.

(** What one invocation leaves behind: the database file, the console
    output and the way the process ended. *)
Record Outcome : Type := mkOutcome {
  disk : Db;
  out : list Event;
  result : Result unit
}.

Definition finish (db : Connection) (c : Cmd unit) : Outcome :=
  mkOutcome (committed db) (printed c) (returned c).

(** *** DB *)

Definition schema (d : Db) : Db :=
  create_trigger_entries_au
    (create_trigger_entries_ad
       (create_trigger_entries_ai
          (create_virtual_table_entries_fts
             (create_table_entries d)))).

(** [file] is the content of [DB_PATH]; a missing file is the empty
    database that [sqlite3.connect] creates.  Directories and permissions
    are not modelled. *)
Definition get_db (file : Db) : Connection :=
  let conn := connect file in
  let conn := executescript schema conn in
  commit conn.

Definition row_to_entry (row : Row) : Result JournalEntry :=
  (tags <- Json.json_loads (col_tags_json row) ;;
   accomplishments <- Json.json_loads (col_accomplishments row) ;;
   blockers <- Json.json_loads (col_blockers row) ;;
   tomorrow <- Json.json_loads (col_tomorrow row) ;;
   Ok (mkEntry (col_id row) (col_date row) (col_title row) (col_body row)
               tags (col_mood row) (col_focus_hours row)
               accomplishments blockers tomorrow (col_created_at row)))%py.

(** [now] is [datetime.now().isoformat()]. *)
Definition insert_entry (now : str) (db : Connection)
    (date_str title body : str) (tags : list str) (mood : str)
    (focus_hours : float) (accomplishments blockers tomorrow : list str)
    : Result (Connection * Z) :=
  ('(db, lastrowid) <-
      execute_insert db date_str title body (Json.json_dumps tags) mood
        focus_hours (Json.json_dumps accomplishments)
        (Json.json_dumps blockers) (Json.json_dumps tomorrow) now ;;
   let db := commit db in
   Ok (db, lastrowid))%py.

(** *** String helpers of [cmd_add] *)

(** [str.isspace] on one character. *)
Definition isspace (c : Z) : bool :=
  ((9 <=? c) && (c <=? 13)) || ((28 <=? c) && (c <=? 32))
  || (c =? 0x85) || (c =? 0xA0) || (c =? 0x1680)
  || ((0x2000 <=? c) && (c <=? 0x200A))
  || (c =? 0x2028) || (c =? 0x2029) || (c =? 0x202F)
  || (c =? 0x205F) || (c =? 0x3000).

Fixpoint lstrip (p : Z -> bool) (s : str) : str :=
  match s with
  | c :: s' => if p c then lstrip p s' else s
  | [] => []
  end.

Definition strip (s : str) : str :=
  rev (lstrip isspace (rev (lstrip isspace s))).

(** [s.split(sep)] for a one-character separator. *)
Fixpoint split (sep : Z) (s : str) : list str :=
  match s with
  | [] => [[]]
  | c :: s' =>
      if c =? sep then [] :: split sep s'
      else match split sep s' with
           | w :: ws => (c :: w) :: ws
           | [] => [[c]]
           end
  end.

(** *** Commands *)

Record AddArgs : Type := mkAddArgs {
  args_title : str;
  args_body : str;
  args_tags : str;
  args_mood : str;
  args_hours : float;
  args_accomplishments : str;
  args_blockers : str;
  args_tomorrow : str
}.

(** [x or default] for a [str] that may be [None]. *)
Definition or_default (x : option str) (default : str) : str :=
  match x with
  | Some (c :: s) => c :: s
  | Some [] | None => default
  end.

Definition cmd_add (today : Date.date) (now : str) (args : AddArgs)
    (file : Db) : Outcome :=
  let db := get_db file in
  let today := Date.isoformat today in
  let tags :=
    if is_empty (args_tags args) then []
    else map (fun t => lstrip (Z.eqb 35) (strip t)) (split 44 (args_tags args)) in
  let accoms :=
    if is_empty (args_accomplishments args) then []
    else map strip (split 124 (args_accomplishments args)) in
  let blockers :=
    if is_empty (args_blockers args) then []
    else map strip (split 124 (args_blockers args)) in
  let tmrw :=
    if is_empty (args_tomorrow args) then []
    else map strip (split 124 (args_tomorrow args)) in
  if negb (mem (args_mood args) MOODS) then
    finish db (emit (err (MoodMustBeOneOf MOODS)) ;; raise (SystemExit 1))%cmd
  else
    match insert_entry now db today (args_title args)
            (or_default (Some (args_body args)) [])
            tags (args_mood args) (args_hours args) accoms blockers tmrw with
    | Raise e => finish db (raise e)
    | Ok (db', eid) => finish db' (emit (ok (EntryAdded eid today)))
    end.

Definition cmd_show (args_id : Z) (file : Db) : Outcome :=
  let db := get_db file in
  finish db
    (row <- lift (select_by_id db args_id) ;;
     match row with
     | None => emit (err (EntryNotFound args_id))
     | Some row =>
         e <- lift (row_to_entry row) ;;
         print_entry e false
     end)%cmd.

Definition cmd_search (args_query : str) (file : Db) : Outcome :=
  let db := get_db file in
  finish db
    (rows <- lift (select_search db args_query) ;;
     if is_empty rows then emit (info (NoResultsFor args_query))
     else
       emit (info (ResultsFor (Z.of_nat (List.length rows)) args_query)) ;;
       for_each rows (fun row =>
         e <- lift (row_to_entry row) ;;
         print_entry e true))%cmd.

(** The loop of [cmd_streak]: [dates[i]] against [dates[i+1]], stopping at
    the first pair that is not one day apart. *)
Fixpoint streak_loop (dates : list Date.date) (streak : Z) : Z :=
  match dates with
  | d :: (d' :: _) as rest =>
      if Date.days_between d d' =? 1 then streak_loop rest (streak + 1)
      else streak
  | _ => streak
  end.

Definition cmd_streak (file : Db) : Outcome :=
  let db := get_db file in
  finish db
    (rows <- lift (select_distinct_dates db) ;;
     if is_empty rows then emit (info NoEntriesYet)
     else
       dates <- lift (mapM Date.fromisoformat rows) ;;
       let streak := streak_loop dates 1 in
       emit (ok (CurrentStreak streak)) ;;
       emit (print (TotalDays (Z.of_nat (List.length dates)))))%cmd.

(** [sorted(rows, key=lambda r: MOODS.index(r["mood"]))]: every key is
    computed before anything is ordered. *)
Definition sorted_by_mood (rows : list (str * Z)) : Result (list (str * Z)) :=
  (keyed <- mapM (fun r => k <- index MOODS (fst r) ;; Ok (k, r)) rows ;;
   Ok (map snd (sort_by (fun a b => fst a <=? fst b) keyed)))%py.

Definition cmd_mood_trend (today : Date.date) (args_days : Z) (file : Db)
    : Outcome :=
  let db := get_db file in
  let days := if args_days =? 0 then 30 else args_days in
  finish db
    (since <- lift (Date.sub_days today days) ;;
     rows <- lift (select_mood_counts db (Date.isoformat since)) ;;
     if is_empty rows then emit (warn NoData)
     else
       let total := fold_right Z.add 0 (map snd rows) in
       emit (print (MoodDistribution days)) ;;
       rows <- lift (sorted_by_mood rows) ;;
       for_each rows (fun row =>
         emit (print (MoodLine (fst row) (snd row) total))))%cmd.

(** [sum(r["focus_hours"] for r in rows)] *)
Definition sum_focus_hours (rows : list Row) : float :=
  fold_left float_add (map col_focus_hours rows) float_zero.

Definition cmd_weekly (today : Date.date) (file : Db) : Outcome :=
  let db := get_db file in
  finish db
    (start <- lift (Date.sub_days today (Date.weekday today)) ;;
     rows <- lift (select_since db (Date.isoformat start)) ;;
     let total_hours := sum_focus_hours rows in
     emit (print (WeeklySummary start today)) ;;
     emit (print (WeeklyEntries (Z.of_nat (List.length rows)))) ;;
     emit (print (WeeklyFocus total_hours)) ;;
     all_accoms <-
       lift (lists <- mapM (fun r => Json.json_loads (col_accomplishments r)) rows ;;
             Ok (List.concat lists))%py ;;
     if is_empty all_accoms then ret tt
     else
       emit (print AccomplishmentsThisWeek) ;;
       for_each all_accoms (fun a => emit (print (Accomplishment a))))%cmd.

(** The strings of an entry that the Markdown text holds. *)
Definition md_strings (e : JournalEntry) : list str :=
  [date e; title e; mood e] ++ tags e ++ [body e] ++ accomplishments e
  ++ blockers e.

(** [with open(fname, "w") as f: f.write(out)].  The file encodes as UTF-8
    and refuses what cannot be encoded; the file that [open] has created
    stays empty then, which is not recorded. *)
Definition write_md (fname start stop : str) (exported : list JournalEntry)
    : Cmd unit :=
  (lift (open_w fname) ;;
   if forallb utf8_encodable (start :: stop :: flat_map md_strings exported)
   then mkCmd [write_file fname start stop exported] (Ok tt)
   else raise UnicodeEncodeError)%cmd.

(** The Markdown text is not modelled: [write_file] carries the range and
    the entries that are rendered into it. *)
Definition cmd_export_md (today : Date.date) (args_start args_end : option str)
    (file : Db) : Outcome :=
  let db := get_db file in
  let start := or_default args_start (lit "2020-01-01") in
  let stop := or_default args_end (Date.isoformat today) in
  finish db
    (rows <- lift (select_between db start stop) ;;
     if is_empty rows then emit (warn NoEntriesInRange)
     else
       exported <- lift (mapM row_to_entry rows) ;;
       let fname := lit "journal_" ++ start ++ [95] ++ stop ++ lit ".md" in
       write_md fname start stop exported ;;
       emit (ok (Exported (Z.of_nat (List.length rows)) fname)))%cmd.

End WithPlatform.

Arguments mkCmd {P A} printed returned.
Arguments printed {P A} c.
Arguments returned {P A} c.

Declare Scope cmd_scope.
Delimit Scope cmd_scope with cmd.
Notation "x <- m ;; k" := (cmd_bind m (fun x => k))
  (at level 61, m at next level, right associativity) : cmd_scope.
Notation "m ;; k" := (cmd_bind m (fun _ => k))
  (at level 61, right associativity) : cmd_scope.
End Journal.

(* ===================================================================== *)
(** ** Store states *)
(* ===================================================================== *)

Module Store.
Import PyStr.
Export Journal.

Section WithPlatform.
Context {P : Platform}.

(** The entries and the index documents a database holds; none while the
    tables do not exist. *)
Definition stored (d : Db) : list Row :=
  match entries d with Some rows => rows | None => [] end.

Definition indexed (d : Db) : list FtsDoc :=
  match entries_fts d with Some docs => docs | None => [] end.

(** The database files that the program produces: it starts from no file,
    every process opens the file with [get_db], and the only writer is
    [insert_entry] on such a connection. *)
Inductive reachable : Db -> Prop :=
| reach_empty : reachable empty_db
| reach_get_db file :
    reachable file -> reachable (committed (get_db file))
| reach_insert file now date_str title body tags mood focus_hours
               accomplishments blockers tomorrow db eid :
    reachable file ->
    insert_entry now (get_db file) date_str title body tags mood focus_hours
                 accomplishments blockers tomorrow = Ok (db, eid) ->
    reachable (committed db).

(** The index holds the document of every entry, in the same order, and
    no two entries share an id. *)
Definition in_sync (d : Db) : Prop :=
  indexed d = map fts_doc (stored d) /\ NoDup (map col_id (stored d)).

(** The rowid that the next INSERT takes, and whether there is one left. *)
Definition next_rowid (d : Db) : Z :=
  Z.max (sqlite_sequence d) (max_rowid (stored d)) + 1.

(** The row that [insert_entry] writes for its arguments. *)
Definition written_row (eid : Z) (now date_str title body : str)
    (tags : list str) (mood : str) (focus_hours : float)
    (accomplishments blockers tomorrow : list str) : Row :=
  mkRow eid date_str title body (Json.json_dumps tags) mood focus_hours
        (Json.json_dumps accomplishments) (Json.json_dumps blockers)
        (Json.json_dumps tomorrow) now.

(** An initialised database with one more entry and its document. *)
Definition with_entry (file : Db) (row : Row) : Db :=
  mkDb (Some (stored file ++ [row])) (col_id row)
       (Some (indexed file ++ [fts_doc row])) true true true.

(** The entries that a query predicate matches, by their own columns. *)
Definition matching (p : str -> str -> str -> bool) (d : Db) : list Row :=
  filter (fun r => p (col_title r) (col_body r) (col_tags_json r)) (stored d).

(** Dates in descending order; dates in ascending order. *)
Definition newest_first (rows : list Row) : Prop :=
  Sorted (fun a b => PyStr.leb (col_date b) (col_date a) = true) rows.

Definition oldest_first (rows : list Row) : Prop :=
  Sorted (fun a b => PyStr.leb (col_date a) (col_date b) = true) rows.

(** A run of dates, each exactly one day before the previous one. *)
Inductive consecutive : list Date.date -> Prop :=
| consecutive_one d : consecutive [d]
| consecutive_cons d d' l :
    Date.days_between d d' = 1 ->
    consecutive (d' :: l) ->
    consecutive (d :: d' :: l).

(** [p] is the maximal prefix of [dates] that is a run of consecutive
    days starting from the first date. *)
Definition maximal_consecutive_prefix (p dates : list Date.date) : Prop :=
  consecutive p
  /\ (exists rest, dates = p ++ rest)
  /\ (forall q rest, dates = q ++ rest -> consecutive q ->
                     (List.length q <= List.length p)%nat).

End WithPlatform.
End Store.

(* ===================================================================== *)
(** ** dev_journal.py: the listing commands *)
(* ===================================================================== *)

Module Cli.
Import PyStr.
Export Store.

Section WithPlatform.
Context {P : Platform}.

(** *** Their queries *)

Definition id_asc (a b : Row) : bool := col_id a <=? col_id b.

(** [SELECT * FROM entries WHERE date=? ORDER BY id] *)
Definition select_by_date (c : Connection) (day : str) : Result (list Row) :=
  (day <- bind_text day ;;
   rows <- table_entries (view c) ;;
   Ok (sort_by id_asc (filter (fun r => eqb (col_date r) day) rows)))%py.

(** [SELECT * FROM entries ORDER BY date DESC LIMIT 20] *)
Definition select_recent (c : Connection) : Result (list Row) :=
  (rows <- table_entries (view c) ;;
   Ok (firstn 20 (sort_by date_desc rows)))%py.

(** [SELECT tags_json FROM entries] *)
Definition select_tags_json (c : Connection) : Result (list str) :=
  (rows <- table_entries (view c) ;;
   Ok (map col_tags_json rows))%py.

(** *** The commands *)

(** [for row in rows: print_entry(row_to_entry(row), short)] *)
Definition print_rows (short : bool) (rows : list Row) : Cmd unit :=
  for_each rows (fun row =>
    e <- lift (row_to_entry row) ;;
    print_entry e short)%cmd.

Definition cmd_today (today : Date.date) (file : Db) : Outcome :=
  let db := get_db file in
  let today := Date.isoformat today in
  finish db
    (rows <- lift (select_by_date db today) ;;
     if is_empty rows then emit (warn (NoEntriesForDay today))
     else print_rows false rows)%cmd.

Definition cmd_list (file : Db) : Outcome :=
  let db := get_db file in
  finish db
    (rows <- lift (select_recent db) ;;
     if is_empty rows then emit (warn NoEntries)
     else print_rows true rows)%cmd.

(** [freq[tag] = freq.get(tag, 0) + 1] on a dict, which keeps its keys in
    the order of their first insertion. *)
Fixpoint bump (freq : list (str * Z)) (tag : str) : list (str * Z) :=
  match freq with
  | [] => [(tag, 0 + 1)]
  | (k, v) :: rest =>
      if eqb k tag then (k, v + 1) :: rest else (k, v) :: bump rest tag
  end.

(** The two loops of [cmd_tag_cloud] over the rows and their tags. *)
Fixpoint count_tags (rows : list str) (freq : list (str * Z))
    : Result (list (str * Z)) :=
  match rows with
  | [] => Ok freq
  | tags_json :: rows' =>
      match Json.json_loads tags_json with
      | Raise e => Raise e
      | Ok tags => count_tags rows' (fold_left bump tags freq)
      end
  end.

(** [sorted(freq.items(), key=lambda x: -x[1])] *)
Definition by_count_desc (a b : str * Z) : bool := - snd a <=? - snd b.

Definition cmd_tag_cloud (file : Db) : Outcome :=
  let db := get_db file in
  finish db
    (rows <- lift (select_tags_json db) ;;
     freq <- lift (count_tags rows []) ;;
     if is_empty freq then emit (warn NoTagsYet)
     else
       emit (print TagCloudHeading) ;;
       for_each (sort_by by_count_desc freq) (fun kv =>
         emit (print (TagLine (fst kv) (snd kv)))))%cmd.

(** *** Journals written through the command line *)

(** A Python [str]: every element is a code point. *)
Definition is_str (s : str) : bool := forallb is_codepoint s.

Definition args_are_str (args : AddArgs) : Prop :=
  is_str (args_title args) = true /\ is_str (args_body args) = true
  /\ is_str (args_tags args) = true /\ is_str (args_mood args) = true
  /\ is_str (args_accomplishments args) = true
  /\ is_str (args_blockers args) = true
  /\ is_str (args_tomorrow args) = true.

(** The files that come from no file by running commands: every command
    opens the file with [get_db], and [cmd_add] is the only one that
    writes. *)
Inductive written_by_add : Db -> Prop :=
| wba_empty : written_by_add empty_db
| wba_open file :
    written_by_add file -> written_by_add (committed (get_db file))
| wba_add file today now args :
    written_by_add file ->
    Date.valid today = true ->
    args_are_str args ->
    written_by_add (disk (cmd_add today now args file)).

(** What [json.loads] makes of a string that [json.dumps] wrote: a high
    surrogate directly before a low surrogate becomes one code point. *)
Fixpoint join_pairs (s : str) : str :=
  match s with
  | [] => []
  | hi :: rest =>
      match rest with
      | lo :: s' =>
          if is_high_surrogate hi && is_low_surrogate lo
          then Json.join_surrogates hi lo :: join_pairs s'
          else hi :: join_pairs rest
      | [] => [hi]
      end
  end.

(** [sep.join(pieces)] for a one-character separator. *)
Fixpoint join (sep : Z) (pieces : list str) : str :=
  match pieces with
  | [] => []
  | [x] => x
  | x :: rest => x ++ sep :: join sep rest
  end.

(** The tags that [cmd_add] makes of [args.tags]. *)
Definition tags_of (args_tags : str) : list str :=
  if is_empty args_tags then []
  else map (fun t => lstrip (Z.eqb 35) (strip t)) (split 44 args_tags).

(** The lists that [cmd_add] makes of a pipe-separated argument. *)
Definition pipe_list (arg : str) : list str :=
  if is_empty arg then [] else map strip (split 124 arg).

(** The same with arguments that are text: strings of scalar values, as
    the command line gives them when its bytes are valid UTF-8. *)
Definition args_encodable (args : AddArgs) : Prop :=
  utf8_encodable (args_title args) = true
  /\ utf8_encodable (args_body args) = true
  /\ utf8_encodable (args_tags args) = true
  /\ utf8_encodable (args_mood args) = true
  /\ utf8_encodable (args_accomplishments args) = true
  /\ utf8_encodable (args_blockers args) = true
  /\ utf8_encodable (args_tomorrow args) = true.

Inductive written_from_text : Db -> Prop :=
| wft_empty : written_from_text empty_db
| wft_open file :
    written_from_text file -> written_from_text (committed (get_db file))
| wft_add file today now args :
    written_from_text file ->
    Date.valid today = true ->
    args_encodable args ->
    written_from_text (disk (cmd_add today now args file)).

(** Every string of the entry can be encoded as UTF-8. *)
Definition entry_encodable (e : JournalEntry) : bool :=
  forallb utf8_encodable
    ([date e; title e; body e; mood e] ++ tags e ++ accomplishments e
     ++ blockers e ++ tomorrow e).

(** A row that decodes to such an entry. *)
Definition text_row (r : Row) : Prop :=
  exists e, row_to_entry r = Ok e /\ entry_encodable e = true.

(** A row as [cmd_add] writes it: a known mood, the ISO form of a calendar
    day, and four lists that [row_to_entry] can decode. *)
Definition well_formed_row (r : Row) : Prop :=
  mem (col_mood r) MOODS = true
  /\ (exists d, Date.valid d = true /\ col_date r = Date.isoformat d)
  /\ exists e, row_to_entry r = Ok e.

(** The row that [cmd_add] writes for its arguments. *)
Definition added_row (today : Date.date) (now : str) (args : AddArgs)
    (file : Db) : Row :=
  written_row (next_rowid file) now (Date.isoformat today) (args_title args)
              (args_body args) (tags_of (args_tags args)) (args_mood args)
              (args_hours args) (pipe_list (args_accomplishments args))
              (pipe_list (args_blockers args)) (pipe_list (args_tomorrow args)).

End WithPlatform.
End Cli.

(* ===================================================================== *)
(** ** A platform to run the definitions on *)
(* ===================================================================== *)

(** Hours counted in whole numbers; a query matches the documents that
    contain it as a substring of a column; a query that contains a double
    quote is a syntax error.  Used for examples only. *)
Module Demo.
Import PyStr.

Fixpoint starts_with (p s : str) : bool :=
  match p, s with
  | [], _ => true
  | x :: p', y :: s' => (x =? y) && starts_with p' s'
  | _ :: _, [] => false
  end.

Fixpoint contains (p s : str) : bool :=
  starts_with p s
  || match s with
     | [] => false
     | _ :: s' => contains p s'
     end.

Definition demo_match (q : str) : option (str -> str -> str -> bool) :=
  if existsb (Z.eqb 34) q then None
  else Some (fun title body tags_json =>
               contains q title || contains q body || contains q tags_json).

(** A directory without subdirectories, in which files can be written. *)
Definition demo_open (fname : str) : Result unit :=
  if existsb (Z.eqb 0) fname then Raise ValueError
  else if existsb (Z.eqb 47) fname then Raise OSError
  else Ok tt.

(** A console with the strict error handler: it takes scalar values and
    nothing else. *)
Definition demo_scalar (c : Z) : bool :=
  (0 <=? c) && negb (0x10FFFF <? c)
  && (negb (0xD800 <=? c) || (0xDFFF <? c)).

Definition demo_accepts (s : str) : bool := forallb demo_scalar s.

Definition demo_accepts_utf8 (s : str) :
  utf8_encodable s = true -> demo_accepts s = true.
Proof.
  unfold utf8_encodable, demo_accepts. rewrite !forallb_forall.
  intros H c Hc. specialize (H c Hc).
  unfold is_scalar, is_codepoint, is_surrogate in H. unfold demo_scalar.
  destruct (Z.leb_spec 0 c), (Z.leb_spec c 0x10FFFF), (Z.leb_spec 0xD800 c),
    (Z.leb_spec c 0xDFFF); cbn in H; try discriminate;
    destruct (Z.ltb_spec 0x10FFFF c), (Z.ltb_spec 0xDFFF c); cbn;
    try reflexivity; lia.
Qed.

(** Integers for the hours. *)
Definition platform : Platform :=
  {| float := Z; float_zero := 0; float_add := Z.add;
     float_isnan := fun _ => false;
     fts5_match := demo_match;
     stdout_accepts := demo_accepts;
     stdout_accepts_utf8 := demo_accepts_utf8;
     open_w := demo_open |}.

(** Wednesday 2024-01-03, and a moment of that day. *)
Definition today : Date.date := 738888.
Definition now : str := lit "2024-01-03T09:30:00".

(** The file after one more [insert_entry]. *)
Definition add (file : Sqlite.Db (P := platform)) (date_str title mood : str)
    (hours : Z) (accomplishments : list str) : Sqlite.Db (P := platform) :=
  match Journal.insert_entry (P := platform) now (Journal.get_db file)
          date_str title [] [] mood hours accomplishments [] [] with
  | Ok (db, _) => Sqlite.committed db
  | Raise _ => file
  end.

(** An [add] command with a mood that is not in [MOODS]. *)
Definition bad_mood_args : Journal.AddArgs (P := platform) :=
  Journal.mkAddArgs (P := platform) (lit "standup") [] [] (lit "awful") 0 [] [] [].

(** Monday and Wednesday of the week of [today]. *)
Definition journal : Sqlite.Db (P := platform) :=
  add (add Sqlite.empty_db (lit "2024-01-01") (lit "Plan sprint") (lit "good") 2
           [lit "roadmap"])
      (lit "2024-01-03") (lit "Ship OAuth") (lit "great") 3
      [lit "login"; lit "tests"].

(** Two [add] commands as the command line passes them on. *)
Definition plan_args : Journal.AddArgs (P := platform) :=
  Journal.mkAddArgs (P := platform) (lit "Plan sprint") [] [] (lit "good") 2
    (lit "roadmap") [] [].

Definition retro_args : Journal.AddArgs (P := platform) :=
  Journal.mkAddArgs (P := platform) (lit "Retro") (lit "notes")
    (lit "#api, python,api") (lit "ok") 1 (lit "fixed login | wrote tests") []
    (lit "docs").

(** The journal after the first command on Monday and the second on
    Wednesday, starting without a file. *)
Definition diary : Sqlite.Db (P := platform) :=
  Journal.disk
    (Journal.cmd_add today now retro_args
       (Journal.disk
          (Journal.cmd_add (today - 2) now plan_args Sqlite.empty_db))).

(** The second entry of the diary, as [row_to_entry] reads it. *)
Definition retro : Journal.JournalEntry (P := platform) :=
  Journal.mkEntry (P := platform) 2 (lit "2024-01-03") (lit "Retro")
    (lit "notes") [lit "api"; lit "python"; lit "api"] (lit "ok") 1
    [lit "fixed login"; lit "wrote tests"] [] [lit "docs"] now.

End Demo.

(* ********************************************************************* *)
(** * Lemmas *)
(* ********************************************************************* *)

(* ===================================================================== *)
(** ** Strings *)
(* ===================================================================== *)

Module PyStrFacts.
Import PyStr.

Lemma eqb_eq (a b : str) : eqb a b = true <-> a = b.
Proof.
  revert b; induction a as [|x a IH]; intros [|y b]; simpl;
    try (split; [discriminate | congruence]); try tauto.
  rewrite andb_true_iff, Z.eqb_eq, IH.
  split; [intros [-> ->]; reflexivity | intros [= -> ->]; auto].
Qed.

Lemma eqb_refl (a : str) : eqb a a = true.
Proof. apply eqb_eq; reflexivity. Qed.

Lemma eqb_neq (a b : str) : eqb a b = false <-> a <> b.
Proof.
  rewrite <- eqb_eq. destruct (eqb a b); split; congruence.
Qed.

Lemma compare_refl (a : str) : compare a a = Eq.
Proof.
  induction a as [|x a IH]; simpl; [reflexivity|].
  rewrite Z.compare_refl; exact IH.
Qed.

Lemma compare_antisym (a b : str) : compare b a = CompOpp (compare a b).
Proof.
  revert b; induction a as [|x a IH]; intros [|y b]; simpl; try reflexivity.
  rewrite (Z.compare_antisym x y).
  destruct (x ?= y); simpl; auto.
Qed.

(** The order is total: of two strings, one is below the other. *)
Lemma leb_total (a b : str) : leb a b = false -> leb b a = true.
Proof.
  unfold leb; rewrite (compare_antisym a b).
  destruct (compare a b); simpl; congruence.
Qed.

Lemma ltb_not_leb (a b : str) : ltb a b = negb (leb b a).
Proof.
  unfold ltb, leb; rewrite (compare_antisym a b).
  destruct (compare a b); reflexivity.
Qed.

Lemma mem_In (x : str) (t : list str) : mem x t = true <-> In x t.
Proof.
  unfold mem; rewrite existsb_exists; split.
  - intros (y & Hy & E). apply eqb_eq in E; subst; assumption.
  - intros H; exists x; split; [assumption | apply eqb_refl].
Qed.

(** [t.index(x)] raises exactly when [x not in t], and it is ValueError. *)
Lemma index_raises (t : list str) (x : str) :
  mem x t = false -> index t x = Raise ValueError.
Proof.
  induction t as [|y t IH]; simpl; [reflexivity|].
  unfold mem in *; simpl.
  rewrite orb_false_iff; intros [Hxy Hm].
  replace (eqb y x) with false.
  - rewrite (IH Hm); reflexivity.
  - symmetry; apply eqb_neq; apply eqb_neq in Hxy; congruence.
Qed.

Lemma index_found (t : list str) (x : str) :
  mem x t = true -> exists i, index t x = Ok i.
Proof.
  induction t as [|y t IH]; unfold mem; simpl; [discriminate|].
  destruct (eqb y x) eqn:E.
  - intros _; exists 0; reflexivity.
  - rewrite orb_true_iff; intros [H|H].
    + apply eqb_eq in H; subst. rewrite eqb_refl in E; discriminate.
    + destruct (IH H) as [i Hi]; rewrite Hi; eexists; reflexivity.
Qed.

End PyStrFacts.

(* ===================================================================== *)
(** ** ORDER BY and DISTINCT *)
(* ===================================================================== *)

Section ListFacts.
Context {A : Type}.
Variable le : A -> A -> bool.

Lemma insert_by_perm (x : A) (l : list A) :
  Permutation (x :: l) (insert_by le x l).
Proof.
  induction l as [|y l IH]; simpl; [apply Permutation_refl|].
  destruct (le x y); [apply Permutation_refl|].
  eapply perm_trans; [apply perm_swap|]. apply perm_skip; exact IH.
Qed.

(** Sorting keeps the rows: the result is a permutation of the input. *)
Lemma sort_by_perm (l : list A) : Permutation l (sort_by le l).
Proof.
  induction l as [|x l IH]; simpl; [constructor|].
  eapply perm_trans; [apply perm_skip; exact IH | apply insert_by_perm].
Qed.

Lemma sort_by_In (l : list A) (x : A) : In x (sort_by le l) <-> In x l.
Proof.
  split; intros H.
  - eapply Permutation_in; [symmetry; apply sort_by_perm | exact H].
  - eapply Permutation_in; [apply sort_by_perm | exact H].
Qed.

Lemma sort_by_length (l : list A) : List.length (sort_by le l) = List.length l.
Proof. symmetry; apply Permutation_length, sort_by_perm. Qed.

Hypothesis le_total : forall a b, le a b = false -> le b a = true.

Lemma insert_by_sorted (x : A) (l : list A) :
  Sorted (fun a b => le a b = true) l ->
  Sorted (fun a b => le a b = true) (insert_by le x l).
Proof.
  induction 1 as [|y l Hs IH Hhd]; simpl.
  - repeat constructor.
  - destruct (le x y) eqn:E.
    + constructor; [constructor; assumption | constructor; exact E].
    + constructor; [exact IH|].
      destruct l as [|z l]; simpl.
      * constructor. apply le_total; exact E.
      * destruct (le x z); constructor.
        -- apply le_total; exact E.
        -- inversion Hhd; assumption.
Qed.

(** Sorting sorts. *)
Lemma sort_by_sorted (l : list A) :
  Sorted (fun a b => le a b = true) (sort_by le l).
Proof.
  induction l as [|x l IH]; simpl; [constructor|].
  apply insert_by_sorted; exact IH.
Qed.

Lemma firstn_sorted (R : A -> A -> Prop) (n : nat) (l : list A) :
  Sorted R l -> Sorted R (firstn n l).
Proof.
  intros H; revert n; induction H as [|x l Hs IH Hhd]; intros [|n]; simpl;
    try constructor.
  - apply IH.
  - destruct Hhd; destruct n; simpl; constructor; assumption.
Qed.

End ListFacts.

Section DistinctFacts.
Context {A : Type}.
Variable eqb : A -> A -> bool.
Hypothesis eqb_spec : forall a b, eqb a b = true <-> a = b.

Lemma distinct_In (l : list A) (x : A) : In x (distinct eqb l) <-> In x l.
Proof.
  induction l as [|y l IH]; simpl; [tauto|].
  rewrite filter_In, IH.
  split.
  - intros [H|[H _]]; auto.
  - intros [H|H]; auto.
    destruct (eqb y x) eqn:E.
    + left; apply eqb_spec; exact E.
    + right; split; [exact H | reflexivity].
Qed.
Lemma distinct_NoDup (l : list A) : NoDup (distinct eqb l).
Proof.
  induction l as [|x l IH]; cbn [distinct]; constructor.
  - rewrite filter_In. intros [_ H]. apply negb_true_iff in H.
    assert (eqb x x = true) by (apply eqb_spec; reflexivity). congruence.
  - apply NoDup_filter. exact IH.
Qed.
End DistinctFacts.

(* ===================================================================== *)
(** ** JSON: what is written is read back *)
(* ===================================================================== *)

Module JsonFacts.
Import PyStr Json Store.

#[local] Arguments Z.add : simpl nomatch.
#[local] Arguments Z.sub : simpl nomatch.
#[local] Arguments Z.mul : simpl nomatch.
#[local] Arguments Z.eqb : simpl nomatch.
#[local] Arguments Z.leb : simpl nomatch.
#[local] Arguments Z.ltb : simpl nomatch.
#[local] Arguments Z.land : simpl nomatch.
#[local] Arguments Z.lor : simpl nomatch.
#[local] Arguments Z.shiftr : simpl nomatch.
#[local] Arguments Z.shiftl : simpl nomatch.

Ltac bool_to_Z :=
  repeat match goal with
    | H : (_ && _)%bool = true |- _ => apply andb_true_iff in H; destruct H
    | H : (_ || _)%bool = false |- _ => apply orb_false_iff in H; destruct H
    | H : negb _ = true |- _ => apply negb_true_iff in H
    | H : negb _ = false |- _ => apply negb_false_iff in H
    | H : (_ <=? _) = true |- _ => apply Z.leb_le in H
    | H : (_ <=? _) = false |- _ => apply Z.leb_gt in H
    | H : (_ <? _) = true |- _ => apply Z.ltb_lt in H
    | H : (_ <? _) = false |- _ => apply Z.ltb_ge in H
    | H : (_ =? _) = true |- _ => apply Z.eqb_eq in H
    | H : (_ =? _) = false |- _ => apply Z.eqb_neq in H
    end.

(** Decide a comparison of the goal from what is known by arithmetic. *)
Ltac decide_cmp :=
  repeat match goal with
    | |- context [?a =? ?b] =>
        first [ replace (a =? b) with true by (symmetry; apply Z.eqb_eq; lia)
              | replace (a =? b) with false by (symmetry; apply Z.eqb_neq; lia) ]
    | |- context [?a <=? ?b] =>
        first [ replace (a <=? b) with true by (symmetry; apply Z.leb_le; lia)
              | replace (a <=? b) with false by (symmetry; apply Z.leb_gt; lia) ]
    | |- context [?a <? ?b] =>
        first [ replace (a <? b) with true by (symmetry; apply Z.ltb_lt; lia)
              | replace (a <? b) with false by (symmetry; apply Z.ltb_ge; lia) ]
    end.

Lemma hexval_hexdigit (d : Z) : 0 <= d < 16 -> hexval (hexdigit d) = Some d.
Proof.
  intros H. unfold hexdigit, hexval.
  destruct (d <? 10) eqn:E; bool_to_Z; decide_cmp; simpl; f_equal; lia.
Qed.

Lemma nibble (n k : Z) :
  0 <= k -> Z.land (Z.shiftr n k) 15 = (n / 2 ^ k) mod 16.
Proof.
  intros Hk. rewrite Z.shiftr_div_pow2 by assumption.
  change 15 with (Z.ones 4). rewrite Z.land_ones by lia. reflexivity.
Qed.

(** Four hexadecimal digits are read back as the number they spell. *)
Lemma decode_hex4 (n : Z) :
  0 <= n < 0x10000 ->
  decode_uXXXX (hexdigit (Z.land (Z.shiftr n 12) 15))
               (hexdigit (Z.land (Z.shiftr n 8) 15))
               (hexdigit (Z.land (Z.shiftr n 4) 15))
               (hexdigit (Z.land n 15)) = Some n.
Proof.
  intros H. unfold decode_uXXXX.
  rewrite !nibble by lia.
  replace (Z.land n 15) with (n mod 16)
    by (change 15 with (Z.ones 4); rewrite Z.land_ones by lia; reflexivity).
  rewrite !hexval_hexdigit by (apply Z.mod_pos_bound; lia).
  f_equal. change (2 ^ 12) with 4096. change (2 ^ 8) with 256.
  change (2 ^ 4) with 16.
  Z.div_mod_to_equations. lia.
Qed.

Lemma land_shiftl_low (a b k : Z) :
  0 <= k -> 0 <= b < 2 ^ k -> Z.land (Z.shiftl a k) b = 0.
Proof.
  intros Hk Hb. apply Z.bits_inj'. intros i Hi.
  rewrite Z.land_spec, Z.bits_0.
  destruct (Z.ltb_spec i k) as [Hlt|Hge].
  - rewrite Z.shiftl_spec_low by assumption. reflexivity.
  - replace (Z.testbit b i) with false; [apply andb_false_r|].
    symmetry. destruct (Z.eq_dec b 0) as [->|Hnz]; [apply Z.bits_0|].
    apply Z.bits_above_log2; [lia|].
    assert (Z.log2 b < k) by (apply Z.log2_lt_pow2; lia). lia.
Qed.

Lemma lor_shiftl_low (a b k : Z) :
  0 <= k -> 0 <= b < 2 ^ k -> Z.lor (Z.shiftl a k) b = a * 2 ^ k + b.
Proof.
  intros Hk Hb. pose proof (Z.add_lor_land (Z.shiftl a k) b) as E.
  rewrite land_shiftl_low, Z.add_0_r in E by assumption.
  rewrite E, Z.shiftl_mul_pow2 by assumption. reflexivity.
Qed.

Section Astral.
Variable c : Z.
Hypothesis Hc : 0x10000 <= c <= 0x10FFFF.

Let n := c - 0x10000.
Let s1 := Z.lor 0xD800 (Z.land (Z.shiftr n 10) 0x3FF).
Let s2 := Z.lor 0xDC00 (Z.land n 0x3FF).

Lemma high_half : s1 = 0xD800 + n / 1024.
Proof.
  unfold s1. change 0x3FF with (Z.ones 10).
  rewrite Z.land_ones, Z.shiftr_div_pow2 by lia.
  change (2 ^ 10) with 1024.
  assert (0 <= n / 1024 < 1024) by (unfold n; Z.div_mod_to_equations; lia).
  rewrite Z.mod_small by assumption.
  change 0xD800 with (Z.shiftl 54 10).
  rewrite lor_shiftl_low by (change (2 ^ 10) with 1024; lia).
  reflexivity.
Qed.

Lemma low_half : s2 = 0xDC00 + n mod 1024.
Proof.
  unfold s2. change 0x3FF with (Z.ones 10).
  rewrite Z.land_ones by lia. change (2 ^ 10) with 1024.
  assert (0 <= n mod 1024 < 1024) by (apply Z.mod_pos_bound; lia).
  change 0xDC00 with (Z.shiftl 55 10).
  rewrite lor_shiftl_low by (change (2 ^ 10) with 1024; lia).
  reflexivity.
Qed.

Lemma high_half_range : 0xD800 <= s1 <= 0xDBFF.
Proof.
  rewrite high_half. unfold n. Z.div_mod_to_equations. lia.
Qed.

Lemma low_half_range : 0xDC00 <= s2 <= 0xDFFF.
Proof.
  rewrite low_half. unfold n. Z.div_mod_to_equations. lia.
Qed.

(** The surrogate pair written for [c] joins back to [c]. *)
Lemma join_halves : join_surrogates s1 s2 = c.
Proof.
  unfold join_surrogates. rewrite high_half, low_half.
  replace (0xD800 + n / 1024 - 0xD800) with (n / 1024) by lia.
  replace (0xDC00 + n mod 1024 - 0xDC00) with (n mod 1024) by lia.
  rewrite lor_shiftl_low
    by (try lia; change (2 ^ 10) with 1024; apply Z.mod_pos_bound; lia).
  change (2 ^ 10) with 1024. unfold n. Z.div_mod_to_equations. lia.
Qed.
End Astral.

(** *** Reading one escape *)

Lemma scan_u_single (h1 h2 h3 h4 uni : Z) (s3 : str) :
  decode_uXXXX h1 h2 h3 h4 = Some uni ->
  is_high_surrogate uni = false \/ plain_ahead s3 = true ->
  scanstring (92 :: 117 :: h1 :: h2 :: h3 :: h4 :: s3) = push uni (scanstring s3).
Proof.
  intros Hd Hp. simpl. rewrite Hd.
  destruct (is_high_surrogate uni); [|reflexivity].
  destruct Hp as [Hp|Hp]; [discriminate|].
  destruct s3 as [|b [|u [|g1 [|g2 [|g3 [|g4 s4]]]]]]; try reflexivity.
  unfold plain_ahead in Hp.
  destruct ((b =? 92) && (u =? 117)); [|reflexivity].
  destruct (decode_uXXXX g1 g2 g3 g4) as [v|]; [|discriminate].
  destruct (is_low_surrogate v); [discriminate | reflexivity].
Qed.

Lemma scan_u_pair (h1 h2 h3 h4 g1 g2 g3 g4 hi lo : Z) (s4 : str) :
  decode_uXXXX h1 h2 h3 h4 = Some hi -> is_high_surrogate hi = true ->
  decode_uXXXX g1 g2 g3 g4 = Some lo -> is_low_surrogate lo = true ->
  scanstring (92 :: 117 :: h1 :: h2 :: h3 :: h4
              :: 92 :: 117 :: g1 :: g2 :: g3 :: g4 :: s4)
  = push (join_surrogates hi lo) (scanstring s4).
Proof.
  intros Hh Hhi Hg Hlo. simpl. rewrite Hh, Hhi, Hg, Hlo. reflexivity.
Qed.

Lemma range_bool (lo hi c : Z) :
  lo <= c <= hi -> (lo <=? c) && (c <=? hi) = true.
Proof. intros H. apply andb_true_iff; split; apply Z.leb_le; lia. Qed.

(** One escaped character is read back as that character, unless it is a
    high surrogate and the text goes on with the escape of a low one. *)
Lemma scanstring_escape_char (c : Z) (rest : str) :
  is_codepoint c = true ->
  is_high_surrogate c = false \/ plain_ahead rest = true ->
  scanstring (escape_char c ++ rest) = push c (scanstring rest).
Proof.
  intros Hc Hp. unfold escape_char.
  destruct (c =? 34) eqn:E34; [bool_to_Z; subst; reflexivity|].
  destruct (c =? 92) eqn:E92; [bool_to_Z; subst; reflexivity|].
  destruct (c =? 10) eqn:E10; [bool_to_Z; subst; reflexivity|].
  destruct (c =? 13) eqn:E13; [bool_to_Z; subst; reflexivity|].
  destruct (c =? 9) eqn:E9; [bool_to_Z; subst; reflexivity|].
  destruct (c =? 8) eqn:E8; [bool_to_Z; subst; reflexivity|].
  destruct (c =? 12) eqn:E12; [bool_to_Z; subst; reflexivity|].
  destruct ((32 <=? c) && (c <=? 126)) eqn:Eprint.
  - simpl. rewrite E34, E92.
    replace (c <? 32) with false; [reflexivity|].
    bool_to_Z. symmetry. apply Z.ltb_ge. lia.
  - unfold is_codepoint in Hc. apply andb_true_iff in Hc.
    destruct Hc as [Hc0 Hc1]. apply Z.leb_le in Hc0, Hc1.
    destruct (c <? 0x10000) eqn:Ebmp.
    + apply Z.ltb_lt in Ebmp.
      unfold u_escape, hex4. cbn [app].
      apply scan_u_single; [apply decode_hex4; lia | exact Hp].
    + apply Z.ltb_ge in Ebmp.
      assert (Hr : 0x10000 <= c <= 0x10FFFF) by lia.
      pose proof (high_half_range c Hr) as Hhi.
      pose proof (low_half_range c) as Hlo.
      pose proof (join_halves c Hr) as Hj.
      cbv zeta in *. unfold u_escape, hex4. cbn [app].
      eapply eq_trans; [apply scan_u_pair | rewrite Hj; reflexivity].
      * apply decode_hex4; lia.
      * apply range_bool; exact Hhi.
      * apply decode_hex4; lia.
      * apply range_bool; exact Hlo.
Qed.

(** *** What the encoder writes after a high surrogate *)

Lemma plain_ahead_quote (rest : str) : plain_ahead (34 :: rest) = true.
Proof. destruct rest as [|u [|g1 [|g2 [|g3 [|g4 s4]]]]]; reflexivity. Qed.

Lemma plain_ahead_first (b : Z) (rest : str) :
  (b =? 92) = false -> plain_ahead (b :: rest) = true.
Proof.
  intros E. destruct rest as [|u [|g1 [|g2 [|g3 [|g4 s4]]]]]; try reflexivity.
  unfold plain_ahead. rewrite E. reflexivity.
Qed.

Lemma plain_ahead_second (b u : Z) (rest : str) :
  (u =? 117) = false -> plain_ahead (b :: u :: rest) = true.
Proof.
  intros E. destruct rest as [|g1 [|g2 [|g3 [|g4 s4]]]]; try reflexivity.
  unfold plain_ahead. rewrite E, andb_false_r. reflexivity.
Qed.

Lemma plain_ahead_u (h1 h2 h3 h4 v : Z) (rest : str) :
  decode_uXXXX h1 h2 h3 h4 = Some v -> is_low_surrogate v = false ->
  plain_ahead (92 :: 117 :: h1 :: h2 :: h3 :: h4 :: rest) = true.
Proof.
  intros Hd Hv. unfold plain_ahead.
  change ((92 =? 92) && (117 =? 117)) with true. cbv iota.
  rewrite Hd, Hv. reflexivity.
Qed.

Lemma plain_ahead_escape_char (c : Z) (rest : str) :
  is_codepoint c = true -> is_low_surrogate c = false ->
  plain_ahead (escape_char c ++ rest) = true.
Proof.
  intros Hc Hlow. unfold escape_char.
  destruct (c =? 34); [apply plain_ahead_second; reflexivity|].
  destruct (c =? 92) eqn:E92; [apply plain_ahead_second; reflexivity|].
  destruct (c =? 10); [apply plain_ahead_second; reflexivity|].
  destruct (c =? 13); [apply plain_ahead_second; reflexivity|].
  destruct (c =? 9); [apply plain_ahead_second; reflexivity|].
  destruct (c =? 8); [apply plain_ahead_second; reflexivity|].
  destruct (c =? 12); [apply plain_ahead_second; reflexivity|].
  destruct ((32 <=? c) && (c <=? 126)).
  - apply plain_ahead_first; exact E92.
  - unfold is_codepoint in Hc. apply andb_true_iff in Hc.
    destruct Hc as [Hc0 Hc1]. apply Z.leb_le in Hc0, Hc1.
    destruct (c <? 0x10000) eqn:Ebmp.
    + apply Z.ltb_lt in Ebmp. unfold u_escape, hex4. cbn [app].
      eapply plain_ahead_u; [apply decode_hex4; lia | exact Hlow].
    + apply Z.ltb_ge in Ebmp.
      assert (Hr : 0x10000 <= c <= 0x10FFFF) by lia.
      pose proof (high_half_range c Hr) as Hhi.
      cbv zeta in *. unfold u_escape, hex4. cbn [app].
      eapply plain_ahead_u; [apply decode_hex4; lia|].
      unfold is_low_surrogate. apply andb_false_iff. left.
      apply Z.leb_gt. lia.
Qed.

(** *** Strings *)

(** The body of an encoded string, up to its closing quote, is read back
    as the string. *)
Lemma scanstring_encoded (s rest : str) :
  json_safe s = true ->
  scanstring (flat_map escape_char s ++ 34 :: rest) = Some (s, rest).
Proof.
  induction s as [|c s IH]; intros Hs; [reflexivity|].
  cbn [json_safe] in Hs.
  apply andb_true_iff in Hs. destruct Hs as [Hs Hrec].
  apply andb_true_iff in Hs. destruct Hs as [Hc Hpair].
  cbn [flat_map]. rewrite <- app_assoc.
  rewrite scanstring_escape_char.
  - rewrite (IH Hrec). reflexivity.
  - exact Hc.
  - destruct (is_high_surrogate c) eqn:Ehi; [right | left; reflexivity].
    destruct s as [|c' s']; [apply plain_ahead_quote|].
    cbn [flat_map]. rewrite <- app_assoc.
    cbn [json_safe] in Hrec.
    apply andb_true_iff in Hrec. destruct Hrec as [Hrec _].
    apply andb_true_iff in Hrec. destruct Hrec as [Hc' _].
    apply plain_ahead_escape_char; [exact Hc'|].
    simpl in Hpair. apply negb_true_iff in Hpair. exact Hpair.
Qed.

(** *** Arrays *)

Lemma encoded_head (x : str) (tail : str) :
  encode_basestring_ascii x ++ tail
  = 34 :: flat_map escape_char x ++ 34 :: tail.
Proof.
  unfold encode_basestring_ascii. cbn [app].
  rewrite <- app_assoc. reflexivity.
Qed.

Lemma join_items_cons2 (a b : str) (l : list str) :
  join_items (a :: b :: l) = a ++ 44 :: 32 :: join_items (b :: l).
Proof. reflexivity. Qed.

(** The text of a non-empty item list starts with the first string. *)
Lemma encoded_items_head (y : str) (l : list str) (tail : str) :
  join_items (map encode_basestring_ascii (y :: l)) ++ tail
  = 34 :: flat_map escape_char y
       ++ 34 :: match l with
                | [] => tail
                | _ :: _ =>
                    44 :: 32 :: join_items (map encode_basestring_ascii l) ++ tail
                end.
Proof.
  destruct l as [|z l]; cbn [map].
  - cbn [join_items]. apply encoded_head.
  - rewrite join_items_cons2, <- app_assoc. apply encoded_head.
Qed.

Lemma array_items_last (fuel : nat) (s1 v rest : str) :
  scanstring s1 = Some (v, 93 :: rest) ->
  array_items (S fuel) (34 :: s1) = Some ([v], rest).
Proof.
  intros H. cbn [array_items]. change (34 =? 34) with true. cbv iota.
  rewrite H. reflexivity.
Qed.

Lemma array_items_more (fuel : nat) (s1 v t : str) :
  scanstring s1 = Some (v, 44 :: 32 :: 34 :: t) ->
  array_items (S fuel) (34 :: s1)
  = match array_items fuel (34 :: t) with
    | Some (vs, r) => Some (v :: vs, r)
    | None => None
    end.
Proof.
  intros H. cbn [array_items]. change (34 =? 34) with true. cbv iota.
  rewrite H. reflexivity.
Qed.

Lemma array_items_encoded (l : list str) :
  forall (x : str) (rest : str) (fuel : nat),
    Forall (fun s => json_safe s = true) (x :: l) ->
    (List.length (x :: l) <= fuel)%nat ->
    array_items fuel
      (join_items (map encode_basestring_ascii (x :: l)) ++ 93 :: rest)
    = Some (x :: l, rest).
Proof.
  induction l as [|y l IH]; intros x rest fuel Hsafe Hfuel;
    (destruct fuel as [|fuel]; [simpl in Hfuel; lia|]);
    inversion Hsafe as [|? ? Hx Hl]; subst;
    rewrite encoded_items_head.
  - apply array_items_last. apply scanstring_encoded. exact Hx.
  - specialize (IH y rest fuel Hl).
    rewrite encoded_items_head in IH |- *.
    erewrite array_items_more by (apply scanstring_encoded; exact Hx).
    rewrite IH; [reflexivity|].
    simpl in Hfuel |- *. lia.
Qed.

Lemma join_items_length (l : list str) :
  (List.length l <= List.length (join_items (map encode_basestring_ascii l)))%nat.
Proof.
  induction l as [|x l IH]; [simpl; lia|].
  destruct l as [|y l].
  - cbn [map join_items]. unfold encode_basestring_ascii. simpl. lia.
  - cbn [map join_items] in *. rewrite length_app.
    cbn [List.length] in *. lia.
Qed.

(** [json.loads(json.dumps(l)) == l]: the same strings, in the same order,
    duplicates kept. *)
Lemma loads_dumps (l : list str) :
  Forall (fun s => json_safe s = true) l ->
  json_loads (json_dumps l) = Ok l.
Proof.
  intros Hsafe. unfold json_loads, json_dumps.
  change (skip_ws (91 :: ?t)) with (91 :: t).
  change (91 =? 91) with true. cbv iota.
  destruct l as [|x l]; [reflexivity|].
  unfold JSONArray.
  assert (Hhead : exists t,
    join_items (map encode_basestring_ascii (x :: l)) ++ [93] = 34 :: t).
  { rewrite encoded_items_head. eexists; reflexivity. }
  destruct Hhead as [t Ht].
  assert (Hskip : skip_ws (34 :: t) = 34 :: t) by reflexivity.
  rewrite Ht, Hskip. change (34 =? 93) with false. cbv iota.
  rewrite <- Ht.
  rewrite array_items_encoded; [reflexivity | exact Hsafe |].
  rewrite length_app. pose proof (join_items_length (x :: l)). lia.
Qed.

(** *** The fuel of [array_items] never runs out *)

Lemma skip_ws_length (s : str) :
  (List.length (skip_ws s) <= List.length s)%nat.
Proof.
  induction s as [|c s IH]; cbn [skip_ws]; [lia|].
  destruct (is_ws c); cbn [List.length]; lia.
Qed.

Lemma push_inv (c : Z) (r : option (str * str)) (v rest : str) :
  push c r = Some (v, rest) -> exists v', r = Some (v', rest).
Proof.
  destruct r as [[v' rest']|]; cbn [push]; [|discriminate].
  intros [= _ <-]. exists v'. reflexivity.
Qed.

(** A string, once read, has consumed at least its closing quote. *)
Lemma scanstring_consumes (n : nat) :
  forall (s v rest : str),
    (List.length s <= n)%nat ->
    scanstring s = Some (v, rest) ->
    (List.length rest < List.length s)%nat.
Proof.
  induction n as [|n IH]; intros s v rest Hlen Hscan.
  - destruct s; [discriminate | cbn in Hlen; lia].
  - destruct s as [|c s1]; [discriminate|].
    assert (Hrec : forall (x : Z) (t : str),
               (List.length t <= n)%nat ->
               push x (scanstring t) = Some (v, rest) ->
               (List.length rest < List.length t)%nat).
    { intros x t Ht Hp. apply push_inv in Hp. destruct Hp as [v' Hp].
      eapply IH; eassumption. }
    cbn [List.length] in Hlen.
    cbn [scanstring] in Hscan.
    destruct (c =? 34); [injection Hscan as _ <-; cbn [List.length]; lia|].
    destruct (c =? 92).
    + destruct s1 as [|e s2]; [discriminate|].
      destruct (e =? 117).
      * destruct s2 as [|h1 [|h2 [|h3 [|h4 s3]]]]; try discriminate.
        destruct (decode_uXXXX h1 h2 h3 h4) as [uni|]; [|discriminate].
        cbn [List.length] in Hlen |- *.
        assert (Hsingle : push uni (scanstring s3) = Some (v, rest) ->
                          (List.length rest < List.length s3)%nat)
          by (apply Hrec; lia).
        destruct (is_high_surrogate uni); [|specialize (Hsingle Hscan); lia].
        destruct s3 as [|b [|u [|g1 [|g2 [|g3 [|g4 s4]]]]]];
          try (specialize (Hsingle Hscan); lia).
        destruct ((b =? 92) && (u =? 117));
          [|specialize (Hsingle Hscan); lia].
        destruct (decode_uXXXX g1 g2 g3 g4) as [uni2|]; [|discriminate].
        destruct (is_low_surrogate uni2); [|specialize (Hsingle Hscan); lia].
        cbn [List.length] in Hlen |- *.
        apply Hrec in Hscan; lia.
      * destruct (backslash e); [|discriminate].
        cbn [List.length] in Hlen |- *. apply Hrec in Hscan; lia.
    + destruct (c <? 32); [discriminate|].
      cbn [List.length]. apply Hrec in Hscan; lia.
Qed.

(** More fuel than the length of the input changes nothing: every round of
    [array_items] consumes input. *)
Lemma array_items_fuel (n : nat) :
  forall (s : str) (k : nat),
    (List.length s <= n)%nat -> (n <= k)%nat ->
    array_items k s = array_items n s.
Proof.
  induction n as [|n IH]; intros s k Hlen Hk.
  - destruct s; [|cbn in Hlen; lia]. destruct k; reflexivity.
  - destruct k as [|k]; [lia|].
    destruct s as [|c s1]; [reflexivity|].
    cbn [array_items]. destruct (c =? 34); [|reflexivity].
    destruct (scanstring s1) as [[v s2]|] eqn:Hscan; [|reflexivity].
    apply (scanstring_consumes (List.length s1)) in Hscan; [|lia].
    pose proof (skip_ws_length s2) as Hws.
    destruct (skip_ws s2) as [|d s3]; [reflexivity|].
    destruct (d =? 93); [reflexivity|].
    destruct (d =? 44); [|reflexivity].
    pose proof (skip_ws_length s3) as Hws3.
    cbn [List.length] in Hlen, Hws.
    rewrite (IH (skip_ws s3) k) by lia. reflexivity.
Qed.

Lemma encodable_safe (s : str) : utf8_encodable s = true -> json_safe s = true.
Proof.
  induction s as [|c s IH]; [reflexivity|].
  cbn [utf8_encodable forallb json_safe]. intros H.
  apply andb_true_iff in H. destruct H as [Hc Hs].
  unfold is_scalar in Hc. apply andb_true_iff in Hc. destruct Hc as [Hcp Hsur].
  rewrite Hcp, (IH Hs), andb_true_r. cbn [andb].
  destruct s as [|c' s']; [reflexivity|].
  replace (is_high_surrogate c) with false; [reflexivity|].
  unfold is_surrogate in Hsur. unfold is_high_surrogate.
  apply negb_true_iff in Hsur. apply andb_false_iff in Hsur.
  symmetry. apply andb_false_iff.
  destruct Hsur as [H|H]; [left; exact H | right].
  apply Z.leb_gt in H. apply Z.leb_gt. lia.
Qed.

(** The encoder writes printable ASCII only, so SQLite can always bind
    what [json.dumps] returns. *)
Lemma hexdigit_ascii (d : Z) : 0 <= d < 16 -> 32 <= hexdigit d <= 126.
Proof. unfold hexdigit. destruct (d <? 10); lia. Qed.

Lemma land15_range (n : Z) : 0 <= Z.land n 15 < 16.
Proof.
  change 15 with (Z.ones 4). rewrite Z.land_ones by lia.
  apply Z.mod_pos_bound. reflexivity.
Qed.

Lemma u_escape_ascii (n : Z) : ascii_printable (u_escape n).
Proof.
  unfold u_escape, hex4.
  repeat constructor; try lia; apply hexdigit_ascii, land15_range.
Qed.

Lemma escape_char_ascii (c : Z) : ascii_printable (escape_char c).
Proof.
  unfold escape_char, ascii_printable.
  destruct (c =? 34); [repeat constructor; lia|].
  destruct (c =? 92); [repeat constructor; lia|].
  destruct (c =? 10); [repeat constructor; lia|].
  destruct (c =? 13); [repeat constructor; lia|].
  destruct (c =? 9); [repeat constructor; lia|].
  destruct (c =? 8); [repeat constructor; lia|].
  destruct (c =? 12); [repeat constructor; lia|].
  destruct ((32 <=? c) && (c <=? 126)) eqn:E.
  - bool_to_Z. constructor; [lia | constructor].
  - destruct (c <? 0x10000); [apply u_escape_ascii|].
    apply Forall_app; split; apply u_escape_ascii.
Qed.

Lemma json_dumps_ascii (l : list str) : ascii_printable (json_dumps l).
Proof.
  unfold json_dumps. constructor; [lia|].
  apply Forall_app; split; [|repeat constructor; lia].
  induction l as [|x l IH]; [constructor|].
  assert (Hx : ascii_printable (encode_basestring_ascii x)).
  { unfold encode_basestring_ascii. constructor; [lia|].
    apply Forall_app; split; [|repeat constructor; lia].
    induction x as [|c x IHx]; [constructor|].
    cbn [flat_map]. apply Forall_app; split; [apply escape_char_ascii | exact IHx]. }
  destruct l as [|y l]; [exact Hx|].
  cbn [map join_items] in *.
  apply Forall_app; split; [exact Hx|].
  constructor; [lia|]. constructor; [lia|]. exact IH.
Qed.

Lemma ascii_encodable (s : str) : ascii_printable s -> utf8_encodable s = true.
Proof.
  induction 1 as [|c s Hc Hs IH]; [reflexivity|].
  cbn [utf8_encodable forallb]. apply andb_true_iff; split; [|exact IH].
  unfold is_scalar, is_codepoint, is_surrogate.
  decide_cmp. reflexivity.
Qed.

Lemma json_dumps_encodable (l : list str) : utf8_encodable (json_dumps l) = true.
Proof. apply ascii_encodable, json_dumps_ascii. Qed.

End JsonFacts.

(* ===================================================================== *)
(** ** Dates *)
(* ===================================================================== *)

Module DateFacts.
Import PyStr Date.

Lemma digit_ascii (n : Z) : 32 <= digit n <= 126.
Proof.
  unfold digit. pose proof (Z.mod_pos_bound n 10 eq_refl). lia.
Qed.

(** [isoformat] writes digits and dashes: SQLite can bind it. *)
Lemma isoformat_encodable (d : date) : utf8_encodable (isoformat d) = true.
Proof.
  apply JsonFacts.ascii_encodable. unfold isoformat, Json.ascii_printable.
  destruct (_ord2ymd d) as [[y m] dd].
  repeat (constructor; [first [apply digit_ascii | lia]|]). constructor.
Qed.

Lemma weekday_range (d : date) : 0 <= weekday d <= 6.
Proof.
  unfold weekday. pose proof (Z.mod_pos_bound (d + 6) 7 eq_refl). lia.
Qed.

(** The Monday of the week of [today] is always a date: the subtraction in
    [cmd_weekly] cannot overflow, because day 1 is itself a Monday. *)
Lemma start_of_week (today : date) :
  valid today = true ->
  sub_days today (weekday today) = Ok (today - weekday today)
  /\ valid (today - weekday today) = true
  /\ weekday (today - weekday today) = 0
  /\ 0 <= today - (today - weekday today) <= 6.
Proof.
  unfold valid, sub_days, _MAXORDINAL. intros H.
  apply andb_true_iff in H. destruct H as [H1 H2].
  apply Z.leb_le in H1, H2.
  pose proof (weekday_range today) as Hw.
  assert (Hlow : weekday today <= today - 1).
  { unfold weekday. Z.div_mod_to_equations. lia. }
  replace (999999999 <? Z.abs (weekday today)) with false
    by (symmetry; apply Z.ltb_ge; lia).
  replace (0 <? today - weekday today) with true
    by (symmetry; apply Z.ltb_lt; lia).
  replace (today - weekday today <=? 3652059) with true
    by (symmetry; apply Z.leb_le; lia).
  replace (1 <=? today - weekday today) with true
    by (symmetry; apply Z.leb_le; lia).
  repeat split; try lia.
  unfold weekday. Z.div_mod_to_equations. lia.
Qed.

Lemma sub_days_valid (d since : date) (n : Z) :
  sub_days d n = Ok since -> valid since = true /\ since = d - n.
Proof.
  unfold sub_days, valid. destruct (999999999 <? Z.abs n); [discriminate|].
  destruct ((0 <? d - n) && (d - n <=? _MAXORDINAL)) eqn:E; [|discriminate].
  intros [= <-]. split; [|reflexivity].
  apply andb_true_iff in E. destruct E as [E1 E2].
  apply Z.ltb_lt in E1. rewrite E2, andb_true_r. apply Z.leb_le. lia.
Qed.

Ltac bools :=
  repeat match goal with
    | H : (_ && _)%bool = true |- _ => apply andb_true_iff in H; destruct H
    | H : (_ || _)%bool = false |- _ => apply orb_false_iff in H; destruct H
    | H : (_ <=? _) = true |- _ => apply Z.leb_le in H
    | H : (_ <=? _) = false |- _ => apply Z.leb_gt in H
    | H : (_ <? _) = true |- _ => apply Z.ltb_lt in H
    | H : (_ <? _) = false |- _ => apply Z.ltb_ge in H
    | H : (_ =? _) = true |- _ => apply Z.eqb_eq in H
    | H : (_ =? _) = false |- _ => apply Z.eqb_neq in H
    end.

(** *** Years *)

Lemma is_leap_cases (y : Z) :
  _is_leap y = true /\ y mod 4 = 0 /\ (y mod 100 <> 0 \/ y mod 400 = 0)
  \/ _is_leap y = false /\ (y mod 4 <> 0 \/ (y mod 100 = 0 /\ y mod 400 <> 0)).
Proof.
  unfold _is_leap.
  destruct (y mod 4 =? 0) eqn:E4; destruct (y mod 100 =? 0) eqn:E100;
    destruct (y mod 400 =? 0) eqn:E400; cbn [andb orb negb]; bools; tauto.
Qed.

Lemma days_before_year_succ (y : Z) :
  _days_before_year (y + 1)
  = _days_before_year y + 365 + (if _is_leap y then 1 else 0).
Proof.
  unfold _days_before_year. replace (y + 1 - 1) with y by lia.
  destruct (is_leap_cases y) as [(-> & H4 & H100) | (-> & H)];
    Z.div_mod_to_equations; lia.
Qed.

Lemma days_before_year_mono (y y' : Z) :
  y <= y' -> _days_before_year y <= _days_before_year y'.
Proof.
  unfold _days_before_year. intros H. Z.div_mod_to_equations. lia.
Qed.

(** The year number and the days before it, from the four quotients of
    [_ord2ymd]. *)
Lemma days_before_year_decomp (q400 q100 q4 q1 : Z) :
  0 <= q100 <= 3 -> 0 <= q4 <= 24 -> 0 <= q1 <= 3 ->
  _days_before_year (q400 * 400 + 1 + q100 * 100 + q4 * 4 + q1)
  = q400 * 146097 + q100 * 36524 + q4 * 1461 + q1 * 365.
Proof.
  intros H100 H4 H1. unfold _days_before_year.
  Z.div_mod_to_equations. lia.
Qed.

Lemma is_leap_decomp (q400 q100 q4 q1 : Z) :
  0 <= q100 <= 3 -> 0 <= q4 <= 24 -> 0 <= q1 <= 3 ->
  _is_leap (q400 * 400 + 1 + q100 * 100 + q4 * 4 + q1)
  = (q1 =? 3) && (negb (q4 =? 24) || (q100 =? 3)).
Proof.
  intros H100 H4 H1.
  destruct (is_leap_cases (q400 * 400 + 1 + q100 * 100 + q4 * 4 + q1))
    as [(-> & Hm4 & Hm) | (-> & Hm)];
    destruct (q1 =? 3) eqn:E1; destruct (q4 =? 24) eqn:E4;
    destruct (q100 =? 3) eqn:E100; cbn [andb orb negb]; bools;
    try reflexivity; exfalso; Z.div_mod_to_equations; lia.
Qed.

(** *** Months *)

Lemma range_forallb (f : Z -> bool) (k : nat) :
  forallb f (map Z.of_nat (seq 0 k)) = true ->
  forall n, 0 <= n < Z.of_nat k -> f n = true.
Proof.
  intros H n Hn. rewrite forallb_forall in H. apply H.
  apply in_map_iff. exists (Z.to_nat n). split; [lia|].
  apply in_seq. lia.
Qed.

Lemma month_day_spec (leap : bool) (n : Z) :
  0 <= n < 365 + (if leap then 1 else 0) ->
  month_day_ok leap n = true.
Proof.
  destruct leap; intros H.
  - apply (range_forallb (month_day_ok true) 366); [vm_compute; reflexivity | lia].
  - apply (range_forallb (month_day_ok false) 365); [vm_compute; reflexivity | lia].
Qed.

Lemma month_cases (m : Z) : 1 <= m <= 12 -> In m months.
Proof.
  intros H.
  assert (m = 1 \/ m = 2 \/ m = 3 \/ m = 4 \/ m = 5 \/ m = 6 \/ m = 7 \/ m = 8
          \/ m = 9 \/ m = 10 \/ m = 11 \/ m = 12) as Hm by lia.
  unfold months. cbn [In]. intuition.
Qed.

Lemma month_table_spec (leap : bool) (m : Z) :
  1 <= m <= 12 ->
  0 <= dbm leap m /\ 28 <= dim leap m
  /\ dbm leap m + dim leap m <= 365 + (if leap then 1 else 0)
  /\ forall m', 1 <= m' <= 12 -> m < m' -> dbm leap m + dim leap m <= dbm leap m'.
Proof.
  intros Hm.
  assert (H : month_table_ok leap m = true).
  { apply month_cases in Hm. revert m Hm. apply forallb_forall.
    destruct leap; vm_compute; reflexivity. }
  unfold month_table_ok in H.
  apply andb_true_iff in H; destruct H as [H Hall].
  apply andb_true_iff in H; destruct H as [H Hend].
  apply andb_true_iff in H; destruct H as [H0 H28].
  apply Z.leb_le in H0, H28, Hend.
  repeat split; try assumption.
  intros m' Hm' Hlt. apply month_cases in Hm'.
  rewrite forallb_forall in Hall. specialize (Hall m' Hm').
  apply orb_true_iff in Hall. destruct Hall as [Hc|Hc].
  - apply negb_true_iff, Z.ltb_ge in Hc. lia.
  - apply Z.leb_le in Hc. exact Hc.
Qed.

Lemma days_in_month_dim (y m : Z) : _days_in_month y m = dim (_is_leap y) m.
Proof. reflexivity. Qed.

Lemma days_before_month_dbm (y m : Z) : _days_before_month y m = dbm (_is_leap y) m.
Proof. reflexivity. Qed.

(** *** Ordinal to year, month, day and back *)

Lemma ord2ymd_unfold (n : Z) :
  let n' := n - 1 in
  let n400 := n' / 146097 in
  let r400 := n' mod 146097 in
  let n100 := r400 / 36524 in
  let r100 := r400 mod 36524 in
  let n4 := r100 / 1461 in
  let r4 := r100 mod 1461 in
  let n1 := r4 / 365 in
  let r1 := r4 mod 365 in
  let year := n400 * 400 + 1 + n100 * 100 + n4 * 4 + n1 in
  _ord2ymd n
  = if (n1 =? 4) || (n100 =? 4) then (year - 1, 12, 31)
    else
      let '(m, d) :=
        month_day r1 ((n1 =? 3) && (negb (n4 =? 24) || (n100 =? 3))) in
      (year, m, d).
Proof.
  cbv zeta. unfold _ord2ymd, month_day, _DI400Y, _DI100Y, _DI4Y. cbv zeta.
  destruct (_ || _); [reflexivity|].
  destruct (_ <? _); reflexivity.
Qed.

Lemma ord2ymd_spec (n : Z) :
  1 <= n <= _MAXORDINAL ->
  exists y m d,
    _ord2ymd n = (y, m, d)
    /\ 1 <= y <= 9999 /\ 1 <= m <= 12 /\ 1 <= d <= _days_in_month y m
    /\ _ymd2ord y m d = n.
Proof.
  unfold _MAXORDINAL. intros Hn.
  pose proof (ord2ymd_unfold n) as Hu. cbv zeta in Hu.
  set (n' := n - 1) in *.
  set (n400 := n' / 146097) in *. set (r400 := n' mod 146097) in *.
  set (n100 := r400 / 36524) in *. set (r100 := r400 mod 36524) in *.
  set (n4 := r100 / 1461) in *. set (r4 := r100 mod 1461) in *.
  set (n1 := r4 / 365) in *. set (r1 := r4 mod 365) in *.
  assert (Hq : n' = n400 * 146097 + n100 * 36524 + n4 * 1461 + n1 * 365 + r1
               /\ 0 <= n400 <= 24 /\ 0 <= n100 <= 4 /\ 0 <= n4 <= 24
               /\ 0 <= n1 <= 4 /\ 0 <= r1 < 365
               /\ (n100 = 4 -> n4 = 0 /\ n1 = 0 /\ r1 = 0)
               /\ (n1 = 4 -> r1 = 0 /\ n4 <= 23)).
  { subst n400 r400 n100 r100 n4 r4 n1 r1 n'.
    Z.div_mod_to_equations. lia. }
  destruct Hq as (Hn' & H400 & H100 & H4 & H1 & Hr1 & Hc100 & Hc1).
  clearbody n400 r400 n100 r100 n4 r4 n1 r1.
  rewrite Hu. clear Hu.
  destruct ((n1 =? 4) || (n100 =? 4)) eqn:Hend.
  - (* the last day of a leap year *)
    assert (Hy : exists q100 q4,
               0 <= q100 <= 3 /\ 0 <= q4 <= 24
               /\ (negb (q4 =? 24) || (q100 =? 3)) = true
               /\ n400 * 400 + 1 + n100 * 100 + n4 * 4 + n1 - 1
                  = n400 * 400 + 1 + q100 * 100 + q4 * 4 + 3
               /\ n' = n400 * 146097 + q100 * 36524 + q4 * 1461 + 3 * 365 + 365).
    { apply orb_true_iff in Hend. destruct Hend as [E|E]; apply Z.eqb_eq in E.
      - destruct (Z.eq_dec n100 4) as [E100|N100].
        + destruct (Hc100 E100) as (? & ? & ?). lia.
        + exists n100, n4. destruct (Hc1 E) as [? ?].
          replace (n4 =? 24) with false by (symmetry; apply Z.eqb_neq; lia).
          repeat split; try lia.
      - destruct (Hc100 E) as (? & ? & ?). exists 3, 24.
        repeat split; try lia. }
    destruct Hy as (q100 & q4 & Hq100 & Hq4 & Hleap & Hyear & Hdays).
    eexists _, 12, 31. split; [reflexivity|].
    rewrite Hyear.
    assert (Hl : _is_leap (n400 * 400 + 1 + q100 * 100 + q4 * 4 + 3) = true).
    { rewrite is_leap_decomp by lia. rewrite Hleap. reflexivity. }
    split; [lia|]. split; [lia|].
    rewrite days_in_month_dim. unfold _ymd2ord.
    rewrite days_before_month_dbm, Hl, days_before_year_decomp by lia.
    change (dim true 12) with 31. change (dbm true 12) with 335.
    split; lia.
  - (* an ordinary day *)
    apply orb_false_iff in Hend. destruct Hend as [E1 E100].
    apply Z.eqb_neq in E1, E100.
    set (leap := (n1 =? 3) && (negb (n4 =? 24) || (n100 =? 3))).
    assert (Hl : _is_leap (n400 * 400 + 1 + n100 * 100 + n4 * 4 + n1) = leap)
      by (apply is_leap_decomp; lia).
    assert (Hr : 0 <= r1 < 365 + (if leap then 1 else 0))
      by (destruct leap; lia).
    pose proof (month_day_spec leap r1 Hr) as Hmd.
    unfold month_day_ok in Hmd.
    destruct (month_day r1 leap) as [m d].
    apply andb_true_iff in Hmd; destruct Hmd as [Hmd Hsum].
    apply andb_true_iff in Hmd; destruct Hmd as [Hmd Hd2].
    apply andb_true_iff in Hmd; destruct Hmd as [Hmd Hd1].
    apply andb_true_iff in Hmd; destruct Hmd as [Hm1 Hm2].
    apply Z.leb_le in Hm1, Hm2, Hd1, Hd2. apply Z.eqb_eq in Hsum.
    eexists _, m, d. split; [reflexivity|].
    split; [lia|]. split; [lia|].
    rewrite days_in_month_dim, Hl. split; [lia|].
    unfold _ymd2ord.
    rewrite days_before_month_dbm, Hl, days_before_year_decomp by lia.
    lia.
Qed.

(** *** The order of dates *)

Lemma ymd2ord_year_bounds (y m d : Z) :
  ymd_valid y m d ->
  _days_before_year y < _ymd2ord y m d <= _days_before_year (y + 1).
Proof.
  intros (Hy & Hm & Hd). unfold _ymd2ord.
  rewrite days_before_year_succ, days_before_month_dbm.
  rewrite days_in_month_dim in Hd.
  destruct (month_table_spec (_is_leap y) m Hm) as (H0 & _ & Hend & _).
  lia.
Qed.

Lemma ymd2ord_lt (y m d y' m' d' : Z) :
  ymd_valid y m d -> ymd_valid y' m' d' ->
  lex3 y m d y' m' d' = Lt ->
  _ymd2ord y m d < _ymd2ord y' m' d'.
Proof.
  intros Hv Hv' Hlt. unfold lex3 in Hlt.
  destruct (Z.compare_spec y y') as [Ey|Ly|Gy]; try discriminate.
  - subst y'. destruct Hv as (Hy & Hm & Hd). destruct Hv' as (_ & Hm' & Hd').
    unfold _ymd2ord. rewrite !days_before_month_dbm.
    rewrite days_in_month_dim in Hd, Hd'.
    destruct (Z.compare_spec m m') as [Em|Lm|Gm]; try discriminate.
    + subst m'. apply -> Z.compare_lt_iff in Hlt. lia.
    + destruct (month_table_spec (_is_leap y) m Hm) as (_ & _ & _ & Hnext).
      specialize (Hnext m' Hm' Lm). lia.
  - pose proof (ymd2ord_year_bounds y m d Hv) as [_ Hhi].
    pose proof (ymd2ord_year_bounds y' m' d' Hv') as [Hlo _].
    pose proof (days_before_year_mono (y + 1) y' ltac:(lia)). lia.
Qed.

Lemma lex3_antisym (y m d y' m' d' : Z) :
  lex3 y' m' d' y m d = CompOpp (lex3 y m d y' m' d').
Proof.
  unfold lex3. rewrite (Z.compare_antisym y y'), (Z.compare_antisym m m'),
    (Z.compare_antisym d d').
  destruct (y ?= y'); cbn [CompOpp]; try reflexivity.
  destruct (m ?= m'); cbn [CompOpp]; reflexivity.
Qed.

Lemma ymd2ord_compare (y m d y' m' d' : Z) :
  ymd_valid y m d -> ymd_valid y' m' d' ->
  (_ymd2ord y m d ?= _ymd2ord y' m' d') = lex3 y m d y' m' d'.
Proof.
  intros Hv Hv'.
  destruct (lex3 y m d y' m' d') eqn:E.
  - unfold lex3 in E.
    destruct (Z.compare_spec y y'); try discriminate.
    destruct (Z.compare_spec m m'); try discriminate.
    apply Z.compare_eq in E. subst. apply Z.compare_refl.
  - apply Z.compare_lt_iff. apply ymd2ord_lt; assumption.
  - apply Z.compare_gt_iff. apply ymd2ord_lt; try assumption.
    rewrite lex3_antisym, E. reflexivity.
Qed.

(** *** The order of the strings *)

Lemma digit_compare (a b : Z) : (digit a ?= digit b) = (a mod 10 ?= b mod 10).
Proof. unfold digit. apply Z.add_compare_mono_l. Qed.

Lemma digits4_compare (y y' : Z) :
  0 <= y <= 9999 -> 0 <= y' <= 9999 ->
  PyStr.compare (digits4 y) (digits4 y') = (y ?= y').
Proof.
  intros Hy Hy'. unfold digits4. cbn [PyStr.compare]. rewrite !digit_compare.
  symmetry.
  destruct (Z.compare_spec ((y / 1000) mod 10) ((y' / 1000) mod 10));
    [|apply Z.compare_lt_iff; Z.div_mod_to_equations; lia
     |apply Z.compare_gt_iff; Z.div_mod_to_equations; lia].
  destruct (Z.compare_spec ((y / 100) mod 10) ((y' / 100) mod 10));
    [|apply Z.compare_lt_iff; Z.div_mod_to_equations; lia
     |apply Z.compare_gt_iff; Z.div_mod_to_equations; lia].
  destruct (Z.compare_spec ((y / 10) mod 10) ((y' / 10) mod 10));
    [|apply Z.compare_lt_iff; Z.div_mod_to_equations; lia
     |apply Z.compare_gt_iff; Z.div_mod_to_equations; lia].
  destruct (Z.compare_spec (y mod 10) (y' mod 10));
    [apply Z.compare_eq_iff|apply Z.compare_lt_iff|apply Z.compare_gt_iff];
    Z.div_mod_to_equations; lia.
Qed.

Lemma digits2_compare (m m' : Z) :
  0 <= m <= 99 -> 0 <= m' <= 99 ->
  PyStr.compare (digits2 m) (digits2 m') = (m ?= m').
Proof.
  intros Hm Hm'. unfold digits2. cbn [PyStr.compare]. rewrite !digit_compare.
  symmetry.
  destruct (Z.compare_spec ((m / 10) mod 10) ((m' / 10) mod 10));
    [|apply Z.compare_lt_iff; Z.div_mod_to_equations; lia
     |apply Z.compare_gt_iff; Z.div_mod_to_equations; lia].
  destruct (Z.compare_spec (m mod 10) (m' mod 10));
    [apply Z.compare_eq_iff|apply Z.compare_lt_iff|apply Z.compare_gt_iff];
    Z.div_mod_to_equations; lia.
Qed.

Lemma compare_app (a a' b b' : str) :
  List.length a = List.length a' ->
  PyStr.compare (a ++ b) (a' ++ b')
  = match PyStr.compare a a' with
    | Eq => PyStr.compare b b'
    | c => c
    end.
Proof.
  revert a'. induction a as [|x a IH]; intros [|x' a'] Hlen;
    try discriminate; cbn [app PyStr.compare].
  - destruct (PyStr.compare b b'); reflexivity.
  - destruct (x ?= x'); try reflexivity. apply IH. cbn in Hlen. lia.
Qed.

Lemma isoformat_fmt (n y m d : Z) :
  _ord2ymd n = (y, m, d) -> isoformat n = fmt y m d.
Proof. unfold isoformat. intros ->. reflexivity. Qed.

Lemma fmt_compare (y m d y' m' d' : Z) :
  0 <= y <= 9999 -> 0 <= y' <= 9999 ->
  0 <= m <= 99 -> 0 <= m' <= 99 -> 0 <= d <= 99 -> 0 <= d' <= 99 ->
  PyStr.compare (fmt y m d) (fmt y' m' d') = lex3 y m d y' m' d'.
Proof.
  intros. unfold fmt, lex3.
  rewrite compare_app, digits4_compare by (try reflexivity; assumption).
  destruct (y ?= y'); try reflexivity.
  rewrite (compare_app [45] [45]) by reflexivity. cbn [PyStr.compare].
  change (45 ?= 45) with Eq. cbv iota.
  rewrite compare_app, digits2_compare by (try reflexivity; assumption).
  destruct (m ?= m'); try reflexivity.
  rewrite (compare_app [45] [45]) by reflexivity. cbn [PyStr.compare].
  change (45 ?= 45) with Eq. cbv iota.
  apply digits2_compare; assumption.
Qed.

Lemma day_at_most_31 (y m d : Z) : ymd_valid y m d -> d <= 31.
Proof.
  intros (_ & Hm & Hd). rewrite days_in_month_dim in Hd.
  assert (dim (_is_leap y) m <= 31); [|lia].
  apply month_cases in Hm. revert m Hm Hd.
  assert (Hall : forallb (fun m => dim (_is_leap y) m <=? 31) months = true)
    by (destruct (_is_leap y); vm_compute; reflexivity).
  rewrite forallb_forall in Hall. intros m Hm _.
  apply Z.leb_le. apply Hall. exact Hm.
Qed.

(** ISO date strings compare as the dates they spell. *)
Theorem isoformat_compare (a b : date) :
  valid a = true -> valid b = true ->
  PyStr.compare (isoformat a) (isoformat b) = (a ?= b).
Proof.
  unfold valid. intros Ha Hb.
  apply andb_true_iff in Ha. destruct Ha as [Ha1 Ha2].
  apply andb_true_iff in Hb. destruct Hb as [Hb1 Hb2].
  apply Z.leb_le in Ha1, Ha2, Hb1, Hb2.
  destruct (ord2ymd_spec a ltac:(lia)) as (y & m & d & Ea & Hy & Hm & Hd & Ha).
  destruct (ord2ymd_spec b ltac:(lia)) as (y' & m' & d' & Eb & Hy' & Hm' & Hd' & Hb).
  assert (Hv : ymd_valid y m d) by (repeat split; lia).
  assert (Hv' : ymd_valid y' m' d') by (repeat split; lia).
  pose proof (day_at_most_31 _ _ _ Hv). pose proof (day_at_most_31 _ _ _ Hv').
  rewrite (isoformat_fmt a y m d Ea), (isoformat_fmt b y' m' d' Eb).
  rewrite fmt_compare by lia.
  rewrite <- ymd2ord_compare by assumption.
  rewrite Ha, Hb. reflexivity.
Qed.

Corollary isoformat_leb (a b : date) :
  valid a = true -> valid b = true ->
  PyStr.leb (isoformat a) (isoformat b) = (a <=? b).
Proof.
  intros Ha Hb. unfold PyStr.leb, Z.leb.
  rewrite isoformat_compare by assumption. reflexivity.
Qed.

(** *** Reading back what [isoformat] writes *)

Lemma digit_val_digit (n : Z) : digit_val (digit n) = Some (n mod 10).
Proof.
  unfold digit_val, digit. pose proof (Z.mod_pos_bound n 10 eq_refl).
  replace ((48 <=? 48 + n mod 10) && (48 + n mod 10 <=? 57)) with true.
  - f_equal. lia.
  - symmetry. apply andb_true_iff. split; apply Z.leb_le; lia.
Qed.

Lemma number_digits4 (y : Z) :
  0 <= y <= 9999 ->
  number [digit (y / 1000); digit (y / 100); digit (y / 10); digit y] = Some y.
Proof.
  intros Hy. unfold number. cbn [fold_left]. rewrite !digit_val_digit.
  f_equal. Z.div_mod_to_equations. lia.
Qed.

Lemma number_digits2 (m : Z) :
  0 <= m <= 99 -> number [digit (m / 10); digit m] = Some m.
Proof.
  intros Hm. unfold number. cbn [fold_left]. rewrite !digit_val_digit.
  f_equal. Z.div_mod_to_equations. lia.
Qed.

Theorem fromisoformat_isoformat (d : date) :
  valid d = true -> fromisoformat (isoformat d) = Ok d.
Proof.
  unfold valid. intros Hd.
  apply andb_true_iff in Hd. destruct Hd as [H1 H2]. apply Z.leb_le in H1, H2.
  destruct (ord2ymd_spec d ltac:(lia)) as (y & m & dd & E & Hy & Hm & Hdd & Hord).
  assert (Hv : ymd_valid y m dd) by (repeat split; lia).
  pose proof (day_at_most_31 _ _ _ Hv).
  unfold isoformat. rewrite E. unfold fromisoformat.
  rewrite number_digits4, !number_digits2 by lia.
  unfold MINYEAR, MAXYEAR.
  replace ((45 =? 45) && (45 =? 45) && (1 <=? y) && (y <=? 9999) && (1 <=? m)
           && (m <=? 12) && (1 <=? dd) && (dd <=? _days_in_month y m))
    with true.
  - rewrite Hord. reflexivity.
  - symmetry. repeat (apply andb_true_iff; split);
      try reflexivity; apply Z.leb_le; lia.
Qed.


End DateFacts.

(* ===================================================================== *)
(** ** The store: schema, connections, inserts *)
(* ===================================================================== *)

Module StoreFacts.
Import PyStr Store.

Section WithPlatform.
Context {P : Platform}.

(** *** get_db *)

Lemma schema_shape (d : Db) :
  schema d
  = mkDb (Some (stored d)) (sqlite_sequence d) (Some (indexed d)) true true true.
Proof.
  destruct d as [[rows|] seq [docs|] ai ad au]; reflexivity.
Qed.

Lemma schema_idempotent (d : Db) : schema (schema d) = schema d.
Proof. rewrite !schema_shape. reflexivity. Qed.

Lemma get_db_shape (file : Db) : get_db file = mkConn (schema file) None.
Proof. reflexivity. Qed.

Lemma stored_schema (d : Db) : stored (schema d) = stored d.
Proof. rewrite schema_shape. reflexivity. Qed.

Lemma indexed_schema (d : Db) : indexed (schema d) = indexed d.
Proof. rewrite schema_shape. reflexivity. Qed.

Lemma schema_with_entry (file : Db) (row : Row) :
  schema (with_entry file row) = with_entry file row.
Proof. reflexivity. Qed.

Lemma table_entries_get_db (file : Db) :
  table_entries (view (get_db file)) = Ok (stored file).
Proof. rewrite get_db_shape. cbn [view pending committed]. rewrite schema_shape. reflexivity. Qed.

Lemma table_entries_fts_get_db (file : Db) :
  table_entries_fts (view (get_db file)) = Ok (indexed file).
Proof. rewrite get_db_shape. cbn [view pending committed]. rewrite schema_shape. reflexivity. Qed.

(** *** insert_entry *)

Lemma bind_text_ok (s : str) : utf8_encodable s = true -> bind_text s = Ok s.
Proof. unfold bind_text. intros ->. reflexivity. Qed.

Lemma bind_text_inv (s t : str) : bind_text s = Ok t -> t = s.
Proof. unfold bind_text. destruct (utf8_encodable s); congruence. Qed.

Lemma bind_dumps (l : list str) : bind_text (Json.json_dumps l) = Ok (Json.json_dumps l).
Proof. apply bind_text_ok, JsonFacts.json_dumps_encodable. Qed.

(** The INSERT statement on an initialised database: the row and its
    document are both written, or the statement fails. *)
Lemma insert_into_entries_schema (file : Db)
    (date title body tags_json mood : str) (focus_hours : float)
    (accomplishments blockers tomorrow created_at : str) :
  insert_into_entries (schema file) date title body tags_json mood focus_hours
                      accomplishments blockers tomorrow created_at
  = if MAX_ROWID <=? next_rowid file - 1 then Raise OperationalError
    else if float_isnan focus_hours then Raise IntegrityError
    else Ok (with_entry file
               (mkRow (next_rowid file) date title body tags_json mood
                      focus_hours accomplishments blockers tomorrow created_at),
             next_rowid file).
Proof.
  rewrite schema_shape. unfold insert_into_entries, next_rowid.
  cbn [entries sqlite_sequence entries_fts entries_ai entries_ad entries_au].
  replace (Z.max (sqlite_sequence file) (max_rowid (stored file)) + 1 - 1)
    with (Z.max (sqlite_sequence file) (max_rowid (stored file))) by lia.
  destruct (MAX_ROWID <=? Z.max (sqlite_sequence file) (max_rowid (stored file)));
    [reflexivity|].
  destruct (float_isnan focus_hours); reflexivity.
Qed.

(** Every successful [insert_entry] on a connection from [get_db] has
    this one effect. *)
Lemma insert_entry_inv (now : str) (file : Db) (date_str title body : str)
    (tags : list str) (mood : str) (focus_hours : float)
    (accomplishments blockers tomorrow : list str)
    (db : Connection) (eid : Z) :
  insert_entry now (get_db file) date_str title body tags mood focus_hours
               accomplishments blockers tomorrow = Ok (db, eid) ->
  eid = next_rowid file
  /\ db = mkConn (with_entry file
                    (written_row eid now date_str title body tags mood
                                 focus_hours accomplishments blockers tomorrow))
                 None.
Proof.
  unfold insert_entry, execute_insert.
  rewrite !bind_dumps.
  destruct (bind_text date_str) as [d|] eqn:Ed; [|discriminate].
  destruct (bind_text title) as [t|] eqn:Et; [|discriminate].
  destruct (bind_text body) as [b|] eqn:Eb; [|discriminate].
  destruct (bind_text mood) as [m|] eqn:Em; [|discriminate].
  destruct (bind_text now) as [n|] eqn:En; [|discriminate].
  apply bind_text_inv in Ed, Et, Eb, Em, En. subst.
  rewrite get_db_shape. cbn [view pending committed].
  rewrite insert_into_entries_schema.
  destruct (MAX_ROWID <=? next_rowid file - 1); [discriminate|].
  destruct (float_isnan focus_hours); [discriminate|].
  cbn [bind commit view pending committed].
  intros [= <- <-]. split; reflexivity.
Qed.

(** When the strings can be bound, the hours are a number and a rowid is
    left, it succeeds. *)
Lemma insert_entry_ok (now : str) (file : Db) (date_str title body : str)
    (tags : list str) (mood : str) (focus_hours : float)
    (accomplishments blockers tomorrow : list str) :
  utf8_encodable date_str = true -> utf8_encodable title = true ->
  utf8_encodable body = true -> utf8_encodable mood = true ->
  utf8_encodable now = true ->
  float_isnan focus_hours = false ->
  next_rowid file <= MAX_ROWID ->
  insert_entry now (get_db file) date_str title body tags mood focus_hours
               accomplishments blockers tomorrow
  = Ok (mkConn (with_entry file
                  (written_row (next_rowid file) now date_str title body tags
                               mood focus_hours accomplishments blockers tomorrow))
               None,
        next_rowid file).
Proof.
  intros Hd Ht Hb Hm Hn Hnan Hroom.
  unfold insert_entry, execute_insert.
  rewrite !bind_dumps, !bind_text_ok by assumption.
  rewrite get_db_shape. cbn [view pending committed].
  rewrite insert_into_entries_schema.
  replace (MAX_ROWID <=? next_rowid file - 1) with false
    by (symmetry; apply Z.leb_gt; lia).
  rewrite Hnan. reflexivity.
Qed.

Lemma max_rowid_bound (rows : list Row) (r : Row) :
  In r rows -> col_id r <= max_rowid rows.
Proof.
  induction rows as [|x rows IH]; [contradiction|].
  cbn [max_rowid fold_right In]. fold (max_rowid rows).
  intros [->|H]; [lia|]. specialize (IH H). lia.
Qed.

Lemma max_rowid_nonneg (rows : list Row) : 0 <= max_rowid rows.
Proof.
  induction rows as [|x rows IH]; cbn [max_rowid fold_right]; [lia|].
  fold (max_rowid rows). lia.
Qed.

Lemma next_rowid_fresh (d : Db) (r : Row) :
  In r (stored d) -> col_id r < next_rowid d.
Proof.
  intros H. apply max_rowid_bound in H. unfold next_rowid. lia.
Qed.

Lemma next_rowid_positive (d : Db) : 1 <= next_rowid d.
Proof. unfold next_rowid. pose proof (max_rowid_nonneg (stored d)). lia. Qed.

(** *** The index follows the table *)

Lemma in_sync_schema (d : Db) : in_sync d -> in_sync (schema d).
Proof.
  unfold in_sync. rewrite stored_schema, indexed_schema. tauto.
Qed.

Lemma in_sync_with_entry (file : Db) (row : Row) :
  in_sync file -> col_id row = next_rowid file ->
  in_sync (with_entry file row).
Proof.
  unfold in_sync. intros [Hidx Hnd] Hid.
  cbn [with_entry stored indexed entries entries_fts].
  rewrite Hidx, !map_app. split; [reflexivity|].
  cbn [map]. apply NoDup_app_remove_l with (l := []). cbn [app].
  apply Permutation_NoDup with (l := col_id row :: map col_id (stored file)).
  - apply Permutation_cons_append.
  - constructor; [|exact Hnd].
    rewrite in_map_iff. intros (r & Hr & Hin).
    apply next_rowid_fresh in Hin. lia.
Qed.

(** Every database the program produces has its index in step. *)
Lemma reachable_in_sync (d : Db) : reachable d -> in_sync d.
Proof.
  induction 1 as [|file _ IH|file now ds t b tg m h a bl tm db eid _ IH Hins].
  - split; [reflexivity | constructor].
  - rewrite get_db_shape. cbn [committed]. apply in_sync_schema, IH.
  - apply insert_entry_inv in Hins. destruct Hins as [Heid ->].
    cbn [committed]. apply in_sync_with_entry; [exact IH|].
    rewrite Heid. reflexivity.
Qed.

Lemma filter_by_id_none (rows : list Row) (k : Z) :
  ~ In k (map col_id rows) -> filter (fun e => col_id e =? k) rows = [].
Proof.
  induction rows as [|x rows IH]; [reflexivity|].
  cbn [map filter In]. intros H.
  destruct (col_id x =? k) eqn:E.
  - exfalso. apply H. left. apply Z.eqb_eq. exact E.
  - apply IH. intros Hin. apply H. right. exact Hin.
Qed.

(** With distinct ids, an id selects one row. *)
Lemma filter_by_id_unique (rows : list Row) (r : Row) :
  NoDup (map col_id rows) -> In r rows ->
  filter (fun e => col_id e =? col_id r) rows = [r].
Proof.
  induction rows as [|x rows IH]; [contradiction|].
  cbn [map filter In]. intros Hnd Hin. inversion Hnd as [|? ? Hx Hrest]; subst.
  destruct Hin as [->|Hin].
  - rewrite Z.eqb_refl. f_equal. apply filter_by_id_none. exact Hx.
  - destruct (col_id x =? col_id r) eqn:E.
    + exfalso. apply Hx. apply Z.eqb_eq in E. rewrite E.
      apply in_map. exact Hin.
    + apply IH; assumption.
Qed.

End WithPlatform.
End StoreFacts.

(* ===================================================================== *)
(** ** The console *)
(* ===================================================================== *)

Module ConsoleFacts.
Import PyStr Cli.

Section WithPlatform.
Context {P : Platform}.

Lemma encodable_app (a b : str) :
  utf8_encodable (a ++ b) = utf8_encodable a && utf8_encodable b.
Proof. apply forallb_app. Qed.

Lemma accepted_utf8 (e : Event) :
  forallb utf8_encodable (stdout_strings e) = true -> accepted e = true.
Proof.
  unfold accepted. rewrite !forallb_forall. intros H s Hs.
  apply stdout_accepts_utf8, H, Hs.
Qed.

Lemma emit_ok (e : Event) : accepted e = true -> emit e = mkCmd [e] (Ok tt).
Proof. unfold emit. intros ->. reflexivity. Qed.

Lemma emit_utf8 (e : Event) :
  forallb utf8_encodable (stdout_strings e) = true -> emit e = mkCmd [e] (Ok tt).
Proof. intros H. apply emit_ok, accepted_utf8, H. Qed.

Lemma emit_refused (e : Event) :
  accepted e = false -> emit e = mkCmd [] (Raise UnicodeEncodeError).
Proof. unfold emit. intros ->. reflexivity. Qed.

Lemma moods_encodable (m : str) : mem m MOODS = true -> utf8_encodable m = true.
Proof.
  intros H. apply PyStrFacts.mem_In in H. unfold MOODS in H. cbn [In] in H.
  destruct H as [<-|[<-|[<-|[<-|[]]]]]; reflexivity.
Qed.

Lemma emit_added (eid : Z) (d : Date.date) :
  emit (ok (EntryAdded eid (Date.isoformat d)))
  = mkCmd [ok (EntryAdded eid (Date.isoformat d))] (Ok tt).
Proof.
  apply emit_utf8. cbn [stdout_strings strings_of forallb].
  rewrite DateFacts.isoformat_encodable. reflexivity.
Qed.

(** The laws of the command monad. *)
Lemma cmd_bind_ret_l {A B} (a : A) (k : A -> Cmd B) : cmd_bind (ret a) k = k a.
Proof. unfold cmd_bind, ret. cbn. destruct (k a). reflexivity. Qed.

Lemma cmd_bind_lift_ok {A B} (a : A) (k : A -> Cmd B) :
  cmd_bind (lift (Ok a)) k = k a.
Proof. apply cmd_bind_ret_l. Qed.

Lemma cmd_bind_lift_raise {A B} (e : PyExc) (k : A -> Cmd B) :
  cmd_bind (lift (Raise e)) k = mkCmd [] (Raise e).
Proof. reflexivity. Qed.

Lemma cmd_bind_ret_r {A} (m : Cmd A) : cmd_bind m ret = m.
Proof.
  destruct m as [p [a|e]]; unfold cmd_bind, ret; cbn; [|reflexivity].
  rewrite app_nil_r. reflexivity.
Qed.

Lemma cmd_bind_assoc {A B C} (m : Cmd A) (f : A -> Cmd B) (g : B -> Cmd C) :
  cmd_bind (cmd_bind m f) g = cmd_bind m (fun x => cmd_bind (f x) g).
Proof.
  destruct m as [p [a|e]]; unfold cmd_bind; cbn; [|reflexivity].
  destruct (f a) as [q [b|e]]; cbn; [|reflexivity].
  destruct (g b) as [r c]. cbn. rewrite app_assoc. reflexivity.
Qed.

Lemma cmd_bind_unit (m : Cmd unit) (k : unit -> Cmd unit) :
  cmd_bind m k = cmd_bind m (fun _ => k tt).
Proof.
  unfold cmd_bind. destruct (returned m) as [[]|e]; reflexivity.
Qed.

Lemma for_each_app {A} (l1 l2 : list A) (body : A -> Cmd unit) :
  for_each (l1 ++ l2) body
  = cmd_bind (for_each l1 body) (fun _ => for_each l2 body).
Proof.
  induction l1 as [|x l1 IH]; cbn [app for_each].
  - rewrite cmd_bind_ret_l. reflexivity.
  - rewrite IH, cmd_bind_assoc. reflexivity.
Qed.

Lemma for_each_map {A B} (g : A -> B) (l : list A) (body : B -> Cmd unit) :
  for_each (map g l) body = for_each l (fun x => body (g x)).
Proof.
  induction l as [|x l IH]; [reflexivity|]. cbn [map for_each]. rewrite IH.
  reflexivity.
Qed.

(** A run of calls prints up to the first one that is refused. *)
Lemma emit_all (l : list Event) :
  for_each l emit
  = mkCmd (take_while accepted l)
          (if forallb accepted l then Ok tt else Raise UnicodeEncodeError).
Proof.
  induction l as [|e l IH]; [reflexivity|].
  cbn [for_each take_while forallb]. rewrite IH. unfold emit.
  destruct (accepted e); reflexivity.
Qed.

Lemma take_while_all {A} (p : A -> bool) (l : list A) :
  forallb p l = true -> take_while p l = l.
Proof.
  induction l as [|x l IH]; [reflexivity|]. cbn [forallb take_while].
  intros H. apply andb_true_iff in H. destruct H as [-> H].
  rewrite (IH H). reflexivity.
Qed.

Lemma emit_all_ok (l : list Event) :
  forallb accepted l = true -> for_each l emit = mkCmd l (Ok tt).
Proof.
  intros H. rewrite emit_all, H, (take_while_all _ _ H). reflexivity.
Qed.

Lemma for_each_emit {A} (l : list A) (g : A -> Event) :
  forallb (fun x => accepted (g x)) l = true ->
  for_each l (fun x => emit (g x)) = mkCmd (map g l) (Ok tt).
Proof.
  intros H. rewrite <- for_each_map. apply emit_all_ok.
  induction l as [|x l IH]; [reflexivity|]. cbn [map forallb] in *.
  apply andb_true_iff in H. destruct H as [-> H]. apply IH, H.
Qed.

Lemma cmd_bind_ret_tt (m : Cmd unit) : cmd_bind m (fun _ => ret tt) = m.
Proof.
  destruct m as [p [[]|e]]; unfold cmd_bind, ret; cbn; [|reflexivity].
  rewrite app_nil_r. reflexivity.
Qed.

Lemma for_each_optional (c : bool) (x : Event) :
  for_each (if c then [] else [x]) emit = if c then ret tt else emit x.
Proof.
  destruct c; [reflexivity|]. cbn [for_each]. apply cmd_bind_ret_tt.
Qed.

Lemma for_each_section {A} (c : bool) (h : Event) (g : A -> Event) (l : list A) :
  for_each (if c then [] else h :: map g l) emit
  = if c then ret tt
    else cmd_bind (emit h) (fun _ => for_each l (fun a => emit (g a))).
Proof.
  destruct c; [reflexivity|]. cbn [for_each]. rewrite for_each_map.
  reflexivity.
Qed.

(** A loop of calls that print one string each. *)
Lemma for_each_emit_prefix {A} (l : list A) (g : A -> Event) (p : A -> bool) :
  (forall a, accepted (g a) = p a) ->
  for_each l (fun a => emit (g a))
  = mkCmd (map g (take_while p l))
          (if forallb p l then Ok tt else Raise UnicodeEncodeError).
Proof.
  intros Hp. induction l as [|x l IH]; [reflexivity|].
  cbn [for_each take_while forallb]. rewrite IH. unfold emit. rewrite Hp.
  destruct (p x); reflexivity.
Qed.

(** [print_entry] makes the calls of [entry_lines], in that order. *)
Lemma print_entry_lines (e : JournalEntry) (short : bool) :
  print_entry e short = for_each (entry_lines e short) emit.
Proof.
  unfold print_entry, entry_lines.
  cbn [app]. cbn [for_each]. rewrite for_each_app, for_each_optional.
  destruct short; [reflexivity|].
  rewrite !for_each_app, for_each_optional, !for_each_section.
  reflexivity.
Qed.

(** An entry of text prints in full. *)
Lemma forallb_incl {A} (p : A -> bool) (l l' : list A) :
  (forall x, In x l' -> In x l) -> forallb p l = true -> forallb p l' = true.
Proof.
  rewrite !forallb_forall. intros Hsub H x Hx. apply H, Hsub, Hx.
Qed.

Lemma entry_lines_strings (e : JournalEntry) (short : bool) (ev : Event)
    (s : str) :
  In ev (entry_lines e short) -> In s (stdout_strings ev) ->
  In s ([date e; title e; body e; mood e] ++ tags e ++ accomplishments e
        ++ blockers e ++ tomorrow e).
Proof.
  unfold entry_lines. intros Hev Hs. rewrite !in_app_iff.
  assert (Hitem : forall (l : list str) (g : str -> Message),
            (forall a, strings_of (g a) = [a]) ->
            forall h, strings_of h = [] ->
            In ev (if is_empty l then []
                   else print h :: map (fun a => print (g a)) l) ->
            In s l).
  { intros l g Hg h Hh H. destruct (is_empty l); [destruct H|].
    destruct H as [<-|H].
    - cbn [stdout_strings] in Hs. rewrite Hh in Hs. destruct Hs.
    - apply in_map_iff in H. destruct H as (a & <- & Ha).
      cbn [stdout_strings] in Hs. rewrite Hg in Hs.
      destruct Hs as [<-|[]]. exact Ha. }
  repeat (apply in_app_or in Hev; destruct Hev as [Hev|Hev]).
  - left. destruct Hev as [<-|[<-|[]]]; cbn [stdout_strings strings_of In] in *;
      tauto.
  - right; left. destruct (is_empty (tags e)); [destruct Hev|].
    destruct Hev as [<-|[]]. exact Hs.
  - destruct short; [destruct Hev|].
    repeat (apply in_app_or in Hev; destruct Hev as [Hev|Hev]).
    + left. destruct (is_empty (body e)); [destruct Hev|].
      destruct Hev as [<-|[]]. cbn [stdout_strings strings_of In] in *. tauto.
    + right; right; left.
      apply (Hitem _ Accomplishment (fun _ => eq_refl) AccomplishmentsHeading
                   eq_refl Hev).
    + right; right; right; left.
      apply (Hitem _ Blocker (fun _ => eq_refl) BlockersHeading eq_refl Hev).
    + right; right; right; right.
      apply (Hitem _ TomorrowItem (fun _ => eq_refl) TomorrowHeading eq_refl Hev).
Qed.

Lemma entry_lines_accepted (e : JournalEntry) (short : bool) :
  entry_encodable e = true -> forallb accepted (entry_lines e short) = true.
Proof.
  unfold entry_encodable. intros He. apply forallb_forall. intros ev Hev.
  apply accepted_utf8. apply forallb_forall. intros s Hs.
  rewrite forallb_forall in He. apply He.
  eapply entry_lines_strings; eassumption.
Qed.

Lemma print_entry_text (e : JournalEntry) (short : bool) :
  entry_encodable e = true ->
  print_entry e short = mkCmd (entry_lines e short) (Ok tt).
Proof.
  intros He. rewrite print_entry_lines.
  apply emit_all_ok, entry_lines_accepted, He.
Qed.

(** The loop over the rows of a query. *)
Lemma print_rows_lines (short : bool) (rows : list Row)
    (es : list JournalEntry) :
  mapM row_to_entry rows = Ok es ->
  print_rows short rows
  = for_each (flat_map (fun e => entry_lines e short) es) emit.
Proof.
  unfold print_rows. revert es.
  induction rows as [|r rows IH]; intros es; cbn [mapM for_each].
  - intros [= <-]. reflexivity.
  - destruct (row_to_entry r) as [e|]; [|discriminate].
    destruct (mapM row_to_entry rows) as [es'|]; [|discriminate].
    intros [= <-]. cbn [flat_map].
    rewrite cmd_bind_lift_ok, (IH es' eq_refl), for_each_app, print_entry_lines.
    reflexivity.
Qed.

Lemma print_rows_raise (short : bool) (rows : list Row) (e : PyExc) :
  mapM row_to_entry rows = Raise e ->
  exists e', returned (print_rows short rows) = Raise e'.
Proof.
  unfold print_rows.
  induction rows as [|r rows IH]; cbn [mapM for_each]; [discriminate|].
  destruct (row_to_entry r) as [x|e'] eqn:Er.
  - destruct (mapM row_to_entry rows) as [es'|e'']; [discriminate|].
    intros [= <-]. destruct (IH eq_refl) as [e' He'].
    rewrite cmd_bind_lift_ok.
    unfold cmd_bind at 1.
    destruct (returned (print_entry x short)) as [[]|e1]; cbn [returned].
    + exists e'. exact He'.
    + exists e1. reflexivity.
  - intros _. exists e'. rewrite cmd_bind_lift_raise.
    reflexivity.
Qed.

Lemma print_rows_text (short : bool) (rows : list Row) :
  Forall text_row rows ->
  exists es,
    mapM row_to_entry rows = Ok es
    /\ print_rows short rows
       = mkCmd (flat_map (fun e => entry_lines e short) es) (Ok tt).
Proof.
  intros Hrows.
  assert (H : exists es, mapM row_to_entry rows = Ok es
                         /\ forallb entry_encodable es = true).
  { induction Hrows as [|r rows (e & He & Henc) _ (es & Hes & Hall)].
    - exists []. split; reflexivity.
    - exists (e :: es). cbn [mapM forallb]. rewrite He, Hes, Henc, Hall.
      split; reflexivity. }
  destruct H as (es & Hes & Hall). exists es. split; [exact Hes|].
  rewrite (print_rows_lines short rows es Hes). apply emit_all_ok.
  clear Hes. induction es as [|e es IH]; [reflexivity|].
  cbn [flat_map forallb] in *. apply andb_true_iff in Hall.
  destruct Hall as [He Hall]. rewrite forallb_app.
  rewrite (entry_lines_accepted e short He), (IH Hall). reflexivity.
Qed.

End WithPlatform.
End ConsoleFacts.

(* ********************************************************************* *)
(** * The specification, claim by claim *)
(* ********************************************************************* *)

Import PyStr Cli StoreFacts ConsoleFacts.

Section Claims.
Context {P : Platform}.

Lemma filter_map_swap {A B} (f : A -> B) (p : B -> bool) (l : list A) :
  filter p (map f l) = map f (filter (fun x => p (f x)) l).
Proof.
  induction l as [|x l IH]; [reflexivity|].
  cbn [map filter]. destruct (p (f x)); cbn [map]; rewrite IH; reflexivity.
Qed.

(** What [cmd_add] leaves on disk, case by case. *)
Lemma cmd_add_cases (today : Date.date) (now : str) (args : AddArgs) (file : Db) :
  let o := cmd_add today now args file in
  (result o = Raise (SystemExit 1) /\ disk o = schema file
   /\ mem (args_mood args) MOODS = false)
  \/ (exists e, result o = Raise e /\ disk o = schema file)
  \/ (exists row, result o = Ok tt /\ disk o = with_entry file row
                  /\ col_id row = next_rowid file
                  /\ (reachable file -> reachable (disk o))).
Proof.
  intros o. subst o. unfold cmd_add.
  destruct (mem (args_mood args) MOODS) eqn:Hmood; cbn [negb].
  - match goal with
    | |- context [insert_entry ?n ?c ?d ?t ?b ?tg ?m ?h ?a ?bl ?tm] =>
        destruct (insert_entry n c d t b tg m h a bl tm) as [[db eid]|e] eqn:Hins
    end.
    + right; right.
      pose proof Hins as Hreach.
      apply insert_entry_inv in Hins. destruct Hins as [Heid Hdb].
      eexists. rewrite emit_added. cbn [finish result disk returned].
      split; [reflexivity|]. rewrite Hdb at 1. cbn [committed].
      split; [reflexivity|]. split; [exact Heid|].
      intros Hfile. eapply reach_insert; [exact Hfile | exact Hreach].
    + right; left. exists e. split; reflexivity.
  - left. repeat split; reflexivity.
Qed.

Lemma with_entry_stored (file : Db) (row : Row) :
  stored (with_entry file row) = stored file ++ [row].
Proof. reflexivity. Qed.

Lemma with_entry_indexed (file : Db) (row : Row) :
  indexed (with_entry file row) = indexed file ++ [fts_doc row].
Proof. reflexivity. Qed.

(** C8.  [get_db] is idempotent.  Opening a store that [get_db] has
    already opened changes nothing, so a second call gives the same
    connection and every query on it the same result; and on any
    pre-existing store the entries, the index documents and the rowid
    counter survive the call: nothing is dropped or rewritten. *)
Theorem get_db_idempotent (file : Db) :
  get_db (committed (get_db file)) = get_db file
  /\ (forall (A : Type) (query : Connection -> A),
        query (get_db (committed (get_db file))) = query (get_db file))
  /\ stored (committed (get_db file)) = stored file
  /\ indexed (committed (get_db file)) = indexed file
  /\ sqlite_sequence (committed (get_db file)) = sqlite_sequence file.
Proof.
  assert (H : get_db (committed (get_db file)) = get_db file).
  { rewrite !get_db_shape. cbn [committed]. rewrite schema_idempotent. reflexivity. }
  split; [exact H|].
  split; [intros A query; rewrite H; reflexivity|].
  rewrite get_db_shape. cbn [committed].
  rewrite stored_schema, indexed_schema, schema_shape. repeat split.
Qed.

(** C1, as the code has it.  The mood is checked by [cmd_add], not by the
    store: for a mood outside great, good, ok, rough the command reports
    the error, exits with status 1, and the entries and index documents
    on disk are those from before the call. *)
Theorem cmd_add_rejects_invalid_mood
    (today : Date.date) (now : str) (args : AddArgs) (file : Db) :
  mem (args_mood args) MOODS = false ->
  let o := cmd_add today now args file in
  result o = Raise (SystemExit 1)
  /\ out o = [err (MoodMustBeOneOf MOODS)]
  /\ stored (disk o) = stored file
  /\ indexed (disk o) = indexed file.
Proof.
  intros Hmood o. subst o. unfold cmd_add. rewrite Hmood. cbn [negb].
  cbn [finish result out disk cmd_bind emit raise printed returned app].
  rewrite get_db_shape. cbn [committed].
  rewrite stored_schema, indexed_schema. repeat split.
Qed.

(** C2.  In every database the program can produce, the index holds the
    document of each entry, built from its title, body and serialized
    tags, and exactly one per entry.  An insert writes the row and its
    document together: after [insert_entry] both are there, and after
    [cmd_add] either both are there or the entries and the index are as
    they were. *)
Theorem index_in_step_with_entries (file : Db) :
  reachable file ->
  indexed file = map fts_doc (stored file)
  /\ NoDup (map col_id (stored file))
  /\ (forall r, In r (stored file) ->
        filter (fun f => rowid f =? col_id r) (indexed file)
        = [mkDoc (col_id r) (col_title r) (col_body r) (col_tags_json r)])
  /\ (forall now date_str title body tags mood focus_hours
             accomplishments blockers tomorrow db eid,
        insert_entry now (get_db file) date_str title body tags mood
          focus_hours accomplishments blockers tomorrow = Ok (db, eid) ->
        pending db = None
        /\ stored (committed db)
           = stored file ++ [written_row eid now date_str title body tags mood
                               focus_hours accomplishments blockers tomorrow]
        /\ indexed (committed db)
           = indexed file ++ [mkDoc eid title body (Json.json_dumps tags)]
        /\ reachable (committed db))
  /\ (forall today now args,
        let o := cmd_add today now args file in
        reachable (disk o)
        /\ ((exists row, result o = Ok tt
                         /\ stored (disk o) = stored file ++ [row]
                         /\ indexed (disk o) = indexed file ++ [fts_doc row])
            \/ (exists e, result o = Raise e
                          /\ stored (disk o) = stored file
                          /\ indexed (disk o) = indexed file))).
Proof.
  intros Hreach.
  destruct (reachable_in_sync file Hreach) as [Hidx Hnd].
  split; [exact Hidx|]. split; [exact Hnd|]. split; [|split].
  - intros r Hr. rewrite Hidx, filter_map_swap.
    change (fun x : Row => rowid (fts_doc x) =? col_id r)
      with (fun x : Row => col_id x =? col_id r).
    rewrite filter_by_id_unique by assumption. reflexivity.
  - intros now date_str title body tags mood focus_hours
           accomplishments blockers tomorrow db eid Hins.
    pose proof (reach_insert _ _ _ _ _ _ _ _ _ _ _ _ _ Hreach Hins) as Hr.
    apply insert_entry_inv in Hins. destruct Hins as [Heid ->].
    cbn [pending committed] in *. repeat split. exact Hr.
  - intros today now args o.
    assert (Hschema : reachable (schema file))
      by (apply (reach_get_db file Hreach)).
    destruct (cmd_add_cases today now args file)
      as [(Hres & Hdisk & _) | [(e & Hres & Hdisk) | (row & Hres & Hdisk & _ & Hr)]];
      fold o in Hres, Hdisk |- *.
    + rewrite Hdisk. split; [exact Hschema|]. right. exists (SystemExit 1).
      rewrite stored_schema, indexed_schema. repeat split. exact Hres.
    + rewrite Hdisk. split; [exact Hschema|]. right. exists e.
      rewrite stored_schema, indexed_schema. repeat split. exact Hres.
    + split; [exact (Hr Hreach)|]. left. exists row.
      rewrite Hdisk. repeat split. exact Hres.
Qed.

Ltac cmd_eval :=
  cbn [finish result out disk cmd_bind emit accepted stdout_strings strings_of
       forallb raise lift ret printed returned app for_each is_empty].

(** C4, as the code has it.  A query that FTS5 rejects ends [cmd_search]
    with the uncaught [sqlite3.OperationalError]: nothing is printed, no
    error of its own kind is reported, and the entries and the index on
    disk are untouched. *)
Theorem cmd_search_rejected_query_raises (query : str) (file : Db) :
  utf8_encodable query = true ->
  fts5_match query = None ->
  let o := cmd_search query file in
  result o = Raise OperationalError
  /\ out o = []
  /\ stored (disk o) = stored file
  /\ indexed (disk o) = indexed file.
Proof.
  intros Henc Hbad o. subst o. unfold cmd_search, select_search.
  rewrite (bind_text_ok _ Henc). cbn [bind].
  rewrite table_entries_get_db, table_entries_fts_get_db. cbn [bind].
  rewrite Hbad. cmd_eval.
  rewrite get_db_shape. cbn [committed].
  rewrite stored_schema, indexed_schema. repeat split.
Qed.

(** *** Streak *)

Lemma consecutive_nonempty (p : list Date.date) : consecutive p -> p <> [].
Proof. destruct 1; discriminate. Qed.

Lemma streak_loop_step (d d' : Date.date) (l : list Date.date) (k : Z) :
  streak_loop (d :: d' :: l) k
  = if Date.days_between d d' =? 1 then streak_loop (d' :: l) (k + 1) else k.
Proof. reflexivity. Qed.

Lemma streak_loop_prefix (dates : list Date.date) :
  dates <> [] ->
  forall k, exists p,
    maximal_consecutive_prefix p dates
    /\ streak_loop dates k = k - 1 + Z.of_nat (List.length p).
Proof.
  induction dates as [|d dates IH]; [congruence|]. intros _ k.
  destruct dates as [|d' l].
  - exists [d]. split; [|cbn; lia].
    split; [constructor|]. split; [exists []; reflexivity|].
    intros q rest Hq _. apply (f_equal (@List.length _)) in Hq.
    rewrite length_app in Hq. cbn in Hq |- *. lia.
  - rewrite streak_loop_step.
    destruct (Date.days_between d d' =? 1) eqn:Hday.
    + apply Z.eqb_eq in Hday.
      destruct (IH ltac:(discriminate) (k + 1)) as (p & (Hp & (rest & Hrest) & Hmax) & Hk).
      destruct p as [|x p]; [exfalso; eapply consecutive_nonempty; eauto|].
      injection Hrest as <- Hl.
      exists (d :: d' :: p). split.
      * split; [constructor; assumption|].
        split; [exists rest; rewrite Hl; reflexivity|].
        intros q rest' Hq Hcq.
        destruct q as [|y q]; [cbn; lia|].
        injection Hq as <- Hq.
        destruct q as [|y' q]; [cbn; lia|].
        inversion Hcq; subst.
        specialize (Hmax (y' :: q) rest' Hq ltac:(assumption)).
        cbn [List.length] in *. lia.
      * rewrite Hk. cbn [List.length]. lia.
    + apply Z.eqb_neq in Hday.
      exists [d]. split; [|cbn; lia].
      split; [constructor|]. split; [exists (d' :: l); reflexivity|].
      intros q rest Hq Hcq.
      destruct q as [|y q]; [cbn; lia|].
      injection Hq as <- Hq.
      destruct q as [|y' q]; [cbn; lia|].
      injection Hq as <- Hq.
      inversion Hcq; subst. contradiction.
Qed.


(** The query behind the streak: each date of the store once, the most
    recent first. *)
Lemma select_distinct_dates_contract (file : Db) :
  exists rows,
    select_distinct_dates (get_db file) = Ok rows
    /\ NoDup rows
    /\ Sorted (fun a b => leb b a = true) rows
    /\ forall x, In x rows <-> In x (map col_date (stored file)).
Proof.
  unfold select_distinct_dates. rewrite table_entries_get_db. cbn [bind].
  eexists. split; [reflexivity|]. split; [|split].
  - eapply Permutation_NoDup; [apply sort_by_perm|].
    apply (distinct_NoDup eqb PyStrFacts.eqb_eq).
  - apply (sort_by_sorted (fun a b => leb b a)).
    intros a b. apply PyStrFacts.leb_total.
  - intros x. rewrite sort_by_In. apply (distinct_In eqb PyStrFacts.eqb_eq).
Qed.

(** What [cmd_streak] prints is the value of the loop on the dates read
    from the store. *)
Lemma cmd_streak_reports_loop (file : Db) (rows : list str)
    (dates : list Date.date) :
  select_distinct_dates (get_db file) = Ok rows ->
  rows <> [] ->
  mapM Date.fromisoformat rows = Ok dates ->
  result (cmd_streak file) = Ok tt
  /\ out (cmd_streak file)
     = [ok (CurrentStreak (streak_loop dates 1));
        print (TotalDays (Z.of_nat (List.length dates)))].
Proof.
  intros Hsel Hne Hdates. unfold cmd_streak. rewrite Hsel. cmd_eval.
  destruct rows as [|r rows]; [congruence|]. cbn [is_empty].
  rewrite Hdates. cmd_eval. split; reflexivity.
Qed.

(** *** Get by id after insert *)

Lemma find_fresh_last (rows : list Row) (row : Row) :
  (forall r, In r rows -> col_id r < col_id row) ->
  find (fun r => col_id r =? col_id row) (rows ++ [row]) = Some row.
Proof.
  induction rows as [|x rows IH]; intros Hfresh.
  - cbn. rewrite Z.eqb_refl. reflexivity.
  - cbn [app find].
    replace (col_id x =? col_id row) with false.
    + apply IH. intros r Hr. apply Hfresh. right. exact Hr.
    + symmetry. apply Z.eqb_neq.
      specialize (Hfresh x (or_introl eq_refl)). lia.
Qed.

Lemma row_to_entry_written (eid : Z) (now date_str title body : str)
    (tags : list str) (mood : str) (focus_hours : float)
    (accomplishments blockers tomorrow : list str) :
  Forall (fun s => Json.json_safe s = true) tags ->
  Forall (fun s => Json.json_safe s = true) accomplishments ->
  Forall (fun s => Json.json_safe s = true) blockers ->
  Forall (fun s => Json.json_safe s = true) tomorrow ->
  row_to_entry (written_row eid now date_str title body tags mood focus_hours
                            accomplishments blockers tomorrow)
  = Ok (mkEntry eid date_str title body tags mood focus_hours
                accomplishments blockers tomorrow now).
Proof.
  intros Ht Ha Hb Hm. unfold row_to_entry, written_row.
  cbn [col_id col_date col_title col_body col_tags_json col_mood
       col_focus_hours col_accomplishments col_blockers col_tomorrow
       col_created_at].
  rewrite !JsonFacts.loads_dumps by assumption. reflexivity.
Qed.

(** C6, as the code has it.  A valid insert is one that SQLite accepts:
    the strings can be bound as UTF-8, the hours are not NaN and a rowid
    is left.  Then [insert_entry] returns an id, and the row with that id,
    read right afterwards, is decoded by [row_to_entry] into an entry
    whose fields are the inserted values, the four lists as the same
    sequences, order and duplicates kept - provided that no string of the
    lists holds a high surrogate directly before a low one: [json.dumps]
    writes the two as two escapes, and [json.loads] reads the two escapes
    as one code point.  [cmd_show] prints that entry: the calls of
    [print_entry] for it, up to the first one that the console refuses. *)
Theorem show_after_insert_returns_inputs
    (now : str) (file : Db) (date_str title body : str) (tags : list str)
    (mood : str) (focus_hours : float)
    (accomplishments blockers tomorrow : list str) :
  utf8_encodable date_str = true -> utf8_encodable title = true ->
  utf8_encodable body = true -> utf8_encodable mood = true ->
  utf8_encodable now = true ->
  float_isnan focus_hours = false ->
  Forall (fun s => Json.json_safe s = true) tags ->
  Forall (fun s => Json.json_safe s = true) accomplishments ->
  Forall (fun s => Json.json_safe s = true) blockers ->
  Forall (fun s => Json.json_safe s = true) tomorrow ->
  next_rowid file <= MAX_ROWID ->
  exists db eid row,
    let entry := mkEntry eid date_str title body tags mood focus_hours
                         accomplishments blockers tomorrow now in
    insert_entry now (get_db file) date_str title body tags mood focus_hours
                 accomplishments blockers tomorrow = Ok (db, eid)
    /\ select_by_id (get_db (committed db)) eid = Ok (Some row)
    /\ row_to_entry row = Ok entry
    /\ out (cmd_show eid (committed db))
       = take_while accepted (entry_lines entry false)
    /\ result (cmd_show eid (committed db))
       = (if forallb accepted (entry_lines entry false) then Ok tt
          else Raise UnicodeEncodeError)
    /\ Json.json_loads (Json.json_dumps tags) = Ok tags
    /\ Json.json_loads (Json.json_dumps accomplishments) = Ok accomplishments
    /\ Json.json_loads (Json.json_dumps blockers) = Ok blockers
    /\ Json.json_loads (Json.json_dumps tomorrow) = Ok tomorrow.
Proof.
  intros Hd Ht Hb Hm Hn Hnan Htags Hacc Hblk Htmr Hroom.
  eexists. exists (next_rowid file).
  exists (written_row (next_rowid file) now date_str title body tags mood
                      focus_hours accomplishments blockers tomorrow).
  cbv zeta.
  split; [apply insert_entry_ok; assumption|].
  cbn [committed].
  assert (Hshow :
    select_by_id (get_db (with_entry file
      (written_row (next_rowid file) now date_str title body tags mood
                   focus_hours accomplishments blockers tomorrow)))
      (next_rowid file)
    = Ok (Some (written_row (next_rowid file) now date_str title body tags
                            mood focus_hours accomplishments blockers tomorrow))).
  { unfold select_by_id, bind_int.
    pose proof (next_rowid_positive file) as Hpos.
    replace ((- MAX_ROWID - 1 <=? next_rowid file)
             && (next_rowid file <=? MAX_ROWID)) with true.
    - cbn [bind]. rewrite table_entries_get_db, with_entry_stored. cbn [bind].
      f_equal.
      apply (find_fresh_last (stored file)
               (written_row (next_rowid file) now date_str title body tags mood
                            focus_hours accomplishments blockers tomorrow)).
      intros r Hr. apply next_rowid_fresh. exact Hr.
    - symmetry. apply andb_true_iff. unfold MAX_ROWID in *.
      split; apply Z.leb_le; lia. }
  split; [exact Hshow|].
  split; [apply row_to_entry_written; assumption|].
  unfold cmd_show. rewrite Hshow, cmd_bind_lift_ok.
  rewrite row_to_entry_written by assumption.
  rewrite cmd_bind_lift_ok, print_entry_lines, emit_all.
  cbn [finish out result printed returned].
  repeat split; try reflexivity; apply JsonFacts.loads_dumps; assumption.
Qed.

(** *** Search *)

Lemma join_in_sync (rows sub : list Row) (p : str -> str -> str -> bool) :
  NoDup (map col_id rows) -> incl sub rows ->
  flat_map (fun f => filter (fun e => col_id e =? rowid f) rows)
           (filter (fun f => p (fts_title f) (fts_body f) (fts_tags_json f))
                   (map fts_doc sub))
  = filter (fun r => p (col_title r) (col_body r) (col_tags_json r)) sub.
Proof.
  intros Hnd. induction sub as [|r sub IH]; intros Hincl; [reflexivity|].
  assert (Hsub : incl sub rows) by (intros x Hx; apply Hincl; right; exact Hx).
  cbn [map filter fts_doc fts_title fts_body fts_tags_json].
  destruct (p (col_title r) (col_body r) (col_tags_json r)).
  - cbn [flat_map rowid fts_doc]. rewrite filter_by_id_unique.
    + cbn [app]. f_equal. apply IH. exact Hsub.
    + exact Hnd.
    + apply Hincl. left. reflexivity.
  - apply IH. exact Hsub.
Qed.

Lemma select_search_in_sync (file : Db) (query : str)
    (p : str -> str -> str -> bool) :
  in_sync file -> utf8_encodable query = true -> fts5_match query = Some p ->
  select_search (get_db file) query
  = Ok (firstn 20 (sort_by date_desc (matching p file))).
Proof.
  intros [Hidx Hnd] Henc Hq. unfold select_search.
  rewrite (bind_text_ok _ Henc). cbn [bind].
  rewrite table_entries_get_db, table_entries_fts_get_db. cbn [bind].
  rewrite Hq, Hidx, join_in_sync; [reflexivity | exact Hnd | apply incl_refl].
Qed.

Lemma In_firstn {A} (n : nat) (l : list A) (x : A) :
  In x (firstn n l) -> In x l.
Proof.
  revert l; induction n as [|n IH]; intros [|y l]; cbn [firstn In]; try tauto.
  intros [H|H]; [left; exact H | right; apply IH; exact H].
Qed.

Lemma date_desc_total (a b : Row) : date_desc a b = false -> date_desc b a = true.
Proof. unfold date_desc. apply PyStrFacts.leb_total. Qed.

Lemma date_asc_total (a b : Row) : date_asc a b = false -> date_asc b a = true.
Proof. unfold date_asc. apply PyStrFacts.leb_total. Qed.

(** C7.  For a query that FTS5 accepts, on any database the program can
    produce, the search returns entries that match, the most recent date
    first, at most 20 of them: the first 20 of the matching entries in
    descending date order, all of them when there are no more than 20.
    When nothing matches the result is empty and the command ends
    normally after saying so.  When something matches, the command says
    how many rows it shows and prints them in that order in short form,
    up to the first call that the console refuses. *)
Theorem search_newest_first_at_most_20 (file : Db) (query : str)
    (p : str -> str -> str -> bool) :
  reachable file ->
  utf8_encodable query = true ->
  fts5_match query = Some p ->
  exists rows,
    select_search (get_db file) query = Ok rows
    /\ rows = firstn 20 (sort_by date_desc (matching p file))
    /\ (forall r, In r rows ->
          In r (stored file)
          /\ p (col_title r) (col_body r) (col_tags_json r) = true)
    /\ ((List.length (matching p file) <= 20)%nat ->
        Permutation rows (matching p file))
    /\ newest_first rows
    /\ (List.length rows <= 20)%nat
    /\ (matching p file = [] ->
        rows = []
        /\ result (cmd_search query file) = Ok tt
        /\ out (cmd_search query file) = [info (NoResultsFor query)])
    /\ (matching p file <> [] ->
        rows <> []
        /\ forall es, mapM row_to_entry rows = Ok es ->
            let lines := flat_map (fun e => entry_lines e true) es in
            out (cmd_search query file)
            = info (ResultsFor (Z.of_nat (List.length rows)) query)
              :: take_while accepted lines
            /\ result (cmd_search query file)
               = (if forallb accepted lines then Ok tt
                  else Raise UnicodeEncodeError)).
Proof.
  intros Hreach Henc Hq.
  pose proof (select_search_in_sync file query p
                (reachable_in_sync file Hreach) Henc Hq) as Hsel.
  assert (Hinfo : forall m, strings_of m = [query] ->
                            emit (info m) = mkCmd [info m] (Ok tt)).
  { intros m Hm. apply emit_utf8. cbn [stdout_strings]. rewrite Hm.
    cbn [forallb]. rewrite Henc. reflexivity. }
  eexists. split; [exact Hsel|]. split; [reflexivity|].
  split; [|split; [|split; [|split; [|split]]]].
  - intros r Hr. apply In_firstn, sort_by_In in Hr.
    unfold matching in Hr. apply filter_In in Hr. exact Hr.
  - intros Hlen. rewrite firstn_all2.
    + symmetry. apply sort_by_perm.
    + rewrite sort_by_length. exact Hlen.
  - unfold newest_first. apply firstn_sorted.
    apply (sort_by_sorted date_desc date_desc_total).
  - apply firstn_le_length.
  - intros Hnone. unfold cmd_search. rewrite Hsel, Hnone.
    cbn [sort_by fold_right firstn]. rewrite cmd_bind_lift_ok.
    cbn [is_empty]. rewrite (Hinfo (NoResultsFor query) eq_refl). repeat split.
  - intros Hsome.
    assert (Hne : firstn 20 (sort_by date_desc (matching p file)) <> []).
    { intros E. apply (f_equal (@List.length Row)) in E.
      rewrite length_firstn, sort_by_length in E.
      destruct (matching p file); [congruence | discriminate]. }
    split; [exact Hne|]. intros es Hes lines.
    unfold cmd_search. rewrite Hsel, cmd_bind_lift_ok.
    destruct (firstn 20 (sort_by date_desc (matching p file))) as [|r rows];
      [congruence|].
    cbn [is_empty]. rewrite (Hinfo (ResultsFor _ query) eq_refl).
    pose proof (print_rows_lines true _ _ Hes) as Hp. unfold print_rows in Hp.
    rewrite Hp, emit_all. fold lines.
    cbn [finish out result cmd_bind printed returned app]. split; reflexivity.
Qed.

(** *** Loops that can raise *)

Lemma mapM_raise {A B} (f : A -> Result B) (l : list A) (x : A) (E : PyExc) :
  (forall y e, f y = Raise e -> e = E) ->
  In x l -> f x = Raise E -> mapM f l = Raise E.
Proof.
  intros Honly. induction l as [|y l IH]; [contradiction|].
  cbn [In mapM]. intros [->|Hin] Hx.
  - rewrite Hx. reflexivity.
  - destruct (f y) as [b|e] eqn:Ey.
    + rewrite (IH Hin Hx). reflexivity.
    + rewrite (Honly y e Ey). reflexivity.
Qed.

Lemma mapM_total {A B} (f : A -> Result B) (l : list A) :
  (forall x, In x l -> exists y, f x = Ok y) -> exists ys, mapM f l = Ok ys.
Proof.
  induction l as [|x l IH]; intros H; [exists []; reflexivity|].
  destruct (H x (or_introl eq_refl)) as [y Hy].
  destruct IH as [ys Hys]; [intros z Hz; apply H; right; exact Hz|].
  exists (y :: ys). cbn [mapM]. rewrite Hy, Hys. reflexivity.
Qed.

Lemma mapM_Forall2 {A B} (f : A -> Result B) (l : list A) (ys : list B) :
  mapM f l = Ok ys -> Forall2 (fun x y => f x = Ok y) l ys.
Proof.
  revert ys; induction l as [|x l IH]; intros ys; cbn [mapM].
  - intros [= <-]. constructor.
  - destruct (f x) as [y|] eqn:Ey; [|discriminate].
    destruct (mapM f l) as [ys'|]; [|discriminate].
    intros [= <-]. constructor; [exact Ey | apply IH; reflexivity].
Qed.

(** *** Markdown export *)

Lemma row_to_entry_date (r : Row) (e : JournalEntry) :
  row_to_entry r = Ok e -> date e = col_date r.
Proof.
  unfold row_to_entry.
  destruct (Json.json_loads (col_tags_json r)); [|discriminate].
  destruct (Json.json_loads (col_accomplishments r)); [|discriminate].
  destruct (Json.json_loads (col_blockers r)); [|discriminate].
  destruct (Json.json_loads (col_tomorrow r)); [|discriminate].
  cbn [bind]. intros [= <-]. reflexivity.
Qed.

(** C9.  Without a start date ([--start] absent, or given as the empty
    string) the export reads the range from 2020-01-01 on.  No entry dated
    before that string is among the rows read, none is in the written
    file, and nothing in the output mentions them: the command prints
    nothing (it raised), or that the range is empty, or the file and the
    count of the exported rows. *)
Theorem export_md_default_start (today : Date.date)
    (args_start args_end : option str) (file : Db) :
  args_start = None \/ args_start = Some [] ->
  let o := cmd_export_md today args_start args_end file in
  let start := lit "2020-01-01" in
  let stop := or_default args_end (Date.isoformat today) in
  let rows :=
    sort_by date_asc
      (filter (fun r => leb start (col_date r) && leb (col_date r) stop)
              (stored file)) in
  let fname := lit "journal_" ++ start ++ [95] ++ stop ++ lit ".md" in
  (forall r, In r (stored file) -> ltb (col_date r) start = true -> ~ In r rows)
  /\ ((out o = [] /\ exists e, result o = Raise e)
      \/ (rows = [] /\ out o = [warn NoEntriesInRange])
      \/ (exists exported,
            mapM row_to_entry rows = Ok exported
            /\ out o = [write_file fname start stop exported;
                        ok (Exported (Z.of_nat (List.length rows)) fname)]
            /\ Forall (fun e => ltb (date e) start = false) exported)).
Proof.
  intros Hstart o start stop rows fname.
  assert (Hrows : forall r, In r rows -> leb start (col_date r) = true).
  { intros r Hr. subst rows. apply sort_by_In, filter_In in Hr.
    destruct Hr as [_ Hr]. apply andb_true_iff in Hr. tauto. }
  split.
  - intros r _ Hold Hin. apply Hrows in Hin.
    rewrite PyStrFacts.ltb_not_leb, Hin in Hold. discriminate.
  - assert (Ho : o = cmd_export_md today None args_end file)
      by (destruct Hstart as [->| ->]; reflexivity).
    rewrite Ho. clear Ho o. unfold cmd_export_md.
    cbn [or_default]. fold start. fold stop.
    unfold select_between.
    change (bind_text start) with (Ok (A := str) start). cbn [bind].
    unfold bind_text. destruct (utf8_encodable stop) eqn:Hstop.
    + cbn [bind]. rewrite table_entries_get_db. cbn [bind]. fold rows.
      rewrite cmd_bind_lift_ok. destruct rows as [|r0 rows'] eqn:Erows.
      * right; left. split; reflexivity.
      * cbn [is_empty].
        destruct (mapM row_to_entry (r0 :: rows')) as [exported|e] eqn:Emap.
        -- rewrite cmd_bind_lift_ok. cbv zeta. fold fname. unfold write_md.
           destruct (open_w fname) as [[]|e];
             [rewrite cmd_bind_lift_ok
             | left; split; [reflexivity | exists e; reflexivity]].
           destruct (forallb utf8_encodable
                       (start :: stop :: flat_map md_strings exported));
             [|left; split; [reflexivity | eexists; reflexivity]].
           right; right. exists exported.
           rewrite emit_utf8.
           ++ split; [reflexivity|]. split; [reflexivity|].
              apply mapM_Forall2 in Emap.
              clear Erows. induction Emap as [|r e rs es Hre _ IH]; constructor.
              ** rewrite (row_to_entry_date r e Hre), PyStrFacts.ltb_not_leb.
                 rewrite Hrows by (left; reflexivity). reflexivity.
              ** apply IH. intros x Hx. apply Hrows. right. exact Hx.
           ++ cbn [stdout_strings strings_of forallb]. unfold fname.
              rewrite !encodable_app, Hstop. reflexivity.
        -- left. split; [reflexivity | exists e; reflexivity].
    + left. split; [reflexivity | eexists; reflexivity].
Qed.

(** *** Mood trend *)

Lemma index_raise_inv (t : list str) (x : str) (e : PyExc) :
  index t x = Raise e -> e = ValueError.
Proof.
  induction t as [|y t IH]; cbn [index]; [congruence|].
  destruct (eqb y x); [discriminate|].
  destruct (index t x); [discriminate|]. intros [= <-]. apply IH. reflexivity.
Qed.

(** The groups of [GROUP BY mood]: one per mood of the selected rows. *)
Lemma select_mood_counts_groups (file : Db) (since : Date.date) :
  exists groups,
    select_mood_counts (get_db file) (Date.isoformat since) = Ok groups
    /\ forall m, In m (map fst groups) <->
         exists r, In r (stored file)
                   /\ leb (Date.isoformat since) (col_date r) = true
                   /\ col_mood r = m.
Proof.
  unfold select_mood_counts.
  rewrite (bind_text_ok _ (DateFacts.isoformat_encodable since)). cbn [bind].
  rewrite table_entries_get_db. cbn [bind].
  eexists. split; [reflexivity|]. intros m.
  rewrite map_map. cbn [fst]. rewrite map_id.
  rewrite sort_by_In, (distinct_In eqb PyStrFacts.eqb_eq), in_map_iff.
  split.
  - intros (r & Hm & Hr). apply filter_In in Hr. exists r. tauto.
  - intros (r & Hr & Hw & Hm). exists r. split; [exact Hm|].
    apply filter_In. tauto.
Qed.

Lemma sorted_by_mood_raises (groups : list (str * Z)) (m : str) :
  In m (map fst groups) -> mem m MOODS = false ->
  sorted_by_mood groups = Raise ValueError.
Proof.
  intros Hin Hbad. unfold sorted_by_mood.
  apply in_map_iff in Hin. destruct Hin as (g & Hg & Hin).
  rewrite (mapM_raise _ groups g ValueError); [reflexivity | | exact Hin |].
  - intros y e. destruct (index MOODS (fst y)) eqn:E; cbn [bind]; [discriminate|].
    intros [= <-]. eapply index_raise_inv. exact E.
  - rewrite Hg, (PyStrFacts.index_raises MOODS m Hbad). reflexivity.
Qed.

Lemma sorted_by_mood_ok (groups : list (str * Z)) :
  (forall m, In m (map fst groups) -> mem m MOODS = true) ->
  exists sorted, sorted_by_mood groups = Ok sorted.
Proof.
  intros Hall. unfold sorted_by_mood.
  destruct (mapM_total (fun r => (k <- index MOODS (fst r) ;; Ok (k, r))%py) groups)
    as [keyed Hk].
  - intros g Hg.
    destruct (PyStrFacts.index_found MOODS (fst g)) as [i Hi].
    + apply Hall. apply in_map. exact Hg.
    + rewrite Hi. eexists. reflexivity.
  - rewrite Hk. eexists. reflexivity.
Qed.

Lemma sorted_by_mood_sorted (groups sorted : list (str * Z)) :
  sorted_by_mood groups = Ok sorted ->
  Permutation groups sorted
  /\ Sorted (fun a b => exists i j, index MOODS (fst a) = Ok i
                                    /\ index MOODS (fst b) = Ok j /\ i <= j)
            sorted.
Proof.
  unfold sorted_by_mood.
  destruct (mapM (fun r => (k <- index MOODS (fst r) ;; Ok (k, r))%py) groups)
    as [keyed|] eqn:Hk; [|discriminate].
  cbn [bind]. intros [= <-].
  apply mapM_Forall2 in Hk.
  assert (Hsnd : map snd keyed = groups
                 /\ Forall (fun kr => index MOODS (fst (snd kr)) = Ok (fst kr)) keyed).
  { induction Hk as [|r kr groups keyed Hr _ [IH1 IH2]]; [split; constructor|].
    destruct (index MOODS (fst r)) as [i|] eqn:Ei; [|discriminate].
    cbn [bind] in Hr. injection Hr as <-. cbn [map snd]. rewrite IH1.
    split; [reflexivity|]. constructor; [exact Ei | exact IH2]. }
  destruct Hsnd as [Hsnd Hkeys]. split.
  - rewrite <- Hsnd. apply Permutation_map, sort_by_perm.
  - assert (Hsorted : Sorted (fun a b => (fst a <=? fst b) = true)
                             (sort_by (fun a b => fst a <=? fst b) keyed)).
    { apply sort_by_sorted. intros a b Hab. apply Z.leb_gt in Hab.
      apply Z.leb_le. lia. }
    assert (Hall : Forall (fun kr => index MOODS (fst (snd kr)) = Ok (fst kr))
                          (sort_by (fun a b => fst a <=? fst b) keyed)).
    { rewrite Forall_forall in *. intros x Hx. apply Hkeys.
      apply sort_by_In in Hx. exact Hx. }
    induction Hsorted as [|a l Hs IH Ha]; cbn [map]; [constructor|].
    inversion Hall as [|? ? Hia Hl]; subst.
    constructor; [apply IH; exact Hl|].
    destruct Ha as [|b l Hab]; cbn [map]; constructor.
    inversion Hl as [|? ? Hib _]; subst.
    exists (fst a), (fst b). split; [exact Hia|]. split; [exact Hib|].
    apply Z.leb_le. exact Hab.
Qed.

Lemma mood_lines_accepted (groups sorted : list (str * Z)) (total : Z) :
  (forall m, In m (map fst groups) -> mem m MOODS = true) ->
  sorted_by_mood groups = Ok sorted ->
  forallb (fun row => accepted (print (MoodLine (fst row) (snd row) total)))
          sorted = true.
Proof.
  intros Hall Hsorted. apply forallb_forall. intros x Hx.
  apply accepted_utf8. cbn [stdout_strings strings_of forallb].
  rewrite moods_encodable; [reflexivity|]. apply Hall.
  destruct (sorted_by_mood_sorted _ _ Hsorted) as [Hperm _].
  apply in_map. eapply Permutation_in; [apply Permutation_sym, Hperm | exact Hx].
Qed.

(** C10.  [cmd_mood_trend] runs through only when every mood it counts is
    one of great, good, ok, rough.  If an entry of the window (date not
    before today minus the days) has another mood, the command prints the
    heading and then ends with the uncaught [ValueError] of
    [MOODS.index]: the row is neither reported nor skipped.  If the
    command ends normally, the window exists and all its moods are in the
    enumeration; and when they all are, it does end normally.  An entry
    dated with the ISO string of a day is in the window when that day is
    not before today minus the days. *)
Theorem mood_trend_needs_known_moods (today : Date.date) (args_days : Z)
    (file : Db) :
  let days := if args_days =? 0 then 30 else args_days in
  let o := cmd_mood_trend today args_days file in
  let in_window since r :=
    In r (stored file) /\ leb (Date.isoformat since) (col_date r) = true in
  (forall since r,
      Date.sub_days today days = Ok since ->
      in_window since r -> mem (col_mood r) MOODS = false ->
      result o = Raise ValueError /\ out o = [print (MoodDistribution days)])
  /\ (result o = Ok tt ->
      exists since,
        Date.sub_days today days = Ok since
        /\ forall r, in_window since r -> mem (col_mood r) MOODS = true)
  /\ (forall since,
        Date.sub_days today days = Ok since ->
        (forall r, in_window since r -> mem (col_mood r) MOODS = true) ->
        result o = Ok tt)
  /\ (forall since r d,
        Date.sub_days today days = Ok since ->
        Date.valid d = true -> col_date r = Date.isoformat d ->
        leb (Date.isoformat since) (col_date r) = (today - days <=? d)).
Proof.
  intros days o in_window.
  assert (Hbad : forall since r,
      Date.sub_days today days = Ok since ->
      in_window since r -> mem (col_mood r) MOODS = false ->
      result o = Raise ValueError /\ out o = [print (MoodDistribution days)]).
  { intros since r Hsince [Hr Hw] Hmood.
    subst o. unfold cmd_mood_trend. fold days. rewrite Hsince. cmd_eval.
    destruct (select_mood_counts_groups file since) as (groups & -> & Hgroups).
    cmd_eval.
    assert (Hin : In (col_mood r) (map fst groups))
      by (apply Hgroups; exists r; tauto).
    destruct groups as [|g groups]; [contradiction|]. cbn [is_empty].
    cmd_eval. rewrite (sorted_by_mood_raises _ _ Hin Hmood). cmd_eval.
    split; reflexivity. }
  split; [exact Hbad|]. split; [|split].
  - intros Hok.
    destruct (Date.sub_days today days) as [since|e] eqn:Hsince.
    + exists since. split; [reflexivity|]. intros r Hr.
      destruct (mem (col_mood r) MOODS) eqn:Hmood; [reflexivity|].
      destruct (Hbad since r eq_refl Hr Hmood) as [Hres _].
      rewrite Hres in Hok. discriminate.
    + exfalso. subst o. unfold cmd_mood_trend in Hok. fold days in Hok.
      rewrite Hsince in Hok. discriminate.
  - intros since Hsince Hall.
    subst o. unfold cmd_mood_trend. fold days. rewrite Hsince. cmd_eval.
    destruct (select_mood_counts_groups file since) as (groups & -> & Hgroups).
    cmd_eval.
    destruct groups as [|g groups]; [reflexivity|]. cbn [is_empty]. cmd_eval.
    assert (Hknown : forall m, In m (map fst (g :: groups)) ->
                               mem m MOODS = true).
    { intros m Hm. apply Hgroups in Hm. destruct Hm as (r & Hr & Hw & <-).
      apply Hall. split; assumption. }
    destruct (sorted_by_mood_ok (g :: groups) Hknown) as [sorted Hsorted].
    rewrite Hsorted. cmd_eval.
    rewrite for_each_emit by (eapply mood_lines_accepted; eassumption).
    reflexivity.
  - intros since r d Hsince Hd Hr.
    apply DateFacts.sub_days_valid in Hsince. destruct Hsince as [Hvs ->].
    rewrite Hr. apply DateFacts.isoformat_leb; assumption.
Qed.

(** *** Weekly summary *)

(** C3, as the code has it.  The weekly summary reads the entries whose
    date string is not before the Monday of the current week (today minus
    [today.weekday()] days); there is no upper bound at today, and for an
    entry dated with the ISO string of a day it means a day from that
    Monday on.  It takes
    them in ascending date order, reports their number and the sum of
    their focus hours, and lists their accomplishments, concatenated in
    that order: all of them when the console accepts them all, otherwise
    those before the first one that it refuses, and the command ends with
    [UnicodeEncodeError]. *)
Theorem weekly_summary_since_monday (today : Date.date) (file : Db) :
  Date.valid today = true ->
  let start := today - Date.weekday today in
  let since_start r := leb (Date.isoformat start) (col_date r) in
  let rows := sort_by date_asc (filter since_start (stored file)) in
  let o := cmd_weekly today file in
  let header :=
    [print (WeeklySummary start today);
     print (WeeklyEntries (Z.of_nat (List.length rows)));
     print (WeeklyFocus (fold_left float_add (map col_focus_hours rows) float_zero))] in
  Date.weekday start = 0 /\ 0 <= today - start <= 6
  /\ Permutation rows (filter since_start (stored file))
  /\ ((forall r, In r (stored file) ->
          leb (col_date r) (Date.isoformat today) = true) ->
      filter since_start (stored file)
      = filter (fun r => since_start r
                         && leb (col_date r) (Date.isoformat today))
               (stored file))
  /\ (forall r d, Date.valid d = true -> col_date r = Date.isoformat d ->
        since_start r = (start <=? d))
  /\ oldest_first rows
  /\ match mapM (fun r => Json.json_loads (col_accomplishments r)) rows with
     | Ok lists =>
         let all_accoms := List.concat lists in
         result o = (if forallb stdout_accepts all_accoms then Ok tt
                     else Raise UnicodeEncodeError)
         /\ out o = header
                    ++ match all_accoms with
                       | [] => []
                       | _ :: _ =>
                           print AccomplishmentsThisWeek
                           :: map (fun a => print (Accomplishment a))
                                  (take_while stdout_accepts all_accoms)
                       end
     | Raise e => result o = Raise e /\ out o = header
     end.
Proof.
  intros Hvalid start since_start rows o header.
  destruct (DateFacts.start_of_week today Hvalid) as (Hsub & Hvs & Hmon & Hspan).
  fold start in Hsub, Hmon, Hspan.
  split; [exact Hmon|]. split; [exact Hspan|].
  split; [symmetry; apply sort_by_perm|].
  split.
  { intros Hpast. apply filter_ext_in. intros r Hr.
    rewrite (Hpast r Hr), andb_true_r. reflexivity. }
  split.
  { intros r d Hd Hr. subst since_start. cbv beta. rewrite Hr.
    apply DateFacts.isoformat_leb; assumption. }
  split; [apply (sort_by_sorted date_asc date_asc_total)|].
  subst o. unfold cmd_weekly. rewrite Hsub. cmd_eval.
  unfold select_since.
  rewrite (bind_text_ok _ (DateFacts.isoformat_encodable start)). cbn [bind].
  rewrite table_entries_get_db. cbn [bind]. cmd_eval.
  fold since_start. fold rows. unfold sum_focus_hours.
  destruct (mapM (fun r => Json.json_loads (col_accomplishments r)) rows)
    as [lists|e]; cbn [bind]; cmd_eval.
  - destruct (List.concat lists) as [|a accoms]; cbn [is_empty].
    + split; reflexivity.
    + rewrite (for_each_emit_prefix (a :: accoms)
                 (fun a => print (Accomplishment a)) stdout_accepts)
        by (intros x; apply andb_true_r).
      cmd_eval. split; reflexivity.
  - split; reflexivity.
Qed.

End Claims.

(* ********************************************************************* *)
(** * More of the program *)
(* ********************************************************************* *)

(* ===================================================================== *)
(** ** JSON on every Python string *)
(* ===================================================================== *)

Module JsonPairs.
Import PyStr Json JsonFacts Cli.

#[local] Arguments Z.add : simpl nomatch.
#[local] Arguments Z.sub : simpl nomatch.
#[local] Arguments Z.eqb : simpl nomatch.
#[local] Arguments Z.leb : simpl nomatch.
#[local] Arguments Z.ltb : simpl nomatch.
#[local] Arguments Z.land : simpl nomatch.
#[local] Arguments Z.shiftr : simpl nomatch.

Lemma escape_char_surrogate (c : Z) :
  is_surrogate c = true -> escape_char c = u_escape c.
Proof.
  unfold is_surrogate. intros H. bool_to_Z.
  unfold escape_char. decide_cmp. reflexivity.
Qed.

Lemma high_is_surrogate (c : Z) :
  is_high_surrogate c = true -> is_surrogate c = true.
Proof.
  unfold is_high_surrogate, is_surrogate. intros H. bool_to_Z.
  apply range_bool. lia.
Qed.

Lemma low_is_surrogate (c : Z) :
  is_low_surrogate c = true -> is_surrogate c = true.
Proof.
  unfold is_low_surrogate, is_surrogate. intros H. bool_to_Z.
  apply range_bool. lia.
Qed.

(** The escapes of a high and of a low surrogate, one after the other, are
    read as one code point. *)
Lemma scanstring_escape_pair (hi lo : Z) (rest : str) :
  is_high_surrogate hi = true -> is_low_surrogate lo = true ->
  scanstring (escape_char hi ++ escape_char lo ++ rest)
  = push (join_surrogates hi lo) (scanstring rest).
Proof.
  intros Hhi Hlo.
  rewrite (escape_char_surrogate hi (high_is_surrogate hi Hhi)).
  rewrite (escape_char_surrogate lo (low_is_surrogate lo Hlo)).
  unfold u_escape, hex4. cbn [app].
  pose proof Hhi as Hh. pose proof Hlo as Hl.
  unfold is_high_surrogate in Hh. unfold is_low_surrogate in Hl. bool_to_Z.
  apply scan_u_pair;
    [apply decode_hex4; lia | exact Hhi | apply decode_hex4; lia | exact Hlo].
Qed.

Lemma join_pairs_two (c c2 : Z) (t : str) :
  join_pairs (c :: c2 :: t)
  = if is_high_surrogate c && is_low_surrogate c2
    then join_surrogates c c2 :: join_pairs t
    else c :: join_pairs (c2 :: t).
Proof. reflexivity. Qed.

(** The body of an encoded string is read back with its surrogate pairs
    joined, whatever the string. *)
Lemma scanstring_encoded_str (n : nat) :
  forall (s rest : str),
    (List.length s <= n)%nat ->
    is_str s = true ->
    scanstring (flat_map escape_char s ++ 34 :: rest)
    = Some (join_pairs s, rest).
Proof.
  induction n as [|n IH]; intros s rest Hlen Hs.
  - destruct s; [reflexivity | cbn in Hlen; lia].
  - destruct s as [|c t]; [reflexivity|].
    cbn [is_str forallb] in Hs. apply andb_true_iff in Hs.
    destruct Hs as [Hc Ht]. cbn [List.length] in Hlen.
    destruct t as [|c2 t2].
    + cbn [flat_map app]. rewrite app_nil_r.
      rewrite scanstring_escape_char;
        [reflexivity | exact Hc | right; apply plain_ahead_quote].
    + rewrite join_pairs_two.
      pose proof Ht as Ht'. cbn [forallb] in Ht'.
      apply andb_true_iff in Ht'. destruct Ht' as [Hc2 Ht2].
      cbn [List.length] in Hlen.
      destruct (is_high_surrogate c && is_low_surrogate c2) eqn:Epair.
      * apply andb_true_iff in Epair. destruct Epair as [Ehi Elo].
        cbn [flat_map]. rewrite <- !app_assoc.
        rewrite scanstring_escape_pair by assumption.
        rewrite (IH t2 rest) by (try exact Ht2; lia). reflexivity.
      * cbn [flat_map]. rewrite <- app_assoc.
        rewrite scanstring_escape_char.
        -- change (escape_char c2 ++ flat_map escape_char t2)
             with (flat_map escape_char (c2 :: t2)).
           rewrite (IH (c2 :: t2) rest) by (try exact Ht; cbn [List.length]; lia).
           reflexivity.
        -- exact Hc.
        -- apply andb_false_iff in Epair. destruct Epair as [E|E];
             [left; exact E | right].
           rewrite <- app_assoc. apply plain_ahead_escape_char; assumption.
Qed.

Lemma array_items_encoded_str (l : list str) :
  forall (x : str) (rest : str) (fuel : nat),
    Forall (fun s => is_str s = true) (x :: l) ->
    (List.length (x :: l) <= fuel)%nat ->
    array_items fuel
      (join_items (map encode_basestring_ascii (x :: l)) ++ 93 :: rest)
    = Some (map join_pairs (x :: l), rest).
Proof.
  induction l as [|y l IH]; intros x rest fuel Hstr Hfuel;
    (destruct fuel as [|fuel]; [simpl in Hfuel; lia|]);
    inversion Hstr as [|? ? Hx Hl]; subst;
    rewrite encoded_items_head.
  - apply array_items_last.
    apply (scanstring_encoded_str (List.length x)); [lia | exact Hx].
  - specialize (IH y rest fuel Hl).
    rewrite encoded_items_head in IH |- *.
    erewrite array_items_more
      by (apply (scanstring_encoded_str (List.length x)); [lia | exact Hx]).
    rewrite IH; [reflexivity|].
    simpl in Hfuel |- *. lia.
Qed.

(** [json.loads(json.dumps(l))] never fails on strings: it gives the same
    number of strings, each with its surrogate pairs joined. *)
Lemma loads_dumps_str (l : list str) :
  Forall (fun s => is_str s = true) l ->
  json_loads (json_dumps l) = Ok (map join_pairs l).
Proof.
  intros Hstr. unfold json_loads, json_dumps.
  change (skip_ws (91 :: ?t)) with (91 :: t).
  change (91 =? 91) with true. cbv iota.
  destruct l as [|x l]; [reflexivity|].
  unfold JSONArray.
  assert (Hhead : exists t,
    join_items (map encode_basestring_ascii (x :: l)) ++ [93] = 34 :: t).
  { rewrite encoded_items_head. eexists; reflexivity. }
  destruct Hhead as [t Ht].
  assert (Hskip : skip_ws (34 :: t) = 34 :: t) by reflexivity.
  rewrite Ht, Hskip. change (34 =? 93) with false. cbv iota.
  rewrite <- Ht.
  rewrite array_items_encoded_str; [reflexivity | exact Hstr |].
  rewrite length_app. pose proof (join_items_length (x :: l)). lia.
Qed.

(** Where no surrogate pair stands, nothing is joined. *)
Lemma join_pairs_safe (s : str) : json_safe s = true -> join_pairs s = s.
Proof.
  induction s as [|c t IH]; [reflexivity|].
  cbn [json_safe]. intros H.
  apply andb_true_iff in H. destruct H as [H Hrec].
  apply andb_true_iff in H. destruct H as [_ Hpair].
  destruct t as [|c2 t2]; [reflexivity|].
  rewrite join_pairs_two. apply negb_true_iff in Hpair. rewrite Hpair.
  rewrite (IH Hrec). reflexivity.
Qed.

Lemma scalar_is_codepoint (c : Z) : is_scalar c = true -> is_codepoint c = true.
Proof. unfold is_scalar. intros H. apply andb_true_iff in H. tauto. Qed.

Lemma encodable_is_str (s : str) : utf8_encodable s = true -> is_str s = true.
Proof.
  unfold utf8_encodable, is_str. rewrite !forallb_forall.
  intros H c Hc. apply scalar_is_codepoint, H, Hc.
Qed.

End JsonPairs.

(* ===================================================================== *)
(** ** Further properties of the store and the commands *)
(* ===================================================================== *)

Import Cli.

Section Extras.
Context {P : Platform}.

Ltac run_eval :=
  cbn [finish result out disk cmd_bind emit accepted stdout_strings strings_of
       forallb raise lift ret printed returned app for_each is_empty bind].

(** *** Reading back a written row *)

Lemma row_to_entry_written_str
    (eid : Z) (now date_str title body : str) (tags : list str) (mood : str)
    (focus_hours : float) (accomplishments blockers tomorrow : list str) :
  Forall (fun s => is_str s = true) tags ->
  Forall (fun s => is_str s = true) accomplishments ->
  Forall (fun s => is_str s = true) blockers ->
  Forall (fun s => is_str s = true) tomorrow ->
  row_to_entry (written_row eid now date_str title body tags mood focus_hours
                            accomplishments blockers tomorrow)
  = Ok (mkEntry eid date_str title body (map join_pairs tags) mood focus_hours
                (map join_pairs accomplishments) (map join_pairs blockers)
                (map join_pairs tomorrow) now).
Proof.
  intros Ht Ha Hb Hm. unfold row_to_entry, written_row.
  cbn [col_id col_date col_title col_body col_tags_json col_mood
       col_focus_hours col_accomplishments col_blockers col_tomorrow
       col_created_at].
  rewrite !JsonPairs.loads_dumps_str by assumption. reflexivity.
Qed.

(** X1.  A row that [insert_entry] wrote is always decoded by
    [row_to_entry], whatever Python strings the four lists hold: no
    [JSONDecodeError], the same number of strings in the same order, each
    string with its surrogate pairs joined; a string that can be encoded
    as UTF-8 comes back unchanged. *)
Theorem written_row_is_decoded
    (eid : Z) (now date_str title body : str) (tags : list str) (mood : str)
    (focus_hours : float) (accomplishments blockers tomorrow : list str) :
  Forall (fun s => is_str s = true) tags ->
  Forall (fun s => is_str s = true) accomplishments ->
  Forall (fun s => is_str s = true) blockers ->
  Forall (fun s => is_str s = true) tomorrow ->
  row_to_entry (written_row eid now date_str title body tags mood focus_hours
                            accomplishments blockers tomorrow)
  = Ok (mkEntry eid date_str title body (map join_pairs tags) mood focus_hours
                (map join_pairs accomplishments) (map join_pairs blockers)
                (map join_pairs tomorrow) now)
  /\ (forall s, utf8_encodable s = true -> join_pairs s = s).
Proof.
  intros Ht Ha Hb Hm. split.
  - apply row_to_entry_written_str; assumption.
  - intros s Hs. apply JsonPairs.join_pairs_safe, JsonFacts.encodable_safe, Hs.
Qed.

(** *** The outcomes of insert_entry *)


(** *** Entry ids *)

Lemma max_rowid_le (rows : list Row) (n : Z) :
  0 <= n -> (forall r, In r rows -> col_id r <= n) -> max_rowid rows <= n.
Proof.
  intros Hn. induction rows as [|x rows IH]; intros H;
    cbn [max_rowid fold_right]; [exact Hn|].
  fold (max_rowid rows).
  pose proof (H x (or_introl eq_refl)).
  assert (max_rowid rows <= n) by (apply IH; intros r Hr; apply H; right; exact Hr).
  lia.
Qed.

Lemma seq_ids_bound (n : nat) (k : Z) :
  In k (map Z.of_nat (seq 1 n)) -> 1 <= k <= Z.of_nat n.
Proof.
  rewrite in_map_iff. intros (i & <- & Hi). apply in_seq in Hi. lia.
Qed.

(** X3.  In every database the program can produce the entries carry the
    ids 1, 2, 3, ... in the order of their insertion, the AUTOINCREMENT
    counter is their number, and the next insert takes the next number:
    ids are never reused and never skipped. *)
Theorem ids_count_up (file : Db) :
  reachable file ->
  let n := List.length (stored file) in
  map col_id (stored file) = map Z.of_nat (seq 1 n)
  /\ sqlite_sequence file = Z.of_nat n
  /\ next_rowid file = Z.of_nat n + 1.
Proof.
  intros Hreach. cbv zeta.
  assert (Hinv : map col_id (stored file)
                 = map Z.of_nat (seq 1 (List.length (stored file)))
                 /\ sqlite_sequence file = Z.of_nat (List.length (stored file))).
  { induction Hreach
      as [|file _ IH|file now ds t b tg m h a bl tm db eid Hr IH Hins].
    - split; reflexivity.
    - rewrite get_db_shape. cbn [committed].
      rewrite stored_schema, schema_shape. exact IH.
    - apply insert_entry_inv in Hins. destruct Hins as [Heid ->].
      cbn [committed]. rewrite with_entry_stored.
      destruct IH as [Hids Hseq].
      assert (Hnext : next_rowid file = Z.of_nat (List.length (stored file)) + 1).
      { unfold next_rowid. rewrite Hseq.
        pose proof (max_rowid_nonneg (stored file)).
        assert (max_rowid (stored file) <= Z.of_nat (List.length (stored file))).
        { apply max_rowid_le; [lia|]. intros r Hr'.
          apply (in_map col_id) in Hr'. rewrite Hids in Hr'.
          apply seq_ids_bound in Hr'. lia. }
        lia. }
      rewrite length_app. cbn [List.length].
      replace (List.length (stored file) + 1)%nat
        with (S (List.length (stored file))) by lia.
      rewrite seq_S, !map_app, Hids. cbn [map with_entry sqlite_sequence col_id
                                          written_row].
      rewrite Heid, Hnext. split; [f_equal; f_equal; lia | lia]. }
  destruct Hinv as [Hids Hseq]. split; [exact Hids|]. split; [exact Hseq|].
  unfold next_rowid. rewrite Hseq.
  assert (max_rowid (stored file) <= Z.of_nat (List.length (stored file))).
  { apply max_rowid_le; [lia|]. intros r Hr'.
    apply (in_map col_id) in Hr'. rewrite Hids in Hr'.
    apply seq_ids_bound in Hr'. lia. }
  pose proof (max_rowid_nonneg (stored file)). lia.
Qed.

(** *** Show *)

Lemma find_none_id (rows : list Row) (k : Z) :
  (forall r, In r rows -> col_id r <> k) ->
  find (fun r => col_id r =? k) rows = None.
Proof.
  induction rows as [|x rows IH]; intros H; [reflexivity|].
  cbn [find].
  replace (col_id x =? k) with false
    by (symmetry; apply Z.eqb_neq; apply H; left; reflexivity).
  apply IH. intros r Hr. apply H. right. exact Hr.
Qed.

(** X4.  Showing an id that no entry has is a normal outcome: the command
    says that the entry is not found and ends without an exception, and the
    entries are untouched.  An id that does not fit 64 bits never reaches
    the query: the command ends with [OverflowError]. *)
Theorem cmd_show_unknown_id (args_id : Z) (file : Db) :
  (forall r, In r (stored file) -> col_id r <> args_id) ->
  (- MAX_ROWID - 1 <= args_id <= MAX_ROWID ->
   result (cmd_show args_id file) = Ok tt
   /\ out (cmd_show args_id file) = [err (EntryNotFound args_id)])
  /\ (~ (- MAX_ROWID - 1 <= args_id <= MAX_ROWID) ->
      result (cmd_show args_id file) = Raise OverflowError
      /\ out (cmd_show args_id file) = [])
  /\ stored (disk (cmd_show args_id file)) = stored file.
Proof.
  intros Hnone. unfold cmd_show, select_by_id, bind_int.
  split; [|split].
  - intros Hrange.
    replace ((- MAX_ROWID - 1 <=? args_id) && (args_id <=? MAX_ROWID)) with true
      by (symmetry; apply andb_true_iff; split; apply Z.leb_le; lia).
    cbn [bind]. rewrite table_entries_get_db. cbn [bind].
    rewrite (find_none_id _ _ Hnone). run_eval. split; reflexivity.
  - intros Hrange.
    replace ((- MAX_ROWID - 1 <=? args_id) && (args_id <=? MAX_ROWID)) with false.
    + run_eval. split; reflexivity.
    + symmetry. apply andb_false_iff.
      destruct (Z.leb_spec (- MAX_ROWID - 1) args_id); [right | left; reflexivity].
      apply Z.leb_gt. lia.
  - cbn [finish disk]. rewrite get_db_shape. cbn [committed].
    apply stored_schema.
Qed.

(** *** Splitting and stripping *)

Lemma lstrip_suffix (p : Z -> bool) (s : str) :
  exists pre, s = pre ++ lstrip p s.
Proof.
  induction s as [|c s IH]; [exists []; reflexivity|].
  cbn [lstrip]. destruct (p c).
  - destruct IH as [pre Hpre]. exists (c :: pre). cbn [app]. f_equal. exact Hpre.
  - exists []. reflexivity.
Qed.

Lemma lstrip_In (p : Z -> bool) (s : str) (x : Z) :
  In x (lstrip p s) -> In x s.
Proof.
  destruct (lstrip_suffix p s) as [pre Hpre]. intros H.
  rewrite Hpre. apply in_or_app. right. exact H.
Qed.

Lemma lstrip_head (p : Z -> bool) (s : str) (c : Z) (rest : str) :
  lstrip p s = c :: rest -> p c = false.
Proof.
  induction s as [|x s IH]; cbn [lstrip]; [discriminate|].
  destruct (p x) eqn:E; [exact IH|]. intros [= <- _]. exact E.
Qed.

Lemma strip_In (s : str) (x : Z) : In x (strip s) -> In x s.
Proof.
  unfold strip. intros H. apply in_rev in H.
  apply lstrip_In in H. apply in_rev in H. apply lstrip_In in H. exact H.
Qed.

Lemma strip_last (s pre : str) (c : Z) :
  strip s = pre ++ [c] -> isspace c = false.
Proof.
  unfold strip. intros H. apply (f_equal (@rev Z)) in H.
  rewrite rev_involutive, rev_app_distr in H. cbn [rev app] in H.
  eapply lstrip_head. exact H.
Qed.

Lemma last_of_suffix (pre t pre' : str) (c : Z) (s : str) :
  s = pre ++ t -> t = pre' ++ [c] -> s = (pre ++ pre') ++ [c].
Proof. intros -> ->. rewrite app_assoc. reflexivity. Qed.

Lemma split_nonempty (sep : Z) (s : str) : split sep s <> [].
Proof.
  destruct s as [|c s]; cbn [split]; [discriminate|].
  destruct (c =? sep); [discriminate|].
  destruct (split sep s); discriminate.
Qed.

Lemma split_length (sep : Z) (s : str) :
  List.length (split sep s) = S (count_occ Z.eq_dec s sep).
Proof.
  induction s as [|c s IH]; [reflexivity|].
  cbn [split count_occ].
  destruct (Z.eqb_spec c sep) as [->|Hne].
  - destruct (Z.eq_dec sep sep) as [_|N]; [|congruence].
    cbn [List.length]. rewrite IH. reflexivity.
  - destruct (Z.eq_dec c sep) as [E|_]; [congruence|].
    destruct (split sep s) as [|w ws]; [discriminate|]. exact IH.
Qed.

Lemma split_no_sep (sep : Z) (s : str) :
  Forall (fun w => ~ In sep w) (split sep s).
Proof.
  induction s as [|c s IH]; [repeat constructor; intros []|].
  cbn [split]. destruct (Z.eqb_spec c sep) as [->|Hne].
  - constructor; [intros []|exact IH].
  - destruct (split sep s) as [|w ws]; [repeat constructor; intros [H|[]]; congruence|].
    inversion IH as [|? ? Hw Hws]; subst.
    constructor; [|exact Hws]. intros [H|H]; [congruence | exact (Hw H)].
Qed.

(** Joining the pieces gives the string back. *)
Lemma join_split (sep : Z) (s : str) : join sep (split sep s) = s.
Proof.
  induction s as [|c s IH]; [reflexivity|].
  cbn [split]. destruct (Z.eqb_spec c sep) as [->|Hne].
  - pose proof (split_nonempty sep s).
    destruct (split sep s) as [|w ws]; [congruence|].
    cbn [join app] in *. f_equal. exact IH.
  - pose proof (split_nonempty sep s).
    destruct (split sep s) as [|w ws]; [congruence|].
    destruct ws as [|w' ws]; cbn [join app] in *; f_equal; exact IH.
Qed.

Lemma split_In (sep : Z) (s w : str) (x : Z) :
  In w (split sep s) -> In x w -> In x s.
Proof.
  revert w. induction s as [|c s IH]; intros w.
  - cbn [split In]. intros [<-|[]] [].
  - cbn [split]. destruct (c =? sep).
    + intros [<-|Hw] Hx; [destruct Hx|]. right. eapply IH; eassumption.
    + destruct (split sep s) as [|w0 ws].
      * intros [<-|[]] [->|[]]. left. reflexivity.
      * intros [<-|Hw] Hx.
        -- destruct Hx as [->|Hx]; [left; reflexivity|].
           right. apply (IH w0); [left; reflexivity | exact Hx].
        -- right. apply (IH w); [right; exact Hw | exact Hx].
Qed.

(** X5.  What [cmd_add] makes of [--tags]: no tags for an empty argument,
    otherwise one tag for each comma and one more, empty pieces included;
    no tag holds a comma, none starts with [#], none ends with white space
    (one may start with white space, after a stripped [#]); and the pieces
    before cleaning, joined by commas, are the argument. *)
Theorem tags_of_shape (args_tags : str) :
  (args_tags = [] -> tags_of args_tags = [])
  /\ (args_tags <> [] ->
      List.length (tags_of args_tags) = S (count_occ Z.eq_dec args_tags 44))
  /\ Forall (fun t => ~ In 44 t
                      /\ (forall rest, t <> 35 :: rest)
                      /\ (forall pre c, t = pre ++ [c] -> isspace c = false))
            (tags_of args_tags)
  /\ join 44 (split 44 args_tags) = args_tags.
Proof.
  split; [intros ->; reflexivity|]. split; [|split].
  - intros Hne. unfold tags_of.
    destruct args_tags as [|c s]; [congruence|]. cbn [is_empty].
    rewrite length_map. apply split_length.
  - unfold tags_of. destruct (is_empty args_tags); [constructor|].
    apply Forall_map. eapply Forall_impl; [|apply (split_no_sep 44 args_tags)].
    intros w Hw. cbv beta. split; [|split].
    + intros H. apply lstrip_In, strip_In in H. exact (Hw H).
    + intros rest H. apply lstrip_head in H. discriminate.
    + intros pre c H.
      destruct (lstrip_suffix (Z.eqb 35) (strip w)) as [pre0 Hpre0].
      eapply strip_last. eapply last_of_suffix; eassumption.
  - apply join_split.
Qed.

(** *** Adding, then showing *)

Lemma or_default_some (s : str) : or_default (Some s) [] = s.
Proof. destruct s; reflexivity. Qed.

Lemma is_str_Forall (s : str) :
  is_str s = true <-> Forall (fun c => is_codepoint c = true) s.
Proof. unfold is_str. rewrite forallb_forall, Forall_forall. tauto. Qed.

Lemma is_str_sub (s t : str) :
  (forall x, In x t -> In x s) -> is_str s = true -> is_str t = true.
Proof.
  unfold is_str. rewrite !forallb_forall. intros Hsub H x Hx. apply H, Hsub, Hx.
Qed.

Lemma tags_of_str (s : str) :
  is_str s = true -> Forall (fun t => is_str t = true) (tags_of s).
Proof.
  intros Hs. unfold tags_of. destruct (is_empty s); [constructor|].
  apply Forall_map. apply Forall_forall. intros w Hw.
  apply (is_str_sub s); [|exact Hs].
  intros x Hx. apply lstrip_In, strip_In in Hx. eapply split_In; eassumption.
Qed.

Lemma pipe_list_str (s : str) :
  is_str s = true -> Forall (fun t => is_str t = true) (pipe_list s).
Proof.
  intros Hs. unfold pipe_list. destruct (is_empty s); [constructor|].
  apply Forall_map. apply Forall_forall. intros w Hw.
  apply (is_str_sub s); [|exact Hs].
  intros x Hx. apply strip_In in Hx. eapply split_In; eassumption.
Qed.

Lemma cmd_add_ok (today : Date.date) (now : str) (args : AddArgs) (file : Db) :
  mem (args_mood args) MOODS = true ->
  utf8_encodable (args_title args) = true ->
  utf8_encodable (args_body args) = true ->
  utf8_encodable now = true ->
  float_isnan (args_hours args) = false ->
  next_rowid file <= MAX_ROWID ->
  cmd_add today now args file
  = mkOutcome (with_entry file (added_row today now args file))
              [ok (EntryAdded (next_rowid file) (Date.isoformat today))]
              (Ok tt).
Proof.
  intros Hmood Ht Hb Hn Hnan Hroom. unfold cmd_add. rewrite Hmood. cbn [negb].
  rewrite or_default_some.
  fold (tags_of (args_tags args)).
  fold (pipe_list (args_accomplishments args)).
  fold (pipe_list (args_blockers args)). fold (pipe_list (args_tomorrow args)).
  rewrite insert_entry_ok; try assumption.
  - rewrite emit_added. reflexivity.
  - apply DateFacts.isoformat_encodable.
  - apply moods_encodable, Hmood.
Qed.

Lemma select_by_id_last (file : Db) (row : Row) :
  col_id row = next_rowid file -> next_rowid file <= MAX_ROWID ->
  select_by_id (get_db (with_entry file row)) (col_id row) = Ok (Some row).
Proof.
  intros Hid Hroom. unfold select_by_id, bind_int.
  pose proof (next_rowid_positive file) as Hpos.
  replace ((- MAX_ROWID - 1 <=? col_id row) && (col_id row <=? MAX_ROWID))
    with true.
  - cbn [bind]. rewrite table_entries_get_db, with_entry_stored. cbn [bind].
    f_equal. apply find_fresh_last. intros r Hr. rewrite Hid.
    apply next_rowid_fresh. exact Hr.
  - symmetry. apply andb_true_iff. unfold MAX_ROWID in *.
    split; apply Z.leb_le; lia.
Qed.

Lemma tags_of_encodable (s : str) :
  utf8_encodable s = true -> forallb utf8_encodable (tags_of s) = true.
Proof.
  intros Hs. unfold tags_of. destruct (is_empty s); [reflexivity|].
  apply forallb_forall. intros t Ht. apply in_map_iff in Ht.
  destruct Ht as (w & <- & Hw). apply (forallb_incl _ s); [|exact Hs].
  intros x Hx. apply lstrip_In, strip_In in Hx. eapply split_In; eassumption.
Qed.

Lemma pipe_list_encodable (s : str) :
  utf8_encodable s = true -> forallb utf8_encodable (pipe_list s) = true.
Proof.
  intros Hs. unfold pipe_list. destruct (is_empty s); [reflexivity|].
  apply forallb_forall. intros t Ht. apply in_map_iff in Ht.
  destruct Ht as (w & <- & Hw). apply (forallb_incl _ s); [|exact Hs].
  intros x Hx. apply strip_In in Hx. eapply split_In; eassumption.
Qed.

Lemma map_join_pairs_text (l : list str) :
  forallb utf8_encodable l = true -> map join_pairs l = l.
Proof.
  induction l as [|x l IH]; [reflexivity|]. cbn [forallb map]. intros H.
  apply andb_true_iff in H. destruct H as [Hx Hl].
  rewrite (IH Hl), (JsonPairs.join_pairs_safe x (JsonFacts.encodable_safe x Hx)).
  reflexivity.
Qed.

Lemma encodable_are_str (l : list str) :
  forallb utf8_encodable l = true -> Forall (fun s => is_str s = true) l.
Proof.
  rewrite forallb_forall, Forall_forall. intros H x Hx.
  apply JsonPairs.encodable_is_str, H, Hx.
Qed.

(** What [row_to_entry] makes of the row that an [add] with text as its
    arguments has written. *)
Lemma added_row_text (today : Date.date) (now : str) (args : AddArgs)
    (file : Db) :
  mem (args_mood args) MOODS = true -> args_encodable args ->
  let e := mkEntry (next_rowid file) (Date.isoformat today) (args_title args)
                   (args_body args) (tags_of (args_tags args)) (args_mood args)
                   (args_hours args) (pipe_list (args_accomplishments args))
                   (pipe_list (args_blockers args))
                   (pipe_list (args_tomorrow args)) now in
  row_to_entry (added_row today now args file) = Ok e
  /\ entry_encodable e = true.
Proof.
  intros Hmood (Ht & Hb & Htags & _ & Hacc & Hblk & Htmr). cbv zeta.
  pose proof (tags_of_encodable _ Htags) as H1.
  pose proof (pipe_list_encodable _ Hacc) as H2.
  pose proof (pipe_list_encodable _ Hblk) as H3.
  pose proof (pipe_list_encodable _ Htmr) as H4.
  split.
  - unfold added_row.
    rewrite row_to_entry_written_str by (apply encodable_are_str; assumption).
    rewrite !map_join_pairs_text by assumption. reflexivity.
  - unfold entry_encodable.
    cbn [date title body mood tags accomplishments blockers tomorrow app forallb].
    rewrite !forallb_app, H1, H2, H3, H4, Ht, Hb.
    rewrite DateFacts.isoformat_encodable, (moods_encodable _ Hmood).
    reflexivity.
Qed.

(** X6.  An [add] with a known mood, a title and a body that can be
    encoded, hours that are a number and a rowid left stores one entry
    dated today and reports its id.  Showing that id right afterwards
    prints the entry that [row_to_entry] decodes: the title, body, mood and
    hours that were given, the tags cleaned as [cmd_add] cleans them and
    the three pipe-separated lists split and stripped, surrogate pairs
    joined - the calls of [print_entry] for it, up to the first one that
    the console refuses.  When the arguments are text that can be encoded
    as UTF-8, the lists are the cleaned ones unchanged, every line is
    printed and the command ends normally. *)
Theorem cmd_add_then_show
    (today : Date.date) (now : str) (args : AddArgs) (file : Db) :
  mem (args_mood args) MOODS = true ->
  utf8_encodable (args_title args) = true ->
  utf8_encodable (args_body args) = true ->
  utf8_encodable now = true ->
  args_are_str args ->
  float_isnan (args_hours args) = false ->
  next_rowid file <= MAX_ROWID ->
  let o := cmd_add today now args file in
  let eid := next_rowid file in
  let shown :=
    mkEntry eid (Date.isoformat today) (args_title args) (args_body args)
            (map join_pairs (tags_of (args_tags args))) (args_mood args)
            (args_hours args)
            (map join_pairs (pipe_list (args_accomplishments args)))
            (map join_pairs (pipe_list (args_blockers args)))
            (map join_pairs (pipe_list (args_tomorrow args))) now in
  result o = Ok tt
  /\ out o = [ok (EntryAdded eid (Date.isoformat today))]
  /\ stored (disk o) = stored file ++ [added_row today now args file]
  /\ out (cmd_show eid (disk o)) = take_while accepted (entry_lines shown false)
  /\ result (cmd_show eid (disk o))
     = (if forallb accepted (entry_lines shown false) then Ok tt
        else Raise UnicodeEncodeError)
  /\ (args_encodable args ->
      shown = mkEntry eid (Date.isoformat today) (args_title args)
                      (args_body args) (tags_of (args_tags args))
                      (args_mood args) (args_hours args)
                      (pipe_list (args_accomplishments args))
                      (pipe_list (args_blockers args))
                      (pipe_list (args_tomorrow args)) now
      /\ out (cmd_show eid (disk o)) = entry_lines shown false
      /\ result (cmd_show eid (disk o)) = Ok tt).
Proof.
  intros Hmood Ht Hb Hn Hstr Hnan Hroom o eid shown. subst o eid.
  rewrite cmd_add_ok by assumption. cbn [result out disk].
  split; [reflexivity|]. split; [reflexivity|]. split; [reflexivity|].
  assert (Hshow : cmd_show (next_rowid file)
                    (with_entry file (added_row today now args file))
                  = finish (get_db (with_entry file (added_row today now args file)))
                           (for_each (entry_lines shown false) emit)).
  { destruct Hstr as (_ & _ & Htags & _ & Hacc & Hblk & Htmr).
    unfold cmd_show.
    change (next_rowid file) with (col_id (added_row today now args file)) at 1.
    rewrite select_by_id_last by (try reflexivity; exact Hroom).
    rewrite cmd_bind_lift_ok. unfold added_row.
    rewrite row_to_entry_written_str
      by (first [apply tags_of_str | apply pipe_list_str]; assumption).
    rewrite cmd_bind_lift_ok, print_entry_lines. reflexivity. }
  rewrite Hshow. split; [|split].
  - rewrite emit_all. reflexivity.
  - rewrite emit_all. reflexivity.
  - intros Henc.
    destruct (added_row_text today now args file Hmood Henc) as [Hrow Htext].
    cbv zeta in Hrow, Htext.
    assert (Heq : shown = mkEntry (next_rowid file) (Date.isoformat today)
                            (args_title args) (args_body args)
                            (tags_of (args_tags args)) (args_mood args)
                            (args_hours args)
                            (pipe_list (args_accomplishments args))
                            (pipe_list (args_blockers args))
                            (pipe_list (args_tomorrow args)) now).
    { destruct Henc as (_ & _ & Htags & _ & Hacc & Hblk & Htmr). subst shown.
      rewrite !map_join_pairs_text
        by (first [apply tags_of_encodable | apply pipe_list_encodable];
            assumption).
      reflexivity. }
    split; [exact Heq|].
    rewrite emit_all_ok by (rewrite Heq; apply entry_lines_accepted, Htext).
    split; reflexivity.
Qed.

(** *** Journals written through the command line *)

Lemma schema_reachable (file : Db) : reachable file -> reachable (schema file).
Proof. intros H. apply reach_get_db in H. rewrite get_db_shape in H. exact H. Qed.

Lemma cmd_add_disk (today : Date.date) (now : str) (args : AddArgs) (file : Db) :
  disk (cmd_add today now args file) = schema file
  \/ (mem (args_mood args) MOODS = true
      /\ disk (cmd_add today now args file)
         = with_entry file (added_row today now args file)
      /\ (reachable file ->
          reachable (with_entry file (added_row today now args file)))).
Proof.
  unfold cmd_add.
  destruct (mem (args_mood args) MOODS) eqn:Hmood; cbn [negb]; [|left; reflexivity].
  rewrite or_default_some.
  match goal with
  | |- context [insert_entry ?n ?c ?d ?t ?b ?tg ?m ?h ?a ?bl ?tm] =>
      destruct (insert_entry n c d t b tg m h a bl tm) as [[db eid]|e] eqn:Hins
  end; [|left; reflexivity].
  right. pose proof Hins as Hreach.
  apply insert_entry_inv in Hins. destruct Hins as [Heid Hdb]. subst eid db.
  split; [reflexivity|]. split; [reflexivity|].
  intros Hfile. apply (reach_insert _ _ _ _ _ _ _ _ _ _ _ _ _ Hfile Hreach).
Qed.

Lemma written_rows_well_formed (file : Db) :
  written_by_add file ->
  reachable file /\ Forall well_formed_row (stored file).
Proof.
  induction 1 as [|file _ [IHr IHw]|file today now args _ [IHr IHw] Hvalid Hstr].
  - split; constructor.
  - split; [apply reach_get_db, IHr|].
    rewrite get_db_shape. cbn [committed]. rewrite stored_schema. exact IHw.
  - destruct (cmd_add_disk today now args file) as [->|(Hmood & -> & Hreach)].
    + split; [apply schema_reachable, IHr | rewrite stored_schema; exact IHw].
    + split; [apply Hreach, IHr|]. rewrite with_entry_stored.
      apply Forall_app. split; [exact IHw|]. constructor; [|constructor].
      split; [exact Hmood|].
      split; [exists today; split; [exact Hvalid | reflexivity]|].
      destruct Hstr as (_ & _ & Htags & _ & Hacc & Hblk & Htmr).
      eexists. unfold added_row.
      apply row_to_entry_written_str;
        first [apply tags_of_str | apply pipe_list_str]; assumption.
Qed.

(** X7.  A journal that was only ever written by [add] commands (run on
    calendar days, with Python strings as arguments) is a database the
    program can produce, and every entry in it has a mood from [MOODS], a
    date that is the ISO form of a calendar day, and lists that
    [row_to_entry] decodes: whatever a failed [add] leaves behind, it is
    never half an entry. *)
Theorem written_by_add_well_formed (file : Db) :
  written_by_add file ->
  reachable file /\ Forall well_formed_row (stored file).
Proof. exact (written_rows_well_formed file). Qed.

(** *** Rows in the order of their ids *)

Lemma StronglySorted_snoc {A} (R : A -> A -> Prop) (l : list A) (x : A) :
  StronglySorted R l -> (forall y, In y l -> R y x) ->
  StronglySorted R (l ++ [x]).
Proof.
  induction 1 as [|a l Hs IH Ha]; intros Hx; cbn [app].
  - constructor; constructor.
  - constructor.
    + apply IH. intros y Hy. apply Hx. right. exact Hy.
    + apply Forall_app. split; [exact Ha|].
      constructor; [apply Hx; left; reflexivity | constructor].
Qed.

Lemma StronglySorted_filter_keeps {A} (R : A -> A -> Prop) (p : A -> bool)
    (l : list A) :
  StronglySorted R l -> StronglySorted R (filter p l).
Proof.
  induction 1 as [|a l Hs IH Ha]; cbn [filter]; [constructor|].
  destruct (p a); [|exact IH]. constructor; [exact IH|].
  rewrite Forall_forall in *. intros y Hy. apply Ha.
  apply filter_In in Hy. tauto.
Qed.

Lemma StronglySorted_weaken {A} (R R' : A -> A -> Prop) (l : list A) :
  (forall a b, R a b -> R' a b) -> StronglySorted R l -> StronglySorted R' l.
Proof.
  intros Himp. induction 1 as [|a l Hs IH Ha]; constructor; [exact IH|].
  eapply Forall_impl; [|exact Ha]. intros b. apply Himp.
Qed.

Lemma StronglySorted_app_inv {A} (R : A -> A -> Prop) (l1 l2 : list A) :
  StronglySorted R (l1 ++ l2) ->
  forall a b, In a l1 -> In b l2 -> R a b.
Proof.
  induction l1 as [|x l1 IH]; intros Hs a b Ha Hb; [destruct Ha|].
  cbn [app] in Hs. inversion Hs as [|? ? Hs' Hx]; subst.
  destruct Ha as [->|Ha]; [|exact (IH Hs' a b Ha Hb)].
  rewrite Forall_forall in Hx. apply Hx. apply in_or_app. right. exact Hb.
Qed.

Lemma sort_by_sorted_id {A} (le : A -> A -> bool) (l : list A) :
  StronglySorted (fun a b => le a b = true) l -> sort_by le l = l.
Proof.
  unfold sort_by. induction 1 as [|a l Hs IH Ha]; [reflexivity|].
  cbn [fold_right]. rewrite IH.
  destruct l as [|b l]; [reflexivity|]. cbn [insert_by].
  inversion Ha as [|? ? Hab _]; subst. rewrite Hab. reflexivity.
Qed.

Lemma stored_ids_ascending (file : Db) :
  reachable file ->
  StronglySorted (fun a b => col_id a < col_id b) (stored file).
Proof.
  induction 1 as [|file _ IH|file now ds t b tg m h a bl tm db eid _ IH Hins].
  - constructor.
  - rewrite get_db_shape. cbn [committed]. rewrite stored_schema. exact IH.
  - apply insert_entry_inv in Hins. destruct Hins as [Heid ->].
    cbn [committed]. rewrite with_entry_stored.
    apply StronglySorted_snoc; [exact IH|]. intros y Hy.
    change (col_id y < eid). rewrite Heid. apply next_rowid_fresh, Hy.
Qed.

Lemma select_by_date_reachable (file : Db) (day : str) :
  reachable file -> utf8_encodable day = true ->
  select_by_date (get_db file) day
  = Ok (filter (fun r => eqb (col_date r) day) (stored file)).
Proof.
  intros Hreach Hday. unfold select_by_date.
  rewrite (bind_text_ok _ Hday). cbn [bind].
  rewrite table_entries_get_db. cbn [bind]. f_equal.
  apply sort_by_sorted_id.
  apply (StronglySorted_weaken (fun a b => col_id a < col_id b)).
  - intros a b Hab. unfold id_asc. apply Z.leb_le. lia.
  - apply StronglySorted_filter_keeps, stored_ids_ascending, Hreach.
Qed.

Lemma stored_after_read (file : Db) :
  stored (committed (get_db file)) = stored file.
Proof. rewrite get_db_shape. cbn [committed]. apply stored_schema. Qed.

(** X8.  [today] reads the entries dated today, all of them and no other,
    in the order in which they were added, and prints them in full, entry
    by entry, up to the first call that the console refuses (then it ends
    with [UnicodeEncodeError]); when there is none it warns and ends
    normally.  If one of them cannot be decoded the command ends with an
    exception.  The entries are untouched. *)
Theorem cmd_today_lists_the_day (today : Date.date) (file : Db) :
  reachable file ->
  let o := cmd_today today file in
  let rows := filter (fun r => eqb (col_date r) (Date.isoformat today))
                     (stored file) in
  select_by_date (get_db file) (Date.isoformat today) = Ok rows
  /\ stored (disk o) = stored file
  /\ (rows = [] ->
      out o = [warn (NoEntriesForDay (Date.isoformat today))]
      /\ result o = Ok tt)
  /\ (forall es, rows <> [] -> mapM row_to_entry rows = Ok es ->
      let lines := flat_map (fun e => entry_lines e false) es in
      out o = take_while accepted lines
      /\ result o = (if forallb accepted lines then Ok tt
                     else Raise UnicodeEncodeError))
  /\ (forall e, mapM row_to_entry rows = Raise e ->
      exists e', result o = Raise e').
Proof.
  intros Hreach o rows. subst o.
  pose proof (select_by_date_reachable _ _ Hreach
                (DateFacts.isoformat_encodable today)) as Hsel.
  fold rows in Hsel. split; [exact Hsel|].
  unfold cmd_today. rewrite Hsel, cmd_bind_lift_ok.
  split; [apply stored_after_read|]. split; [|split].
  - intros ->. cbn [is_empty]. rewrite emit_utf8; [split; reflexivity|].
    cbn [stdout_strings strings_of forallb].
    rewrite DateFacts.isoformat_encodable. reflexivity.
  - intros es Hne Hes. cbv zeta. destruct rows as [|r rows']; [congruence|].
    cbn [is_empty]. rewrite (print_rows_lines false _ _ Hes), emit_all.
    split; reflexivity.
  - intros e He. destruct rows as [|r rows']; [discriminate|].
    cbn [is_empty]. exact (print_rows_raise false _ _ He).
Qed.

(** *** List *)

Lemma leb_trans (a b c : str) :
  leb a b = true -> leb b c = true -> leb a c = true.
Proof.
  unfold leb. revert b c.
  induction a as [|x a IH]; intros [|y b] [|z c]; cbn [compare];
    try congruence.
  destruct (Z.compare_spec x y), (Z.compare_spec y z), (Z.compare_spec x z);
    subst; intros; try lia; try congruence; eauto.
Qed.

Lemma sort_by_date_desc_strongly (rows : list Row) :
  StronglySorted (fun a b => leb (col_date b) (col_date a) = true)
                 (sort_by date_desc rows).
Proof.
  apply Sorted_StronglySorted.
  - intros a b c Hab Hbc. exact (leb_trans _ _ _ Hbc Hab).
  - apply (sort_by_sorted date_desc date_desc_total).
Qed.

(** X9.  [list] reads the 20 most recent entries: as many rows as there
    are entries, up to 20, the most recent date first, every one an entry
    of the journal, and no entry that is left out is dated after one that
    is listed.  It prints them in short form, entry by entry, up to the
    first call that the console refuses (then it ends with
    [UnicodeEncodeError]), or warns when the journal is empty. *)
Theorem cmd_list_newest_twenty (file : Db) :
  exists rows,
    select_recent (get_db file) = Ok rows
    /\ List.length rows = Nat.min 20 (List.length (stored file))
    /\ newest_first rows
    /\ (forall r, In r rows -> In r (stored file))
    /\ (forall r r', In r (stored file) -> ~ In r rows -> In r' rows ->
                     leb (col_date r) (col_date r') = true)
    /\ (stored file = [] ->
        out (cmd_list file) = [warn NoEntries]
        /\ result (cmd_list file) = Ok tt)
    /\ (forall es, stored file <> [] -> mapM row_to_entry rows = Ok es ->
        let lines := flat_map (fun e => entry_lines e true) es in
        out (cmd_list file) = take_while accepted lines
        /\ result (cmd_list file)
           = (if forallb accepted lines then Ok tt
              else Raise UnicodeEncodeError)).
Proof.
  exists (firstn 20 (sort_by date_desc (stored file))).
  assert (Hsel : select_recent (get_db file)
                 = Ok (firstn 20 (sort_by date_desc (stored file)))).
  { unfold select_recent. rewrite table_entries_get_db. reflexivity. }
  split; [exact Hsel|]. split; [|split; [|split; [|split; [|split]]]].
  - rewrite length_firstn, sort_by_length. reflexivity.
  - apply firstn_sorted. apply (sort_by_sorted date_desc date_desc_total).
  - intros r Hr. apply In_firstn in Hr. apply sort_by_In in Hr. exact Hr.
  - intros r r' Hr Hout Hin.
    pose proof (sort_by_date_desc_strongly (stored file)) as Hs.
    rewrite <- (firstn_skipn 20 (sort_by date_desc (stored file))) in Hs.
    apply (StronglySorted_app_inv _ _ _ Hs r' r Hin).
    apply (sort_by_In date_desc) in Hr.
    rewrite <- (firstn_skipn 20 (sort_by date_desc (stored file))) in Hr.
    apply in_app_or in Hr. destruct Hr as [Hr|Hr]; [contradiction | exact Hr].
  - intros Hempty. unfold cmd_list. rewrite Hsel, Hempty. split; reflexivity.
  - intros es Hne Hes. cbv zeta. unfold cmd_list.
    rewrite Hsel, cmd_bind_lift_ok.
    destruct (firstn 20 (sort_by date_desc (stored file))) as [|r rows'] eqn:E.
    + exfalso. apply Hne. apply (f_equal (@List.length Row)) in E.
      rewrite length_firstn, sort_by_length in E.
      destruct (stored file); [reflexivity | discriminate].
    + cbn [is_empty]. rewrite (print_rows_lines true _ _ Hes), emit_all.
      split; reflexivity.
Qed.

(** *** Tag cloud *)

Lemma bump_keys (freq : list (str * Z)) (x : str) :
  (In x (map fst freq) -> map fst (bump freq x) = map fst freq)
  /\ (~ In x (map fst freq) -> map fst (bump freq x) = map fst freq ++ [x]).
Proof.
  induction freq as [|[k v] rest [IH1 IH2]]; cbn [bump map fst app In].
  - split; [intros [] | reflexivity].
  - destruct (eqb k x) eqn:E.
    + apply PyStrFacts.eqb_eq in E. subst k. cbn [map fst].
      split; [reflexivity | intros H; exfalso; apply H; left; reflexivity].
    + apply PyStrFacts.eqb_neq in E. cbn [map fst]. split.
      * intros [H|H]; [congruence|]. rewrite (IH1 H). reflexivity.
      * intros H. rewrite IH2; [reflexivity|]. intros H'. apply H. right. exact H'.
Qed.

Lemma bump_NoDup (freq : list (str * Z)) (x : str) :
  NoDup (map fst freq) -> NoDup (map fst (bump freq x)).
Proof.
  intros Hnd. destruct (bump_keys freq x) as [H1 H2].
  destruct (mem x (map fst freq)) eqn:E.
  - apply PyStrFacts.mem_In in E. rewrite (H1 E). exact Hnd.
  - assert (Hx : ~ In x (map fst freq)).
    { intros H. apply PyStrFacts.mem_In in H. congruence. }
    rewrite (H2 Hx).
    eapply Permutation_NoDup; [apply Permutation_cons_append|].
    constructor; assumption.
Qed.

Lemma bump_In_key (freq : list (str * Z)) (x t : str) :
  In t (map fst (bump freq x)) <-> In t (map fst freq) \/ t = x.
Proof.
  destruct (bump_keys freq x) as [H1 H2].
  destruct (mem x (map fst freq)) eqn:E.
  - apply PyStrFacts.mem_In in E. rewrite (H1 E).
    split; [tauto | intros [H| ->]; assumption].
  - assert (Hx : ~ In x (map fst freq)).
    { intros H. apply PyStrFacts.mem_In in H. congruence. }
    rewrite (H2 Hx), in_app_iff. cbn [In].
    split; [intros [H|[H|[]]]; auto | intros [H|H]; auto].
Qed.

Lemma bump_In (freq : list (str * Z)) (x t : str) (n : Z) :
  NoDup (map fst freq) -> In (t, n) (bump freq x) ->
  (t <> x /\ In (t, n) freq)
  \/ (t = x /\ (In (x, n - 1) freq \/ (n = 1 /\ ~ In x (map fst freq)))).
Proof.
  induction freq as [|[k v] rest IH]; cbn [bump map fst]; intros Hnd.
  - intros [[= <- <-]|[]]. right. split; [reflexivity|]. right.
    split; [reflexivity | intros []].
  - inversion Hnd as [|? ? Hk Hrest]; subst.
    destruct (eqb k x) eqn:E.
    + apply PyStrFacts.eqb_eq in E. subst k. intros [[= <- <-]|Hin].
      * right. split; [reflexivity|]. left. left. f_equal. lia.
      * left. split; [|right; exact Hin].
        intros ->. apply Hk. apply (in_map fst) in Hin. exact Hin.
    + apply PyStrFacts.eqb_neq in E. intros [[= <- <-]|Hin].
      * left. split; [exact E | left; reflexivity].
      * destruct (IH Hrest Hin) as [[Hne H]|[-> [H|[-> H]]]].
        -- left. split; [exact Hne | right; exact H].
        -- right. split; [reflexivity|]. left. right. exact H.
        -- right. split; [reflexivity|]. right. split; [reflexivity|].
           cbn [In]. intros [H'|H']; [congruence | exact (H H')].
Qed.

Lemma count_snoc (t x : str) (seen : list str) :
  count (eqb t) (seen ++ [x]) = count (eqb t) seen + (if eqb t x then 1 else 0).
Proof.
  unfold count. rewrite filter_app, length_app. cbn [filter].
  destruct (eqb t x); cbn [List.length]; lia.
Qed.

Lemma count_absent (t : str) (seen : list str) :
  ~ In t seen -> count (eqb t) seen = 0.
Proof.
  intros H. unfold count.
  destruct (filter (eqb t) seen) as [|y l] eqn:E; [reflexivity|].
  exfalso. apply H.
  assert (Hy : In y (filter (eqb t) seen)) by (rewrite E; left; reflexivity).
  apply filter_In in Hy. destruct Hy as [Hy Ht].
  apply PyStrFacts.eqb_eq in Ht. subst y. exact Hy.
Qed.

(** What the dict of [cmd_tag_cloud] holds after the tags [seen]. *)
Lemma fold_bump_counts (tags seen : list str) (freq : list (str * Z)) :
  NoDup (map fst freq) ->
  (forall t, In t (map fst freq) <-> In t seen) ->
  (forall t n, In (t, n) freq -> n = count (eqb t) seen) ->
  NoDup (map fst (fold_left bump tags freq))
  /\ (forall t, In t (map fst (fold_left bump tags freq)) <-> In t (seen ++ tags))
  /\ (forall t n, In (t, n) (fold_left bump tags freq) ->
                  n = count (eqb t) (seen ++ tags)).
Proof.
  revert seen freq. induction tags as [|x tags IH]; intros seen freq Hnd Hkeys Hcnt.
  - cbn [fold_left]. rewrite app_nil_r. auto.
  - cbn [fold_left].
    replace (seen ++ x :: tags) with ((seen ++ [x]) ++ tags)
      by (rewrite <- app_assoc; reflexivity).
    apply IH.
    + apply bump_NoDup, Hnd.
    + intros t. rewrite bump_In_key, in_app_iff, Hkeys. cbn [In].
      split; [intros [H| ->]; auto | intros [H|[H|[]]]; auto].
    + intros t n Hin. rewrite count_snoc.
      destruct (bump_In _ _ _ _ Hnd Hin) as [[Hne H]|[-> [H|[-> H]]]].
      * apply PyStrFacts.eqb_neq in Hne. rewrite Hne.
        rewrite (Hcnt _ _ H). lia.
      * rewrite PyStrFacts.eqb_refl. pose proof (Hcnt _ _ H). lia.
      * rewrite PyStrFacts.eqb_refl. rewrite count_absent; [reflexivity|].
        intros H'. apply H, Hkeys, H'.
Qed.

Lemma count_tags_ok (rows : list str) (lists : list (list str))
    (freq : list (str * Z)) :
  mapM Json.json_loads rows = Ok lists ->
  count_tags rows freq = Ok (fold_left bump (List.concat lists) freq).
Proof.
  revert lists freq. induction rows as [|r rows IH]; intros lists freq;
    cbn [mapM count_tags].
  - intros [= <-]. reflexivity.
  - destruct (Json.json_loads r) as [tags|]; [|discriminate].
    destruct (mapM Json.json_loads rows) as [ls|]; [|discriminate].
    intros [= <-]. cbn [List.concat]. rewrite fold_left_app.
    apply IH. reflexivity.
Qed.

Lemma Sorted_weaken {A} (R R' : A -> A -> Prop) (l : list A) :
  (forall a b, R a b -> R' a b) -> Sorted R l -> Sorted R' l.
Proof.
  intros Himp. induction 1 as [|a l Hs IH Ha]; constructor; [exact IH|].
  destruct Ha; constructor. apply Himp. assumption.
Qed.

(** X10.  [tag-cloud] counts tags over the whole journal: every tag that
    occurs in some entry gets exactly one line, the number on it is the
    number of times the tag occurs in all the tag lists together (a tag
    repeated in one entry counts each time), and the lines come with the
    larger counts first.  The command prints the heading and the lines up
    to the first tag that the console refuses, and ends normally when it
    accepts them all.  Without any tag it warns and prints no heading. *)
Theorem cmd_tag_cloud_counts (file : Db) (lists : list (list str)) :
  mapM Json.json_loads (map col_tags_json (stored file)) = Ok lists ->
  let all := List.concat lists in
  let o := cmd_tag_cloud file in
  stored (disk o) = stored file
  /\ (all = [] -> out o = [warn NoTagsYet] /\ result o = Ok tt)
  /\ (all <> [] -> exists lines,
        NoDup (map fst lines)
        /\ (forall t, In t (map fst lines) <-> In t all)
        /\ (forall t n, In (t, n) lines -> n = count (eqb t) all)
        /\ Sorted (fun a b => snd b <= snd a) lines
        /\ out o
           = print TagCloudHeading
             :: map (fun kv => print (TagLine (fst kv) (snd kv)))
                    (take_while (fun kv => stdout_accepts (fst kv)) lines)
        /\ result o
           = (if forallb (fun kv => stdout_accepts (fst kv)) lines then Ok tt
              else Raise UnicodeEncodeError)).
Proof.
  intros Hlists all o. subst o. unfold cmd_tag_cloud, select_tags_json.
  rewrite table_entries_get_db. cbn [bind]. rewrite cmd_bind_lift_ok.
  rewrite (count_tags_ok _ _ [] Hlists), cmd_bind_lift_ok. fold all.
  destruct (fold_bump_counts all [] [] (NoDup_nil _)) as (Hnd & Hkeys & Hcnt).
  { intros t. reflexivity. }
  { intros t n []. }
  cbn [app] in Hkeys, Hcnt.
  split; [apply stored_after_read|].
  destruct (fold_left bump all []) as [|kv freq] eqn:Efreq.
  - cbn [is_empty]. split; [intros _; split; reflexivity|].
    intros Hne. exfalso. destruct all as [|x all']; [congruence|].
    apply (Hkeys x). left. reflexivity.
  - cbn [is_empty]. split.
    + intros Hall. exfalso. rewrite Hall in Hkeys.
      apply (Hkeys (fst kv)). left. reflexivity.
    + intros _. exists (sort_by by_count_desc (kv :: freq)).
      split; [|split; [|split; [|split]]].
      * eapply Permutation_NoDup; [|exact Hnd].
        apply Permutation_map, sort_by_perm.
      * intros t. rewrite <- Hkeys. split; intros H.
        -- eapply Permutation_in; [|exact H].
           apply Permutation_map, Permutation_sym, sort_by_perm.
        -- eapply Permutation_in; [|exact H].
           apply Permutation_map, sort_by_perm.
      * intros t n H. apply Hcnt. apply sort_by_In in H. exact H.
      * apply (Sorted_weaken (fun a b => by_count_desc a b = true)).
        -- intros a b Hab. unfold by_count_desc in Hab.
           apply Z.leb_le in Hab. lia.
        -- apply sort_by_sorted. intros a b Hab. unfold by_count_desc in *.
           apply Z.leb_gt in Hab. apply Z.leb_le. lia.
      * rewrite (for_each_emit_prefix _
                   (fun kv => print (TagLine (fst kv) (snd kv)))
                   (fun kv => stdout_accepts (fst kv)))
          by (intros x; apply andb_true_r).
        run_eval. split; reflexivity.
Qed.

(** *** Reading a journal that [add] wrote *)

Lemma well_formed_decodes (rows sub : list Row) :
  Forall well_formed_row rows -> (forall r, In r sub -> In r rows) ->
  forall r, In r sub -> exists e, row_to_entry r = Ok e.
Proof.
  intros Hw Hsub r Hr. rewrite Forall_forall in Hw.
  destruct (Hw r (Hsub r Hr)) as (_ & _ & He). exact He.
Qed.

Lemma row_to_entry_lists (r : Row) (e : JournalEntry) :
  row_to_entry r = Ok e ->
  Json.json_loads (col_tags_json r) = Ok (tags e)
  /\ Json.json_loads (col_accomplishments r) = Ok (accomplishments e).
Proof.
  unfold row_to_entry.
  destruct (Json.json_loads (col_tags_json r)) as [t|]; [|discriminate].
  destruct (Json.json_loads (col_accomplishments r)) as [a|]; [|discriminate].
  destruct (Json.json_loads (col_blockers r)) as [b|]; [|discriminate].
  destruct (Json.json_loads (col_tomorrow r)) as [m|]; [|discriminate].
  cbn [bind]. intros [= <-]. split; reflexivity.
Qed.

Lemma mapM_map {A B C} (f : B -> Result C) (g : A -> B) (l : list A) :
  mapM f (map g l) = mapM (fun x => f (g x)) l.
Proof.
  induction l as [|x l IH]; [reflexivity|]. cbn [map mapM]. rewrite IH.
  reflexivity.
Qed.

Lemma args_encodable_str (args : AddArgs) :
  args_encodable args -> args_are_str args.
Proof.
  intros (H1 & H2 & H3 & H4 & H5 & H6 & H7).
  repeat split; apply JsonPairs.encodable_is_str; assumption.
Qed.

(** Text in, text out: the invariant of journals written from text. *)
Lemma written_text_rows (file : Db) :
  written_from_text file ->
  written_by_add file /\ Forall text_row (stored file).
Proof.
  induction 1 as [|file _ [IHw IHt]|file today now args _ [IHw IHt] Hvalid Henc].
  - split; constructor.
  - split; [apply wba_open, IHw|]. rewrite stored_after_read. exact IHt.
  - split; [apply wba_add; [exact IHw | exact Hvalid
                            | apply args_encodable_str, Henc]|].
    destruct (cmd_add_disk today now args file) as [->|(Hmood & -> & _)].
    + rewrite stored_schema. exact IHt.
    + rewrite with_entry_stored. apply Forall_app. split; [exact IHt|].
      constructor; [|constructor].
      destruct (added_row_text today now args file Hmood Henc) as [Hrow Htext].
      eexists. split; [exact Hrow | exact Htext].
Qed.

Lemma Forall_sub {A} (Q : A -> Prop) (l sub : list A) :
  Forall Q l -> (forall x, In x sub -> In x l) -> Forall Q sub.
Proof.
  rewrite !Forall_forall. intros H Hsub x Hx. apply H, Hsub, Hx.
Qed.

Lemma text_rows_decode (rows : list Row) :
  Forall text_row rows ->
  exists es, mapM row_to_entry rows = Ok es
             /\ forallb entry_encodable es = true.
Proof.
  induction 1 as [|r rows (e & He & Henc) _ (es & Hes & Hall)].
  - exists []. split; reflexivity.
  - exists (e :: es). cbn [mapM forallb]. rewrite He, Hes, Henc, Hall.
    split; reflexivity.
Qed.

Lemma entry_encodable_part (e : JournalEntry) (l : list str) :
  entry_encodable e = true ->
  (forall s, In s l ->
             In s ([date e; title e; body e; mood e] ++ tags e
                   ++ accomplishments e ++ blockers e ++ tomorrow e)) ->
  forallb utf8_encodable l = true.
Proof. intros He Hsub. exact (forallb_incl _ _ _ Hsub He). Qed.

Lemma text_rows_lists (col : Row -> str) (field : JournalEntry -> list str)
    (rows : list Row) :
  (forall r e, row_to_entry r = Ok e -> Json.json_loads (col r) = Ok (field e)) ->
  (forall e s, In s (field e) ->
               In s ([date e; title e; body e; mood e] ++ tags e
                     ++ accomplishments e ++ blockers e ++ tomorrow e)) ->
  Forall text_row rows ->
  exists lists,
    mapM (fun r => Json.json_loads (col r)) rows = Ok lists
    /\ forallb utf8_encodable (List.concat lists) = true.
Proof.
  intros Hcol Hfield.
  induction 1 as [|r rows (e & He & Henc) _ (lists & Hl & Hall)].
  - exists []. split; reflexivity.
  - exists (field e :: lists). cbn [mapM List.concat].
    rewrite (Hcol r e He), Hl, forallb_app, Hall.
    rewrite (entry_encodable_part e (field e) Henc (Hfield e)).
    split; reflexivity.
Qed.

Lemma text_rows_tags (rows : list Row) :
  Forall text_row rows ->
  exists lists,
    mapM (fun r => Json.json_loads (col_tags_json r)) rows = Ok lists
    /\ forallb utf8_encodable (List.concat lists) = true.
Proof.
  apply (text_rows_lists col_tags_json tags).
  - intros r e He. apply (row_to_entry_lists r e He).
  - intros e s Hs. rewrite !in_app_iff. tauto.
Qed.

Lemma text_rows_accomplishments (rows : list Row) :
  Forall text_row rows ->
  exists lists,
    mapM (fun r => Json.json_loads (col_accomplishments r)) rows = Ok lists
    /\ forallb utf8_encodable (List.concat lists) = true.
Proof.
  apply (text_rows_lists col_accomplishments accomplishments).
  - intros r e He. apply (row_to_entry_lists r e He).
  - intros e s Hs. rewrite !in_app_iff. tauto.
Qed.

Lemma md_strings_encodable (es : list JournalEntry) :
  forallb entry_encodable es = true ->
  forallb utf8_encodable (flat_map md_strings es) = true.
Proof.
  induction es as [|e es IH]; [reflexivity|]. cbn [forallb flat_map].
  intros H. apply andb_true_iff in H. destruct H as [He Hes].
  rewrite forallb_app, (IH Hes), andb_true_r.
  apply (entry_encodable_part e _ He). unfold md_strings. intros s.
  rewrite !in_app_iff. cbn [In]. tauto.
Qed.

Lemma accepted_strings {A} (g : A -> Event) (key : A -> str) (l : list A) :
  (forall x, stdout_strings (g x) = [key x]) ->
  forallb utf8_encodable (map key l) = true ->
  forallb (fun x => accepted (g x)) l = true.
Proof.
  intros Hg H. apply forallb_forall. intros x Hx. apply accepted_utf8.
  rewrite Hg. cbn [forallb]. rewrite forallb_forall in H.
  rewrite (H (key x) (in_map key l x Hx)). reflexivity.
Qed.

(** X11.  On a journal that was only ever written by [add] commands
    with text as their arguments (strings that can be encoded as UTF-8),
    the commands that print entries never end with an exception: [today]
    and [list] always, [show] for every id that fits 64 bits, [search] for
    every query that FTS5 accepts, and [export-md] for every range that
    can be encoded when the export file can be opened for writing. *)
Theorem written_journal_can_be_listed (file : Db) :
  written_from_text file ->
  (forall today, result (cmd_today today file) = Ok tt)
  /\ result (cmd_list file) = Ok tt
  /\ (forall args_id, - MAX_ROWID - 1 <= args_id <= MAX_ROWID ->
        result (cmd_show args_id file) = Ok tt)
  /\ (forall query p, utf8_encodable query = true ->
        fts5_match query = Some p ->
        result (cmd_search query file) = Ok tt)
  /\ (forall today args_start args_end,
        let start := or_default args_start (lit "2020-01-01") in
        let stop := or_default args_end (Date.isoformat today) in
        utf8_encodable start = true -> utf8_encodable stop = true ->
        open_w (lit "journal_" ++ start ++ [95] ++ stop ++ lit ".md") = Ok tt ->
        result (cmd_export_md today args_start args_end file) = Ok tt).
Proof.
  intros Hw. apply written_text_rows in Hw. destruct Hw as [Hw Htext].
  apply written_rows_well_formed in Hw. destruct Hw as [Hreach _].
  assert (Hprint : forall short rows,
            (forall r, In r rows -> In r (stored file)) ->
            returned (print_rows short rows) = Ok tt).
  { intros short rows Hsub.
    destruct (print_rows_text short rows (Forall_sub _ _ _ Htext Hsub))
      as (es & _ & ->).
    reflexivity. }
  split; [|split; [|split; [|split]]].
  - intros today. unfold cmd_today.
    rewrite (select_by_date_reachable _ _ Hreach
               (DateFacts.isoformat_encodable today)), cmd_bind_lift_ok.
    destruct (filter _ (stored file)) as [|r rows] eqn:E.
    + cbn [is_empty]. rewrite emit_utf8; [reflexivity|].
      cbn [stdout_strings strings_of forallb].
      rewrite DateFacts.isoformat_encodable. reflexivity.
    + cbn [is_empty finish result]. apply Hprint.
      intros x Hx. rewrite <- E in Hx. apply filter_In in Hx. tauto.
  - unfold cmd_list, select_recent. rewrite table_entries_get_db. cbn [bind].
    rewrite cmd_bind_lift_ok.
    destruct (firstn 20 (sort_by date_desc (stored file))) as [|r rows] eqn:E;
      [reflexivity|].
    cbn [is_empty finish result]. apply Hprint.
    intros x Hx. rewrite <- E in Hx. apply In_firstn, sort_by_In in Hx. exact Hx.
  - intros args_id Hrange. unfold cmd_show, select_by_id, bind_int.
    replace ((- MAX_ROWID - 1 <=? args_id) && (args_id <=? MAX_ROWID)) with true
      by (symmetry; apply andb_true_iff; split; apply Z.leb_le; lia).
    cbn [bind]. rewrite table_entries_get_db. cbn [bind].
    rewrite cmd_bind_lift_ok.
    destruct (find (fun r => col_id r =? args_id) (stored file)) as [r|] eqn:E;
      [|reflexivity].
    apply find_some in E. destruct E as [Hin _].
    rewrite Forall_forall in Htext. destruct (Htext r Hin) as (e & He & Henc).
    rewrite He, cmd_bind_lift_ok, (print_entry_text e false Henc). reflexivity.
  - intros query p Henc Hq. unfold cmd_search.
    rewrite (select_search_in_sync file query p
               (reachable_in_sync file Hreach) Henc Hq), cmd_bind_lift_ok.
    assert (Hinfo : forall m, strings_of m = [query] ->
                              emit (info m) = mkCmd [info m] (Ok tt)).
    { intros m Hm. apply emit_utf8. cbn [stdout_strings]. rewrite Hm.
      cbn [forallb]. rewrite Henc. reflexivity. }
    destruct (firstn 20 (sort_by date_desc (matching p file))) as [|r rows] eqn:E.
    + cbn [is_empty]. rewrite (Hinfo (NoResultsFor query) eq_refl). reflexivity.
    + cbn [is_empty]. rewrite (Hinfo (ResultsFor _ query) eq_refl).
      cbn [finish result cmd_bind returned]. apply (Hprint true (r :: rows)).
      intros x Hx. rewrite <- E in Hx. apply In_firstn, sort_by_In in Hx.
      unfold matching in Hx. apply filter_In in Hx. tauto.
  - intros today args_start args_end start stop Hs He Hopen.
    unfold cmd_export_md, select_between. fold start. fold stop.
    rewrite (bind_text_ok _ Hs), (bind_text_ok _ He). cbn [bind].
    rewrite table_entries_get_db. cbn [bind]. rewrite cmd_bind_lift_ok.
    destruct (sort_by date_asc (filter _ (stored file))) as [|r rows] eqn:E;
      [reflexivity|].
    destruct (text_rows_decode (r :: rows)) as (es & Hes & Hall).
    { apply (Forall_sub _ _ _ Htext). intros x Hx. rewrite <- E in Hx.
      apply sort_by_In, filter_In in Hx. tauto. }
    cbn [is_empty]. rewrite Hes, cmd_bind_lift_ok. cbv zeta.
    unfold write_md. rewrite Hopen, cmd_bind_lift_ok.
    cbn [forallb]. rewrite Hs, He, (md_strings_encodable es Hall).
    cbn [andb]. rewrite emit_utf8; [reflexivity|].
    cbn [stdout_strings strings_of forallb].
    rewrite !encodable_app, Hs, He. reflexivity.
Qed.

(** X12.  On such a journal the commands that summarise never end with an
    exception either: [streak] and [tag-cloud] always, [weekly] on every
    calendar day, [mood-trend] whenever the first day of its window is a
    date that Python can represent. *)
Theorem written_journal_can_be_summarised (file : Db) :
  written_from_text file ->
  result (cmd_streak file) = Ok tt
  /\ result (cmd_tag_cloud file) = Ok tt
  /\ (forall today, Date.valid today = true ->
        result (cmd_weekly today file) = Ok tt)
  /\ (forall today args_days since,
        Date.sub_days today (if args_days =? 0 then 30 else args_days)
        = Ok since ->
        result (cmd_mood_trend today args_days file) = Ok tt).
Proof.
  intros Hw. apply written_text_rows in Hw. destruct Hw as [Hw Htext].
  apply written_rows_well_formed in Hw. destruct Hw as [Hreach Hrows].
  pose proof Hrows as Hall. rewrite Forall_forall in Hall.
  split; [|split; [|split]].
  - destruct (select_distinct_dates_contract file) as (rows & Hsel & _ & _ & Hin).
    destruct rows as [|r rows].
    + unfold cmd_streak. rewrite Hsel. reflexivity.
    + destruct (mapM_total Date.fromisoformat (r :: rows)) as [dates Hdates].
      { intros x Hx. apply Hin in Hx. apply in_map_iff in Hx.
        destruct Hx as (row & <- & Hrow).
        destruct (Hall row Hrow) as (_ & (d & Hd & ->) & _).
        exists d. apply DateFacts.fromisoformat_isoformat, Hd. }
      apply (cmd_streak_reports_loop file (r :: rows) dates Hsel); [discriminate|].
      exact Hdates.
  - destruct (text_rows_tags (stored file) Htext) as (lists & Hlists & Henc).
    rewrite <- mapM_map in Hlists.
    unfold cmd_tag_cloud, select_tags_json.
    rewrite table_entries_get_db. cbn [bind]. rewrite cmd_bind_lift_ok.
    rewrite (count_tags_ok _ _ [] Hlists), cmd_bind_lift_ok.
    destruct (fold_bump_counts (List.concat lists) [] [] (NoDup_nil _))
      as (_ & Hkeys & _).
    { intros t. reflexivity. }
    { intros t n []. }
    cbn [app] in Hkeys.
    destruct (fold_left bump (List.concat lists) []) as [|kv freq] eqn:E;
      [reflexivity|].
    cbn [is_empty]. run_eval.
    rewrite for_each_emit; [reflexivity|].
    apply (accepted_strings _ fst); [intros x; reflexivity|].
    apply forallb_forall. intros t Ht.
    rewrite forallb_forall in Henc. apply Henc, Hkeys.
    eapply Permutation_in; [|exact Ht].
    apply Permutation_map, Permutation_sym, sort_by_perm.
  - intros today Hvalid. unfold cmd_weekly.
    destruct (DateFacts.start_of_week today Hvalid) as (Hstart & _).
    rewrite Hstart, cmd_bind_lift_ok. unfold select_since.
    rewrite (bind_text_ok _ (DateFacts.isoformat_encodable _)). cbn [bind].
    rewrite table_entries_get_db. cbn [bind]. rewrite cmd_bind_lift_ok.
    match goal with
    | |- context [mapM _ ?l] =>
        destruct (text_rows_accomplishments l) as (lists & Hlists & Henc)
    end.
    { apply (Forall_sub _ _ _ Htext). intros x Hx.
      apply sort_by_In, filter_In in Hx. tauto. }
    rewrite Hlists. run_eval.
    destruct (List.concat lists) as [|a l]; [reflexivity|].
    rewrite (for_each_emit (a :: l) (fun a => print (Accomplishment a)));
      [reflexivity|].
    apply (accepted_strings _ (fun a => a)); [intros x; reflexivity|].
    rewrite map_id. exact Henc.
  - intros today args_days since Hsince. unfold cmd_mood_trend.
    rewrite Hsince.
    destruct (select_mood_counts_groups file since) as (groups & Hsel & Hgroups).
    run_eval. rewrite Hsel. run_eval.
    destruct groups as [|g groups]; [reflexivity|].
    assert (Hknown : forall m, In m (map fst (g :: groups)) ->
                               mem m MOODS = true).
    { intros m Hm. apply Hgroups in Hm. destruct Hm as (r & Hr & _ & <-).
      destruct (Hall r Hr) as (Hmood & _). exact Hmood. }
    destruct (sorted_by_mood_ok (g :: groups) Hknown) as [sorted Hsorted].
    run_eval. rewrite Hsorted. run_eval.
    rewrite for_each_emit by (eapply mood_lines_accepted; eassumption).
    reflexivity.
Qed.

(** X13.  On a journal that was only ever written by [add] commands
    [streak] reports a streak of at least one day
    and at most the number of days with entries, and that number is the
    number of different dates in the journal; on an empty journal it only
    says that there are no entries yet. *)
Theorem streak_within_days (file : Db) :
  written_by_add file ->
  (stored file = [] -> out (cmd_streak file) = [info NoEntriesYet])
  /\ (stored file <> [] ->
      exists days streak,
        NoDup days
        /\ (forall x, In x days <-> In x (map col_date (stored file)))
        /\ out (cmd_streak file)
           = [ok (CurrentStreak streak);
              print (TotalDays (Z.of_nat (List.length days)))]
        /\ 1 <= streak <= Z.of_nat (List.length days)).
Proof.
  intros Hw. apply written_rows_well_formed in Hw.
  destruct Hw as [Hreach Hrows]. rewrite Forall_forall in Hrows.
  destruct (select_distinct_dates_contract file) as (rows & Hsel & Hnd & _ & Hin).
  split.
  - intros Hempty. unfold cmd_streak. rewrite Hsel.
    destruct rows as [|r rows]; [reflexivity|].
    exfalso. rewrite Hempty in Hin. apply (Hin r). left. reflexivity.
  - intros Hne.
    assert (Hrne : rows <> []).
    { intros ->. destruct (stored file) as [|r l]; [congruence|].
      apply (Hin (col_date r)). left. reflexivity. }
    destruct (mapM_total Date.fromisoformat rows) as [dates Hdates].
    { intros x Hx. apply Hin in Hx. apply in_map_iff in Hx.
      destruct Hx as (row & <- & Hrow).
      destruct (Hrows row Hrow) as (_ & (d & Hd & ->) & _).
      exists d. apply DateFacts.fromisoformat_isoformat, Hd. }
    destruct (cmd_streak_reports_loop file rows dates Hsel Hrne Hdates)
      as [_ Hout].
    assert (Hlen : List.length dates = List.length rows).
    { symmetry. eapply Forall2_length. apply mapM_Forall2. exact Hdates. }
    assert (Hdne : dates <> []).
    { intros ->. destruct rows; [congruence | discriminate]. }
    destruct (streak_loop_prefix dates Hdne 1) as (p & (Hcons & [rest Hrest] & _) & Hs).
    exists rows, (streak_loop dates 1).
    split; [exact Hnd|]. split; [exact Hin|]. split.
    + rewrite Hout, Hlen. reflexivity.
    + rewrite Hs, <- Hlen.
      pose proof (consecutive_nonempty p Hcons) as Hp.
      assert (List.length p <= List.length dates)%nat.
      { apply (f_equal (@List.length Date.date)) in Hrest.
        rewrite length_app in Hrest. lia. }
      destruct p; [congruence|]. cbn [List.length] in *. lia.
Qed.

(** *** What a failed add leaves behind *)

(** X14.  An [add] is all or nothing.  When it ends normally, exactly one
    entry and its index document were appended and the id and the date
    were reported; when it ends with an exception, whichever it is, the
    entries and the index are as they were and nothing was reported except,
    for an unknown mood, the error message. *)
Theorem cmd_add_all_or_nothing
    (today : Date.date) (now : str) (args : AddArgs) (file : Db) :
  let o := cmd_add today now args file in
  (result o = Ok tt ->
   stored (disk o) = stored file ++ [added_row today now args file]
   /\ indexed (disk o) = indexed file ++ [fts_doc (added_row today now args file)]
   /\ out o = [ok (EntryAdded (next_rowid file) (Date.isoformat today))])
  /\ (forall e, result o = Raise e ->
      stored (disk o) = stored file
      /\ indexed (disk o) = indexed file
      /\ out o = if mem (args_mood args) MOODS then []
                 else [err (MoodMustBeOneOf MOODS)]).
Proof.
  intros o. subst o. unfold cmd_add.
  destruct (mem (args_mood args) MOODS) eqn:Hmood; cbn [negb].
  - rewrite or_default_some.
    match goal with
    | |- context [insert_entry ?n ?c ?d ?t ?b ?tg ?m ?h ?a ?bl ?tm] =>
        destruct (insert_entry n c d t b tg m h a bl tm) as [[db eid]|e] eqn:Hins
    end.
    + apply insert_entry_inv in Hins. destruct Hins as [Heid Hdb]. subst eid db.
      rewrite emit_added.
      split; [|intros e; discriminate].
      intros _. repeat split.
    + split; [discriminate|]. intros e' _.
      cbn [finish disk out raise printed]. rewrite get_db_shape. cbn [committed].
      rewrite stored_schema, indexed_schema. repeat split.
  - split; [discriminate|]. intros e _.
    run_eval. rewrite get_db_shape. cbn [committed].
    rewrite stored_schema, indexed_schema. repeat split.
Qed.

(** *** Export of a range of days *)

Lemma or_default_isoformat (d : Date.date) (default : str) :
  or_default (Some (Date.isoformat d)) default = Date.isoformat d.
Proof.
  unfold Date.isoformat. destruct (Date._ord2ymd d) as [[y m] dd]. reflexivity.
Qed.

(** X15.  [export-md] with a start and an end that are ISO dates exports
    by the calendar: on a journal written by [add] commands from text, an
    entry is exported exactly when its day is neither before the start nor
    after the end, and the entries come earliest day first.  When no entry
    falls into the range the command warns and ends normally; otherwise
    it writes the file and reports the number of entries if the file can
    be opened, and ends with the exception of [open], nothing printed, if
    it cannot. *)
Theorem export_md_by_calendar (today a b : Date.date) (file : Db) :
  written_from_text file -> Date.valid a = true -> Date.valid b = true ->
  let start := Date.isoformat a in
  let stop := Date.isoformat b in
  let fname := lit "journal_" ++ start ++ [95] ++ stop ++ lit ".md" in
  let o := cmd_export_md today (Some start) (Some stop) file in
  exists rows,
    select_between (get_db file) start stop = Ok rows
    /\ oldest_first rows
    /\ (forall r d, In r (stored file) ->
          Date.valid d = true -> col_date r = Date.isoformat d ->
          (In r rows <-> a <= d <= b))
    /\ (rows = [] -> out o = [warn NoEntriesInRange] /\ result o = Ok tt)
    /\ (rows <> [] ->
        exists exported,
          mapM row_to_entry rows = Ok exported
          /\ match open_w fname with
             | Ok _ =>
                 out o = [write_file fname start stop exported;
                          ok (Exported (Z.of_nat (List.length rows)) fname)]
                 /\ result o = Ok tt
             | Raise e => out o = [] /\ result o = Raise e
             end).
Proof.
  intros Hw Ha Hb start stop fname o.
  apply written_text_rows in Hw. destruct Hw as [_ Htext].
  set (rows := sort_by date_asc
                 (filter (fun r => leb start (col_date r) && leb (col_date r) stop)
                         (stored file))).
  assert (Hsel : select_between (get_db file) start stop = Ok rows).
  { unfold select_between. subst start stop.
    rewrite !(bind_text_ok _ (DateFacts.isoformat_encodable _)). cbn [bind].
    rewrite table_entries_get_db. reflexivity. }
  assert (Ho : o = finish (get_db file)
                     (if is_empty rows then emit (warn NoEntriesInRange)
                      else cmd_bind (lift (mapM row_to_entry rows))
                             (fun exported =>
                                cmd_bind (write_md fname start stop exported)
                                  (fun _ => emit (ok (Exported
                                     (Z.of_nat (List.length rows)) fname)))))).
  { subst o fname. unfold cmd_export_md. subst start stop.
    rewrite !or_default_isoformat, Hsel, cmd_bind_lift_ok. reflexivity. }
  exists rows. split; [exact Hsel|]. split; [|split; [|split]].
  - apply (sort_by_sorted date_asc date_asc_total).
  - intros r d Hr Hd Hdate. subst rows. rewrite sort_by_In, filter_In.
    rewrite Hdate. subst start stop.
    rewrite !DateFacts.isoformat_leb by assumption.
    rewrite andb_true_iff, !Z.leb_le. tauto.
  - intros Hempty. rewrite Ho, Hempty. split; reflexivity.
  - intros Hne.
    destruct (text_rows_decode rows) as (es & Hes & Hall).
    { apply (Forall_sub _ _ _ Htext). intros x Hx. subst rows.
      apply sort_by_In, filter_In in Hx. tauto. }
    exists es. split; [exact Hes|].
    assert (Hname : utf8_encodable fname = true).
    { subst fname start stop.
      rewrite !encodable_app, !DateFacts.isoformat_encodable. reflexivity. }
    rewrite Ho. destruct rows as [|r rows']; [congruence|].
    cbn [is_empty]. rewrite Hes, cmd_bind_lift_ok. unfold write_md.
    destruct (open_w fname) as [[]|e]; [|split; reflexivity].
    rewrite cmd_bind_lift_ok. cbn [forallb].
    rewrite (md_strings_encodable es Hall). subst start stop.
    rewrite !DateFacts.isoformat_encodable. cbn [andb].
    rewrite emit_utf8; [split; reflexivity|].
    cbn [stdout_strings strings_of forallb]. rewrite Hname. reflexivity.
Qed.

(** *** Mood counts *)

Lemma sum_perm (l l' : list Z) :
  Permutation l l' -> fold_right Z.add 0 l = fold_right Z.add 0 l'.
Proof.
  induction 1; cbn [fold_right]; lia.
Qed.

Lemma sum_add {A} (f g : A -> Z) (l : list A) :
  fold_right Z.add 0 (map (fun x => f x + g x) l)
  = fold_right Z.add 0 (map f l) + fold_right Z.add 0 (map g l).
Proof.
  induction l as [|x l IH]; cbn [map fold_right]; lia.
Qed.

Lemma sum_one_hit (x : str) (ms : list str) :
  NoDup ms -> In x ms ->
  fold_right Z.add 0 (map (fun m => if eqb x m then 1 else 0) ms) = 1.
Proof.
  induction 1 as [|m ms Hm Hnd IH]; [intros []|].
  cbn [map fold_right]. intros [->|Hin].
  - rewrite PyStrFacts.eqb_refl.
    assert (Hz : fold_right Z.add 0 (map (fun m => if eqb x m then 1 else 0) ms) = 0).
    { clear IH Hnd. induction ms as [|y ms IHm]; [reflexivity|].
      cbn [map fold_right].
      destruct (eqb x y) eqn:E.
      - apply PyStrFacts.eqb_eq in E. subst y. exfalso. apply Hm. left. reflexivity.
      - rewrite IHm; [reflexivity|]. intros H. apply Hm. right. exact H. }
    lia.
  - destruct (eqb x m) eqn:E.
    + apply PyStrFacts.eqb_eq in E. subst m. contradiction.
    + rewrite (IH Hin). reflexivity.
Qed.

(** The groups of [GROUP BY] share out the rows. *)
Lemma sum_group_counts {A} (k : A -> str) (l : list A) (ms : list str) :
  NoDup ms -> (forall r, In r l -> In (k r) ms) ->
  fold_right Z.add 0 (map (fun m => count (fun r => eqb (k r) m) l) ms)
  = Z.of_nat (List.length l).
Proof.
  intros Hnd. induction l as [|x l IH]; intros Hin.
  - unfold count. cbn [filter List.length]. clear.
    induction ms as [|m ms IH]; cbn [map fold_right]; lia.
  - rewrite (map_ext _ (fun m => (if eqb (k x) m then 1 else 0)
                                 + count (fun r => eqb (k r) m) l)).
    + rewrite sum_add, IH by (intros r Hr; apply Hin; right; exact Hr).
      rewrite (sum_one_hit _ _ Hnd (Hin x (or_introl eq_refl))).
      cbn [List.length]. lia.
    + intros m. unfold count. cbn [filter].
      destruct (eqb (k x) m); cbn [List.length]; lia.
Qed.

(** X16.  The figures of [mood-trend].  When every entry of the window
    has a mood from [MOODS], the command prints the heading and then one
    line for each mood that occurs in the window, in the order of [MOODS];
    the count on a line is the number of entries of the window with that
    mood, and the total that the percentages are taken of is the number of
    entries of the window, which the counts add up to. *)
Theorem mood_trend_counts (today : Date.date) (args_days : Z)
    (since : Date.date) (file : Db) :
  let days := if args_days =? 0 then 30 else args_days in
  let window := filter (fun r => leb (Date.isoformat since) (col_date r))
                       (stored file) in
  Date.sub_days today days = Ok since ->
  (forall r, In r window -> mem (col_mood r) MOODS = true) ->
  window <> [] ->
  exists lines,
    out (cmd_mood_trend today args_days file)
    = print (MoodDistribution days)
      :: map (fun l => print (MoodLine (fst l) (snd l)
                                       (Z.of_nat (List.length window)))) lines
    /\ NoDup (map fst lines)
    /\ (forall m, In m (map fst lines) <-> exists r, In r window /\ col_mood r = m)
    /\ (forall m n, In (m, n) lines ->
                    n = count (fun r => eqb (col_mood r) m) window)
    /\ fold_right Z.add 0 (map snd lines) = Z.of_nat (List.length window)
    /\ Sorted (fun a b => exists i j, index MOODS (fst a) = Ok i
                                      /\ index MOODS (fst b) = Ok j /\ i <= j)
              lines.
Proof.
  intros days window Hsince Hmoods Hne.
  set (moods := sort_by leb (distinct eqb (map col_mood window))).
  set (groups := map (fun m => (m, count (fun r => eqb (col_mood r) m) window))
                     moods).
  assert (Hsel : select_mood_counts (get_db file) (Date.isoformat since)
                 = Ok groups).
  { unfold select_mood_counts.
    rewrite (bind_text_ok _ (DateFacts.isoformat_encodable since)). cbn [bind].
    rewrite table_entries_get_db. reflexivity. }
  assert (Hfst : map fst groups = moods).
  { subst groups. rewrite map_map. cbn [fst]. apply map_id. }
  assert (Hnd : NoDup moods).
  { subst moods. eapply Permutation_NoDup; [apply sort_by_perm|].
    apply (distinct_NoDup eqb PyStrFacts.eqb_eq). }
  assert (Hin : forall m, In m moods <-> exists r, In r window /\ col_mood r = m).
  { intros m. subst moods.
    rewrite sort_by_In, (distinct_In eqb PyStrFacts.eqb_eq), in_map_iff.
    split; intros (r & H1 & H2); exists r; tauto. }
  assert (Htotal : fold_right Z.add 0 (map snd groups)
                   = Z.of_nat (List.length window)).
  { subst groups. rewrite map_map. cbn [snd].
    apply (sum_group_counts col_mood window moods Hnd).
    intros r Hr. apply Hin. exists r. split; [exact Hr | reflexivity]. }
  assert (Hknown : forall m, In m (map fst groups) -> mem m MOODS = true).
  { intros m Hm. rewrite Hfst in Hm. apply Hin in Hm.
    destruct Hm as (r & Hr & <-). apply Hmoods, Hr. }
  destruct (sorted_by_mood_ok groups Hknown) as [sorted Hsorted].
  destruct (sorted_by_mood_sorted _ _ Hsorted) as [Hperm Hord].
  exists sorted. split; [|split; [|split; [|split; [|split]]]].
  - unfold cmd_mood_trend. fold days. rewrite Hsince. run_eval.
    rewrite Hsel. run_eval.
    destruct groups as [|g groups'] eqn:Eg.
    + exfalso. destruct window as [|r w] eqn:Ew; [congruence|].
      assert (Hm : In (col_mood r) moods).
      { apply Hin. exists r. split; [left; reflexivity | reflexivity]. }
      rewrite <- Hfst in Hm. destruct Hm.
    + run_eval. rewrite Hsorted. run_eval. rewrite Htotal.
      rewrite for_each_emit
        by (apply (mood_lines_accepted _ _ _ Hknown Hsorted)).
      reflexivity.
  - eapply Permutation_NoDup; [apply Permutation_map; exact Hperm|].
    rewrite Hfst. exact Hnd.
  - intros m. rewrite <- Hin, <- Hfst. split; intros H.
    + eapply Permutation_in; [|exact H].
      apply Permutation_map, Permutation_sym, Hperm.
    + eapply Permutation_in; [|exact H]. apply Permutation_map, Hperm.
  - intros m n H.
    apply (Permutation_in _ (Permutation_sym Hperm)) in H.
    subst groups. apply in_map_iff in H. destruct H as (m' & [= <- <-] & _).
    reflexivity.
  - rewrite <- Htotal. apply sum_perm, Permutation_map, Permutation_sym, Hperm.
  - exact Hord.
Qed.

End Extras.

(* ********************************************************************* *)
(** * The claims on concrete journals *)
(* ********************************************************************* *)

Module Examples.
Import Demo.
#[local] Existing Instance platform.

(** [json.loads] joins an escaped surrogate pair: two code points written,
    one read.  This is why the round trip asks for [json_safe] strings. *)
Example surrogate_pair_is_joined :
  Json.json_loads (Json.json_dumps [[0xD83D; 0xDE00]]) = Ok [[0x1F600]].
Proof. reflexivity. Qed.

(** The weekly summary of the specification's example: entries on Monday
    and Wednesday with 2 and 3 focus hours. *)
Example weekly_of_journal :
  out (cmd_weekly today journal)
  = [print (WeeklySummary (today - 2) today); print (WeeklyEntries 2);
     print (WeeklyFocus (P := platform) 5); print AccomplishmentsThisWeek;
     print (Accomplishment (lit "roadmap")); print (Accomplishment (lit "login"));
     print (Accomplishment (lit "tests"))].
Proof. vm_compute. reflexivity. Qed.

(** Monday and Wednesday are not consecutive: the streak is 1 over 2 days. *)
Example streak_of_journal :
  out (cmd_streak journal) = [ok (CurrentStreak 1); print (TotalDays 2)].
Proof. vm_compute. reflexivity. Qed.

Example streak_of_three_days :
  out (cmd_streak (add journal (lit "2024-01-02") (lit "Tuesday") (lit "ok") 1 []))
  = [ok (CurrentStreak 3); print (TotalDays 3)].
Proof. vm_compute. reflexivity. Qed.

Example journal_rows :
  map (fun r => (col_id r, col_date r, col_focus_hours r)) (stored journal)
  = [(1, lit "2024-01-01", 2); (2, lit "2024-01-03", 3)].
Proof. reflexivity. Qed.

(** C1 as stated fails: [insert_entry] itself stores a row with a mood
    outside the enumeration and returns its id. *)
Lemma insert_entry_accepts_unknown_mood :
  mem (lit "awful") MOODS = false
  /\ stored (committed (get_db (P := platform) empty_db)) = []
  /\ exists db,
       insert_entry (P := platform) now (get_db empty_db)
         (lit "2024-01-03") (lit "standup") [] [] (lit "awful") 0 [] [] []
       = Ok (db, 1)
       /\ map col_mood (stored (committed db)) = [lit "awful"].
Proof.
  split; [reflexivity|]. split; [reflexivity|].
  eexists. split; reflexivity.
Qed.

Lemma cmd_add_rejects_invalid_mood_witness :
  mem (args_mood bad_mood_args) MOODS = false
  /\ result (cmd_add today now bad_mood_args journal) = Raise (SystemExit 1)
  /\ stored (disk (cmd_add today now bad_mood_args journal)) = stored journal.
Proof.
  split; [reflexivity|].
  pose proof (cmd_add_rejects_invalid_mood (P := platform)
                today now bad_mood_args journal eq_refl) as H.
  cbv zeta in H. tauto.
Defined.

Lemma add_reachable (file : Db) (date_str title mood : str) (hours : Z)
    (accomplishments : list str) :
  reachable file -> reachable (add file date_str title mood hours accomplishments).
Proof.
  intros H. unfold add.
  destruct (insert_entry now (get_db file) date_str title [] [] mood hours
                         accomplishments [] []) as [[db eid]|e] eqn:E.
  - exact (reach_insert _ _ _ _ _ _ _ _ _ _ _ _ _ H E).
  - exact H.
Qed.

Lemma journal_reachable : reachable journal.
Proof. unfold journal. apply add_reachable, add_reachable, reach_empty. Qed.

(** The index of a journal with two entries, and what one more insert
    does to it. *)
Lemma index_in_step_with_entries_witness :
  reachable journal
  /\ map col_id (stored journal) = [1; 2]
  /\ indexed journal = map fts_doc (stored journal)
  /\ indexed journal
     = [mkDoc 1 (lit "Plan sprint") [] (lit "[]");
        mkDoc 2 (lit "Ship OAuth") [] (lit "[]")]
  /\ exists db,
       insert_entry (P := platform) now (get_db journal) (lit "2024-01-03")
         (lit "Retro") (lit "notes") [lit "api"] (lit "ok") 1 [] [] []
       = Ok (db, 3)
       /\ map col_id (stored (committed db)) = [1; 2; 3]
       /\ indexed (committed db)
          = indexed journal
            ++ [mkDoc 3 (lit "Retro") (lit "notes") (Json.json_dumps [lit "api"])].
Proof.
  split; [exact journal_reachable|]. split; [reflexivity|].
  destruct (index_in_step_with_entries (P := platform) journal journal_reachable)
    as (Hidx & _ & _ & Hins & _).
  split; [exact Hidx|]. split; [rewrite Hidx; reflexivity|].
  eexists. split; [reflexivity|].
  match goal with
  | |- context [committed ?db] =>
      destruct (Hins now (lit "2024-01-03") (lit "Retro") (lit "notes")
                     [lit "api"] (lit "ok") 1 [] [] [] db 3 eq_refl)
        as (_ & Hrows & Hdocs & _)
  end.
  split; [rewrite Hrows; reflexivity | exact Hdocs].
Defined.

(** C3 as stated fails: an entry dated two days after today is outside
    the window from Monday to today, and the weekly summary counts it. *)
Lemma weekly_counts_entry_dated_after_today :
  let file := add empty_db (lit "2024-01-05") (lit "Friday") (lit "ok") 5 [] in
  let start := today - Date.weekday today in
  Date.isoformat today = lit "2024-01-03"
  /\ Date.isoformat start = lit "2024-01-01"
  /\ filter (fun r => leb (Date.isoformat start) (col_date r)
                      && leb (col_date r) (Date.isoformat today))
            (stored file) = []
  /\ out (cmd_weekly today file)
     = [print (WeeklySummary start today); print (WeeklyEntries 1);
        print (WeeklyFocus (P := platform) 5)].
Proof. repeat split; reflexivity. Qed.

Lemma weekly_summary_since_monday_witness :
  Date.valid today = true
  /\ Date.weekday (today - Date.weekday today) = 0
  /\ result (cmd_weekly today journal) = Ok tt
  /\ out (cmd_weekly today journal)
     = [print (WeeklySummary (today - 2) today); print (WeeklyEntries 2);
        print (WeeklyFocus (P := platform) 5); print AccomplishmentsThisWeek;
        print (Accomplishment (lit "roadmap")); print (Accomplishment (lit "login"));
        print (Accomplishment (lit "tests"))].
Proof.
  split; [reflexivity|].
  pose proof (weekly_summary_since_monday (P := platform) today journal eq_refl)
    as H.
  cbv zeta in H. destruct H as (Hmon & _ & _ & _ & _ & _ & Hlast).
  split; [exact Hmon|].
  vm_compute in Hlast. exact Hlast.
Defined.

(** An accomplishment that the console refuses ends the weekly summary
    after the heading of the list. *)
Example weekly_refuses_lone_surrogate :
  let file := add empty_db (lit "2024-01-03") (lit "Retro") (lit "ok") 1
                  [lit "tests"; [0xD800]; lit "docs"] in
  result (cmd_weekly today file) = Raise UnicodeEncodeError
  /\ out (cmd_weekly today file)
     = [print (WeeklySummary (today - 2) today); print (WeeklyEntries 1);
        print (WeeklyFocus (P := platform) 1); print AccomplishmentsThisWeek;
        print (Accomplishment (lit "tests"))].
Proof. vm_compute. split; reflexivity. Qed.

(** C4 as stated fails: a query that the index rejects ends the command
    with the uncaught exception, and no error is reported. *)
Lemma cmd_search_syntax_error_uncaught :
  fts5_match (Platform := platform) [34] = None
  /\ result (cmd_search (P := platform) [34] journal) = Raise OperationalError
  /\ out (cmd_search (P := platform) [34] journal) = [].
Proof. repeat split; reflexivity. Qed.

Lemma cmd_search_rejected_query_raises_witness :
  utf8_encodable [34] = true
  /\ fts5_match (Platform := platform) [34] = None
  /\ result (cmd_search (P := platform) [34] journal) = Raise OperationalError.
Proof.
  split; [reflexivity|]. split; [reflexivity|].
  pose proof (cmd_search_rejected_query_raises (P := platform) [34] journal
                eq_refl eq_refl) as H.
  cbv zeta in H. destruct H as [H _]. exact H.
Defined.


(** C6 as stated fails: a tag of two code points, a high surrogate and a
    low one, is accepted by the insert and comes back as one code point. *)
Lemma get_after_insert_joins_surrogate_pair :
  exists db row e,
    insert_entry (P := platform) now (get_db journal) (lit "2024-01-03")
      (lit "Retro") [] [[0xD83D; 0xDE00]] (lit "ok") 1 [] [] [] = Ok (db, 3)
    /\ select_by_id (get_db (committed db)) 3 = Ok (Some row)
    /\ row_to_entry row = Ok e
    /\ tags e = [[0x1F600]]
    /\ tags e <> [[0xD83D; 0xDE00]].
Proof.
  eexists. eexists. eexists.
  split; [reflexivity|]. split; [reflexivity|]. split; [reflexivity|].
  split; [reflexivity | discriminate].
Qed.

Lemma show_after_insert_returns_inputs_witness :
  exists db eid row,
    insert_entry (P := platform) now (get_db journal) (lit "2024-01-03")
      (lit "Retro") (lit "notes") [lit "api"; lit "api"; lit "python"]
      (lit "ok") 1 [lit "b"; lit "a"] [] [lit "docs"] = Ok (db, eid)
    /\ select_by_id (get_db (committed db)) eid = Ok (Some row)
    /\ row_to_entry row
       = Ok (mkEntry eid (lit "2024-01-03") (lit "Retro") (lit "notes")
                     [lit "api"; lit "api"; lit "python"] (lit "ok") 1
                     [lit "b"; lit "a"] [] [lit "docs"] now)
    /\ result (cmd_show eid (committed db)) = Ok tt.
Proof.
  destruct (show_after_insert_returns_inputs (P := platform) now journal
              (lit "2024-01-03") (lit "Retro") (lit "notes")
              [lit "api"; lit "api"; lit "python"] (lit "ok") 1
              [lit "b"; lit "a"] [] [lit "docs"])
    as (db & eid & row & Hins & Hsel & Hrow & _ & Hres & _);
    try reflexivity;
    try (repeat constructor).
  - unfold MAX_ROWID. vm_compute. discriminate.
  - exists db, eid, row. split; [exact Hins|]. split; [exact Hsel|].
    split; [exact Hrow|]. rewrite Hres. reflexivity.
Defined.

(** What the console refuses ends the command: a tag that is a lone
    surrogate is stored and read back, and [cmd_show] stops at the line
    of the tags. *)
Example show_refuses_lone_surrogate :
  let file := disk (cmd_add today now
                      (mkAddArgs (P := platform) (lit "Retro") [] [0xD800]
                                 (lit "ok") 1 [] [] [])
                      journal) in
  map col_id (stored file) = [1; 2; 3]
  /\ result (cmd_show 3 file) = Raise UnicodeEncodeError
  /\ out (cmd_show 3 file)
     = [print (EntryHead (P := platform) 3 (lit "2024-01-03") (lit "ok") 1);
        print (EntryTitle (lit "Retro"))].
Proof. vm_compute. repeat split. Qed.

(** Both entries hold the letter p: the later one comes first. *)
Lemma search_newest_first_at_most_20_witness :
  reachable journal
  /\ exists rows,
       select_search (P := platform) (get_db journal) (lit "p") = Ok rows
       /\ map col_id rows = [2; 1]
       /\ newest_first rows
       /\ out (cmd_search (lit "p") journal)
          = [info (ResultsFor 2 (lit "p"));
             print (EntryHead (P := platform) 2 (lit "2024-01-03") (lit "great") 3);
             print (EntryTitle (lit "Ship OAuth"));
             print (EntryHead (P := platform) 1 (lit "2024-01-01") (lit "good") 2);
             print (EntryTitle (lit "Plan sprint"))]
       /\ result (cmd_search (lit "p") journal) = Ok tt.
Proof.
  split; [exact journal_reachable|].
  destruct (search_newest_first_at_most_20 (P := platform) journal (lit "p")
              (fun title body tags_json =>
                 contains (lit "p") title || contains (lit "p") body
                 || contains (lit "p") tags_json)
              journal_reachable eq_refl eq_refl)
    as (rows & Hsel & Hrows & _ & _ & Hnew & _ & _ & Hsome).
  exists rows. split; [exact Hsel|].
  split; [rewrite Hrows; vm_compute; reflexivity|].
  split; [exact Hnew|].
  destruct Hsome as [_ Hout]; [vm_compute; discriminate|].
  specialize (Hout
    [mkEntry (P := platform) 2 (lit "2024-01-03") (lit "Ship OAuth") [] []
             (lit "great") 3 [lit "login"; lit "tests"] [] [] now;
     mkEntry (P := platform) 1 (lit "2024-01-01") (lit "Plan sprint") [] []
             (lit "good") 2 [lit "roadmap"] [] [] now]).
  cbv zeta in Hout. destruct Hout as [Hout Hres].
  - rewrite Hrows. vm_compute. reflexivity.
  - split.
    + rewrite Hout, Hrows. vm_compute. reflexivity.
    + rewrite Hres. vm_compute. reflexivity.
Defined.

Lemma export_md_default_start_witness :
  let file := add journal (lit "2019-12-31") (lit "Old notes") (lit "ok") 1 [] in
  (@None str = None \/ @None str = Some [])
  /\ map col_date (stored file)
     = [lit "2024-01-01"; lit "2024-01-03"; lit "2019-12-31"]
  /\ exists exported,
       out (cmd_export_md today None None file)
       = [write_file (lit "journal_2020-01-01_2024-01-03.md")
                     (lit "2020-01-01") (lit "2024-01-03") exported;
          ok (Exported 2 (lit "journal_2020-01-01_2024-01-03.md"))]
       /\ Forall (fun e => ltb (date e) (lit "2020-01-01") = false) exported.
Proof.
  intros file.
  split; [left; reflexivity|]. split; [reflexivity|].
  pose proof (export_md_default_start (P := platform) today None None file
                (or_introl eq_refl)) as H.
  cbv zeta in H. destruct H as [_ [[H _] | [[H _] | (exported & _ & Hout & Hall)]]].
  - vm_compute in H. discriminate.
  - vm_compute in H. discriminate.
  - exists exported. split; [|exact Hall].
    rewrite Hout. vm_compute. reflexivity.
Defined.

(** A start that names a directory which does not exist: [open] raises,
    and nothing is written or printed. *)
Example export_into_missing_directory :
  result (cmd_export_md today (Some (lit "/")) None journal) = Raise OSError
  /\ out (cmd_export_md today (Some (lit "/")) None journal) = [].
Proof. vm_compute. split; reflexivity. Qed.

Lemma mood_trend_needs_known_moods_witness :
  let file := add journal (lit "2024-01-02") (lit "standup") (lit "awful") 1 [] in
  result (cmd_mood_trend today 7 file) = Raise ValueError
  /\ out (cmd_mood_trend today 7 file) = [print (MoodDistribution 7)].
Proof.
  intros file.
  pose proof (mood_trend_needs_known_moods (P := platform) today 7 file) as H.
  cbv zeta in H. destruct H as [H _].
  apply (H (today - 7)
           (mkRow (P := platform) 3 (lit "2024-01-02") (lit "standup") [] (lit "[]")
                  (lit "awful") 1 (lit "[]") (lit "[]") (lit "[]") now)).
  - reflexivity.
  - split; [vm_compute; right; right; left; reflexivity
           | vm_compute; reflexivity].
  - reflexivity.
Defined.

End Examples.

(* ===================================================================== *)
(** ** The further properties on a journal written by two commands *)
(* ===================================================================== *)

Module Runs.
Import Demo.
#[local] Existing Instance platform.

Lemma diary_from_text : written_from_text diary.
Proof.
  unfold diary.
  apply wft_add; [apply wft_add; [apply wft_empty | reflexivity | repeat split]
                 | reflexivity | repeat split].
Qed.

Lemma diary_written : written_by_add diary.
Proof. exact (proj1 (written_text_rows diary diary_from_text)). Qed.

Lemma diary_reachable : reachable diary.
Proof. exact (proj1 (written_rows_well_formed diary diary_written)). Qed.

Example diary_rows :
  map (fun r => (col_id r, col_date r, col_mood r, col_tags_json r)) (stored diary)
  = [(1, lit "2024-01-01", lit "good", lit "[]");
     (2, lit "2024-01-03", lit "ok", [91; 34] ++ lit "api" ++ [34; 44; 32; 34]
                                      ++ lit "python" ++ [34; 44; 32; 34]
                                      ++ lit "api" ++ [34; 93])].
Proof. vm_compute. reflexivity. Qed.

Lemma written_row_is_decoded_witness :
  Forall (fun s => is_str s = true) [[0xD83D; 0xDE00]; lit "api"]
  /\ row_to_entry (written_row (P := platform) 1 now (lit "2024-01-03")
                     (lit "Retro") [] [[0xD83D; 0xDE00]; lit "api"] (lit "ok") 1
                     [] [] [])
     = Ok (mkEntry 1 (lit "2024-01-03") (lit "Retro") []
                   [[0x1F600]; lit "api"] (lit "ok") 1 [] [] [] now).
Proof.
  assert (Hs : Forall (fun s => is_str s = true) [[0xD83D; 0xDE00]; lit "api"])
    by (repeat constructor).
  split; [exact Hs|].
  pose proof (written_row_is_decoded (P := platform) 1 now (lit "2024-01-03")
                (lit "Retro") [] [[0xD83D; 0xDE00]; lit "api"] (lit "ok") 1
                [] [] [] Hs (Forall_nil _) (Forall_nil _) (Forall_nil _)) as H.
  destruct H as [H _]. exact H.
Defined.

Lemma ids_count_up_witness :
  reachable diary
  /\ map col_id (stored diary) = [1; 2]
  /\ next_rowid diary = 3.
Proof.
  split; [exact diary_reachable|].
  pose proof (ids_count_up (P := platform) diary diary_reachable) as H.
  cbv zeta in H. destruct H as (H1 & _ & H3).
  split; [exact H1 | exact H3].
Defined.

Lemma cmd_show_unknown_id_witness :
  map col_id (stored diary) = [1; 2]
  /\ result (cmd_show 7 diary) = Ok tt
  /\ out (cmd_show 7 diary) = [err (EntryNotFound 7)].
Proof.
  split; [reflexivity|].
  assert (Hnone : forall r, In r (stored diary) -> col_id r <> 7).
  { intros r Hr. apply (in_map col_id) in Hr.
    change (In (col_id r) [1; 2]) in Hr.
    destruct Hr as [<-|[<-|[]]]; discriminate. }
  pose proof (cmd_show_unknown_id (P := platform) 7 diary Hnone) as H.
  destruct H as [H _]. apply H. unfold MAX_ROWID. lia.
Defined.

Lemma cmd_add_then_show_witness :
  mem (args_mood retro_args) MOODS = true
  /\ next_rowid diary <= MAX_ROWID
  /\ out (cmd_show 3 (disk (cmd_add today now retro_args diary)))
     = [print (EntryHead (P := platform) 3 (lit "2024-01-03") (lit "ok") 1);
        print (EntryTitle (lit "Retro"));
        print (EntryTags [lit "api"; lit "python"; lit "api"]);
        print (EntryBody (lit "notes"));
        print AccomplishmentsHeading;
        print (Accomplishment (lit "fixed login"));
        print (Accomplishment (lit "wrote tests"));
        print TomorrowHeading;
        print (TomorrowItem (lit "docs"))]
  /\ result (cmd_show 3 (disk (cmd_add today now retro_args diary))) = Ok tt.
Proof.
  assert (Hroom : next_rowid diary <= MAX_ROWID) by (vm_compute; discriminate).
  assert (Hstr : args_are_str retro_args) by (repeat split).
  assert (Henc : args_encodable retro_args) by (repeat split).
  split; [reflexivity|]. split; [exact Hroom|].
  pose proof (cmd_add_then_show (P := platform) today now retro_args diary
                eq_refl eq_refl eq_refl eq_refl Hstr eq_refl Hroom) as H.
  cbv zeta in H. destruct H as (_ & _ & _ & _ & _ & H).
  destruct (H Henc) as (_ & Hout & Hres).
  split; [refine (eq_trans Hout _); vm_compute; reflexivity | exact Hres].
Defined.

Lemma written_by_add_well_formed_witness :
  written_by_add diary
  /\ reachable diary
  /\ Forall well_formed_row (stored diary).
Proof.
  split; [exact diary_written|].
  exact (written_by_add_well_formed (P := platform) diary diary_written).
Defined.

Lemma cmd_today_lists_the_day_witness :
  reachable diary
  /\ out (cmd_today today diary) = entry_lines retro false
  /\ result (cmd_today today diary) = Ok tt.
Proof.
  split; [exact diary_reachable|].
  pose proof (cmd_today_lists_the_day (P := platform) today diary
                diary_reachable) as H.
  cbv zeta in H. destruct H as (_ & _ & _ & H & _).
  destruct (H [retro]) as [Hout Hres].
  - vm_compute. discriminate.
  - vm_compute. reflexivity.
  - split; [rewrite Hout | rewrite Hres]; vm_compute; reflexivity.
Defined.

Lemma cmd_tag_cloud_counts_witness :
  mapM Json.json_loads (map col_tags_json (stored diary))
  = Ok [[]; [lit "api"; lit "python"; lit "api"]]
  /\ exists lines,
       NoDup (map fst lines)
       /\ Sorted (fun a b => snd b <= snd a) lines
       /\ out (cmd_tag_cloud diary)
          = print TagCloudHeading
            :: map (fun kv => print (TagLine (fst kv) (snd kv)))
                   (take_while (fun kv => stdout_accepts (fst kv)) lines).
Proof.
  assert (Hl : mapM Json.json_loads (map col_tags_json (stored diary))
               = Ok [[]; [lit "api"; lit "python"; lit "api"]])
    by (vm_compute; reflexivity).
  split; [exact Hl|].
  pose proof (cmd_tag_cloud_counts (P := platform) diary _ Hl) as H.
  cbv zeta in H. destruct H as (_ & _ & H).
  destruct H as (lines & Hnd & _ & _ & Hs & Hout & _); [discriminate|].
  exists lines. split; [exact Hnd|]. split; [exact Hs | exact Hout].
Defined.

(** The lines of the tag cloud of the diary. *)
Example tag_cloud_of_diary :
  out (cmd_tag_cloud diary)
  = [print TagCloudHeading; print (TagLine (lit "api") 2);
     print (TagLine (lit "python") 1)].
Proof. vm_compute. reflexivity. Qed.

Lemma written_journal_can_be_listed_witness :
  written_from_text diary
  /\ result (cmd_list diary) = Ok tt
  /\ result (cmd_show 2 diary) = Ok tt
  /\ result (cmd_export_md today None None diary) = Ok tt.
Proof.
  split; [exact diary_from_text|].
  pose proof (written_journal_can_be_listed (P := platform) diary
                diary_from_text) as H.
  destruct H as (_ & Hlist & Hshow & _ & Hexport).
  split; [exact Hlist|]. split; [apply Hshow; unfold MAX_ROWID; lia|].
  apply Hexport; reflexivity.
Defined.

Lemma written_journal_can_be_summarised_witness :
  written_from_text diary
  /\ result (cmd_streak diary) = Ok tt
  /\ result (cmd_tag_cloud diary) = Ok tt
  /\ result (cmd_weekly today diary) = Ok tt.
Proof.
  split; [exact diary_from_text|].
  pose proof (written_journal_can_be_summarised (P := platform) diary
                diary_from_text) as H.
  destruct H as (Hstreak & Hcloud & Hweekly & _).
  split; [exact Hstreak|]. split; [exact Hcloud|]. apply Hweekly. reflexivity.
Defined.

Lemma streak_within_days_witness :
  written_by_add diary
  /\ exists (days : list str) (streak : Z),
       out (cmd_streak diary)
       = [ok (CurrentStreak streak);
          print (TotalDays (Z.of_nat (List.length days)))]
       /\ 1 <= streak <= Z.of_nat (List.length days).
Proof.
  split; [exact diary_written|].
  pose proof (streak_within_days (P := platform) diary diary_written) as H.
  destruct H as [_ H].
  destruct H as (days & streak & _ & _ & Hout & Hbound);
    [vm_compute; discriminate|].
  exists days, streak. split; [exact Hout | exact Hbound].
Defined.

Lemma export_md_by_calendar_witness :
  written_from_text diary
  /\ Date.valid (today - 1) = true
  /\ exists rows exported,
       select_between (get_db diary) (Date.isoformat (today - 1))
                      (Date.isoformat today) = Ok rows
       /\ map col_id rows = [2]
       /\ mapM row_to_entry rows = Ok exported
       /\ out (cmd_export_md today (Some (Date.isoformat (today - 1)))
                             (Some (Date.isoformat today)) diary)
          = [write_file (lit "journal_2024-01-02_2024-01-03.md")
                        (lit "2024-01-02") (lit "2024-01-03") exported;
             ok (Exported 1 (lit "journal_2024-01-02_2024-01-03.md"))]
       /\ result (cmd_export_md today (Some (Date.isoformat (today - 1)))
                                (Some (Date.isoformat today)) diary) = Ok tt.
Proof.
  split; [exact diary_from_text|]. split; [reflexivity|].
  pose proof (export_md_by_calendar (P := platform) today (today - 1) today diary
                diary_from_text eq_refl eq_refl) as H.
  cbv zeta in H. destruct H as (rows & Hsel & _ & _ & _ & Hsome).
  assert (Hrows : map col_id rows = [2]).
  { vm_compute in Hsel. injection Hsel as <-. reflexivity. }
  destruct Hsome as (exported & Hes & Hmatch).
  { intros E. rewrite E in Hrows. discriminate Hrows. }
  exists rows, exported. split; [exact Hsel|]. split; [exact Hrows|].
  split; [exact Hes|].
  change (open_w (lit "journal_" ++ Date.isoformat (today - 1) ++ [95]
                  ++ Date.isoformat today ++ lit ".md"))
    with (Ok (A := unit) tt) in Hmatch.
  destruct Hmatch as [Hout Hres]. split; [|exact Hres].
  rewrite Hout.
  assert (Hlen : List.length rows = 1%nat)
    by (rewrite <- (length_map col_id), Hrows; reflexivity).
  rewrite Hlen. reflexivity.
Defined.

Lemma mood_trend_counts_witness :
  Date.sub_days today 7 = Ok (today - 7)
  /\ exists lines,
       out (cmd_mood_trend today 7 diary)
       = print (MoodDistribution 7)
         :: map (fun l => print (MoodLine (fst l) (snd l) 2)) lines
       /\ fold_right Z.add 0 (map snd lines) = 2.
Proof.
  split; [reflexivity|].
  pose proof (mood_trend_counts (P := platform) today 7 (today - 7) diary) as H.
  cbv zeta in H.
  destruct H as (lines & Hout & _ & _ & _ & Hsum & _).
  - reflexivity.
  - intros r Hr. vm_compute in Hr. destruct Hr as [<-|[<-|[]]]; reflexivity.
  - vm_compute. discriminate.
  - exists lines. split; [exact Hout | exact Hsum].
Defined.

End Runs.
